(** * The dataset reconciliation pipeline of [src/process.py]

    A shallow embedding of [parse_genres], [filter_transform_metadata],
    [one_hot_encode_genres] and [merge_datasets], together with the pandas
    operations they are written with, and the properties the specification
    states about them.  The loaders [load_movielens_links] and
    [load_imdb_ratings] of [src/load.py] are embedded from the frame
    [read_csv] returned, and the target ids of [src/main.py] from the link
    table.

    Python values that the code passes by reference (the [DataFrame]
    arguments) live in an object store; every pandas call that returns a new
    frame allocates, every item assignment writes in place.

    What the model takes from pandas and Python:
    - a frame is its column labels and its rows, each row an association
      list from label to entry; the index is the position of the row;
    - numbers are exact (a rational or an infinity), NaN, None, pd.NA and
      NaT are the one missing value [NA];
    - [ast.literal_eval], the reading of a number in a string and
      [pd.to_datetime] are parameters of the normalizer;
    - a [str] is its UTF-8 encoding, and [str.strip] trims the characters
      Python counts as whitespace;
    - [.str] is accepted on a series that holds a string, where an entry
      that is no string becomes missing, and refused with AttributeError on
      a series that holds numbers only; on a series without any value the
      dtype decides: a frame here carries no dtypes, the series is an
      [object] series, and accepted, when the column it was cut from holds
      a string, and is outside the model otherwise, as are series that hold
      other objects: a call on them ends with [Unmodelled];
    - [astype("Int64")] is modelled on columns of numbers: an integer of
      the 64-bit range is kept, a float with such a value becomes it, any
      other number is refused with TypeError, and a column whose largest
      value is infinite with OverflowError; on strings, dates and objects
      the cast ends with [Unmodelled];
    - the properties of a table a function returns are stated for every
      table it returns, and the sample runs show it returning;
    - in [drop_duplicates] and [merge] a missing key equals a missing key,
      as pandas has it;
    - [sort_values] is an insertion sort; the properties below use only
      that it permutes the rows and leaves integer keys in ascending
      order. *)

From Stdlib Require Import List String Ascii Bool Arith ZArith QArith Lia.
From Stdlib Require Import Permutation Sorted.
Import ListNotations.

Set Warnings "-register-all".
Local Close Scope Q_scope.
Local Open Scope string_scope.
Local Open Scope list_scope.

(** ** Python and pandas values *)

(** A float: finite (kept exact) or infinite.  NaN is the missing value [NA]
    of a cell and never a [number]. *)
Inductive number : Type :=
| Fin (q : Q)
| Inf (negative : bool).

Definition number_eqb (a b : number) : bool :=
  match a, b with
  | Fin p, Fin q => Qeq_bool p q
  | Inf s, Inf t => Bool.eqb s t
  | _, _ => false
  end.

Definition number_is_zero (a : number) : bool :=
  match a with
  | Fin q => Qeq_bool q 0%Q
  | Inf _ => false
  end.

(** The integer a float stands for, if it is integral (what a safe cast to
    Int64 accepts). *)
Definition as_integer (a : number) : option Z :=
  match a with
  | Fin q =>
      if (Z.rem (Qnum q) (Z.pos (Qden q)) =? 0)%Z
      then Some (Z.quot (Qnum q) (Z.pos (Qden q)))
      else None
  | Inf _ => None
  end.

(** What [ast.literal_eval] can return. A [PDict] holds the items of the
    dictionary in insertion order. *)
Inductive pyval : Type :=
| PNone
| PEllipsis
| PBool (b : bool)
| PInt (z : Z)
| PFloat (x : number)
| PComplex (re im : number)
| PStr (s : string)
| PBytes (s : string)
| PList (l : list pyval)
| PTuple (l : list pyval)
| PSet (l : list pyval)
| PDict (items : list (pyval * pyval)).

(** A parsed date: only its calendar fields are looked at. *)
Record datetime : Type := mkDatetime { dt_year : Z; dt_month : Z; dt_day : Z }.

(** One entry of a frame.  [NA] is the missing value (NaN, None, pd.NA, NaT);
    [Obj] is any other Python object held in an object column, such as the
    list [parse_genres] returns. *)
Inductive cell : Type :=
| NA
| Int (z : Z)
| Float (x : number)
| Str (s : string)
| Timestamp (t : datetime)
| Obj (v : pyval).

Definition isna (c : cell) : bool :=
  match c with NA => true | _ => false end.

Definition as_str (c : cell) : option string :=
  match c with
  | Str s => Some s
  | Obj (PStr s) => Some s
  | _ => None
  end.

Definition as_number (c : cell) : option number :=
  match c with
  | Int z => Some (Fin (inject_Z z))
  | Float x => Some x
  | _ => None
  end.

Definition datetime_eqb (a b : datetime) : bool :=
  ((dt_year a =? dt_year b) && (dt_month a =? dt_month b) && (dt_day a =? dt_day b))%Z.

(** Equality of two key values as pandas' hashing of keys sees it in
    [drop_duplicates] and [merge]: numbers by value, strings by content, and
    a missing key equal to a missing key. *)
Definition cell_eqb (a b : cell) : bool :=
  match a, b with
  | NA, NA => true
  | Str s, Str t => String.eqb s t
  | Timestamp s, Timestamp t => datetime_eqb s t
  | _, _ =>
      match as_number a, as_number b with
      | Some x, Some y => number_eqb x y
      | _, _ => false
      end
  end.

(** ** Strings: [str.strip()] *)

(** A [str] is held as its UTF-8 encoding, one [ascii] per byte.  The
    characters [str.strip()] trims are those [str.isspace()] accepts; by
    their encoding they have one, two or three bytes. *)

(** U+0009 to U+000D, U+001C to U+001F and U+0020. *)
Definition is_space (a : ascii) : bool :=
  let n := nat_of_ascii a in
  (((9 <=? n) && (n <=? 13)) || ((28 <=? n) && (n <=? 32)))%nat.

(** U+0085 (C2 85) and U+00A0 (C2 A0). *)
Definition is_space2 (a b : ascii) : bool :=
  let x := nat_of_ascii a in
  let y := nat_of_ascii b in
  ((x =? 194) && ((y =? 133) || (y =? 160)))%nat.

(** U+1680 (E1 9A 80); U+2000 to U+200A, U+2028, U+2029 and U+202F
    (E2 80 80 to E2 80 8A, E2 80 A8, E2 80 A9, E2 80 AF); U+205F (E2 81 9F);
    U+3000 (E3 80 80). *)
Definition is_space3 (a b c : ascii) : bool :=
  let x := nat_of_ascii a in
  let y := nat_of_ascii b in
  let z := nat_of_ascii c in
  (((x =? 225) && (y =? 154) && (z =? 128))
   || ((x =? 226) && (y =? 128)
       && (((128 <=? z) && (z <=? 138)) || (z =? 168) || (z =? 169) || (z =? 175)))
   || ((x =? 226) && (y =? 129) && (z =? 159))
   || ((x =? 227) && (y =? 128) && (z =? 128)))%nat.

(** The bytes left when the whitespace characters at the head are dropped.
    With [backwards] the bytes are those of the text read from its end, so
    a character shows its last byte first. *)
Fixpoint trim (backwards : bool) (s : list ascii) : list ascii :=
  match s with
  | [] => []
  | a :: s1 =>
      if is_space a then trim backwards s1 else
      match s1 with
      | [] => s
      | b :: s2 =>
          if (if backwards then is_space2 b a else is_space2 a b) then trim backwards s2 else
          match s2 with
          | [] => s
          | c :: s3 =>
              if (if backwards then is_space3 c b a else is_space3 a b c)
              then trim backwards s3
              else s
          end
      end
  end.

(** The text after the whitespace character at its head, if it has one. *)
Definition ws_head (backwards : bool) (s : list ascii) : option (list ascii) :=
  match s with
  | [] => None
  | a :: s1 =>
      if is_space a then Some s1 else
      match s1 with
      | [] => None
      | b :: s2 =>
          if (if backwards then is_space2 b a else is_space2 a b) then Some s2 else
          match s2 with
          | [] => None
          | c :: s3 =>
              if (if backwards then is_space3 c b a else is_space3 a b c)
              then Some s3
              else None
          end
      end
  end.

Definition lstrip (s : string) : string :=
  string_of_list_ascii (trim false (list_ascii_of_string s)).

Definition rstrip (s : string) : string :=
  string_of_list_ascii (rev (trim true (rev (list_ascii_of_string s)))).

Definition strip (s : string) : string := rstrip (lstrip s).

(** ** Frames *)

(** A row keeps the label of every entry; [columns] is the frame's schema
    (a frame without rows still has columns). *)
Definition row : Type := list (string * cell).
Definition Series : Type := list cell.

Record DataFrame : Type := mkDataFrame { columns : list string; rows : list row }.

Definition mem (c : string) (l : list string) : bool := existsb (String.eqb c) l.

Fixpoint lookup (c : string) (r : row) : option cell :=
  match r with
  | [] => None
  | (k, v) :: r' => if String.eqb c k then Some v else lookup c r'
  end.

(** The entry of row [r] under label [c] ([NA] when the row has none). *)
Definition get (c : string) (r : row) : cell :=
  match lookup c r with Some v => v | None => NA end.

Definition has_column (c : string) (df : DataFrame) : bool := mem c (columns df).

(** Every row carries exactly the frame's columns, in order. *)
Definition wf (df : DataFrame) : Prop :=
  Forall (fun r => map fst r = columns df) (rows df).

(** ** Exceptions and results *)

(** The exceptions of Python that the code meets.  [NoSuchObject] is a
    reference into the store that holds nothing; [Unmodelled] ends a run the
    model does not describe: whether the code returns or raises there, and
    what, is not said. *)
Inductive exn : Type :=
| KeyError (labels : list string)
| TypeError
| ValueError
| AttributeError
| OverflowError
| MergeError (labels : list string)
| NoSuchObject
| Unmodelled.

Inductive result (A : Type) : Type :=
| Ok (a : A)
| Raise (e : exn).
Arguments Ok {A} a.
Arguments Raise {A} e.

Definition bind_result {A B : Type} (x : result A) (k : A -> result B) : result B :=
  match x with
  | Ok a => k a
  | Raise e => Raise e
  end.

(** ** pandas operations on frame values *)

(** [df.columns] that [labels] asks for and [df] lacks. *)
Definition missing_labels (labels : list string) (df : DataFrame) : list string :=
  filter (fun c => negb (has_column c df)) labels.

(** [df[c]] for one label. *)
Definition getitem (df : DataFrame) (c : string) : result Series :=
  if has_column c df then Ok (map (get c) (rows df)) else Raise (KeyError [c]).

(** [df[labels]] for a list of labels: the projection, in the order asked. *)
Definition select (df : DataFrame) (labels : list string) : result DataFrame :=
  match missing_labels labels df with
  | [] => Ok {| columns := labels;
                rows := map (fun r => map (fun c => (c, get c r)) labels) (rows df) |}
  | missing => Raise (KeyError missing)
  end.

Fixpoint set_cell (c : string) (v : cell) (r : row) : row :=
  match r with
  | [] => [(c, v)]
  | (k, w) :: r' =>
      if String.eqb c k then (k, v) :: r' else (k, w) :: set_cell c v r'
  end.

Fixpoint set_rows (c : string) (rs : list row) (s : Series) : list row :=
  match rs with
  | [] => []
  | r :: rs' => set_cell c (hd NA s) r :: set_rows c rs' (tl s)
  end.

(** The frame after [df[c] = s]: column [c] is overwritten where it stands,
    or appended as the last column. *)
Definition setitem (df : DataFrame) (c : string) (s : Series) : DataFrame :=
  {| columns := if has_column c df then columns df else columns df ++ [c];
     rows := set_rows c (rows df) s |}.

(** [df[mask]] for a boolean series. *)
Fixpoint mask_rows (rs : list row) (m : list bool) : list row :=
  match rs, m with
  | r :: rs', b :: m' => if b then r :: mask_rows rs' m' else mask_rows rs' m'
  | _, _ => []
  end.

Definition boolean_index (df : DataFrame) (m : list bool) : DataFrame :=
  {| columns := columns df; rows := mask_rows (rows df) m |}.

Definition rename_label (m : list (string * string)) (c : string) : string :=
  match find (fun p => String.eqb c (fst p)) m with
  | Some p => snd p
  | None => c
  end.

Definition rename_keys (f : string -> string) (r : row) : row :=
  map (fun p => (f (fst p), snd p)) r.

(** [df.rename(columns=m)]; labels [m] does not mention stay. *)
Definition rename (m : list (string * string)) (df : DataFrame) : DataFrame :=
  {| columns := map (rename_label m) (columns df);
     rows := map (rename_keys (rename_label m)) (rows df) |}.

(** [df.dropna(subset=[c])]. *)
Definition dropna (c : string) (df : DataFrame) : result DataFrame :=
  if has_column c df
  then Ok {| columns := columns df;
             rows := filter (fun r => negb (isna (get c r))) (rows df) |}
  else Raise (KeyError [c]).

(** Rows whose key was not seen in an earlier row. *)
Fixpoint first_seen (key : row -> cell) (seen : list cell) (rs : list row) : list row :=
  match rs with
  | [] => []
  | r :: rs' =>
      if existsb (cell_eqb (key r)) seen
      then first_seen key (key r :: seen) rs'
      else r :: first_seen key (key r :: seen) rs'
  end.

(** [df.drop_duplicates(subset=[c], keep='first')]. *)
Definition drop_duplicates (c : string) (df : DataFrame) : result DataFrame :=
  if has_column c df
  then Ok {| columns := columns df; rows := first_seen (get c) [] (rows df) |}
  else Raise (KeyError [c]).

Definition row_eqb (labels : list string) (r s : row) : bool :=
  forallb (fun c => cell_eqb (get c r) (get c s)) labels.

Fixpoint first_seen_rows (labels : list string) (seen : list row) (rs : list row) : list row :=
  match rs with
  | [] => []
  | r :: rs' =>
      if existsb (row_eqb labels r) seen
      then first_seen_rows labels seen rs'
      else r :: first_seen_rows labels (r :: seen) rs'
  end.

(** [df.drop_duplicates()]: rows equal in every column. *)
Definition drop_duplicates_all (df : DataFrame) : DataFrame :=
  {| columns := columns df; rows := first_seen_rows (columns df) [] (rows df) |}.

(** [df.drop(columns=labels)]. *)
Definition drop (labels : list string) (df : DataFrame) : result DataFrame :=
  match missing_labels labels df with
  | [] => Ok {| columns := filter (fun c => negb (mem c labels)) (columns df);
                rows := map (filter (fun p => negb (mem (fst p) labels))) (rows df) |}
  | missing => Raise (KeyError missing)
  end.

(** [series.str.strip()] on one entry of a column [.str] accepts: an entry
    that is no [str] becomes missing. *)
Definition strip_cell (c : cell) : cell :=
  match as_str c with
  | Some s => Str (strip s)
  | None => NA
  end.

Definition is_str (c : cell) : bool :=
  match c with Str _ => true | _ => false end.

Definition is_number (c : cell) : bool :=
  match c with Int _ | Float _ => true | _ => false end.

Definition is_object (c : cell) : bool :=
  match c with Obj _ => true | _ => false end.

(** [series.str.strip()] on a series [s] cut from the column [origin]
    (rows dropped, or missing values joined in, since).  The [.str] accessor
    looks at the series first: a series that holds a string is accepted; a
    series that holds numbers and nothing else but missing values is refused
    with AttributeError, whatever its dtype.  A series that holds nothing
    but missing values, or nothing at all, is accepted when its dtype is
    [object], which it is when the column it was cut from holds a string;
    a frame here does not carry dtypes, so without a string in [origin] the
    outcome is outside the model.  So it is when the series holds other
    objects (dates, lists, bytes). *)
Definition str_strip_of (origin s : Series) : result Series :=
  if existsb is_object s then Raise Unmodelled
  else if existsb is_str s then Ok (map strip_cell s)
  else if existsb is_number s && forallb (fun c => isna c || is_number c) s
       then Raise AttributeError
       else if existsb is_str origin && forallb isna s
            then Ok (map strip_cell s)
            else Raise Unmodelled.

(** [series.str.strip()] on a column as it stands in its frame. *)
Definition str_strip (s : Series) : result Series := str_strip_of s s.

(** *** [pd.merge(left, right, on=key, how='left')] *)

(** Labels that a suffix turned into a repeat of an earlier label, although
    the label was no repeat before: pandas refuses these. *)
Fixpoint suffix_repeats (f : string -> string) (old new : list string) (cols : list string)
  : list string :=
  match cols with
  | [] => []
  | c :: cs =>
      (if mem (f c) new && negb (mem c old) then [f c] else [])
        ++ suffix_repeats f (c :: old) (f c :: new) cs
  end.

(** A label both frames have, the key apart, gets a suffix on each side. *)
Definition overlaps (left right : DataFrame) (on c : string) : bool :=
  negb (String.eqb c on) && has_column c left && has_column c right.

Definition suffixed (left right : DataFrame) (on suffix c : string) : string :=
  if overlaps left right on c then (c ++ suffix)%string else c.

Definition other_columns (on : string) (df : DataFrame) : list string :=
  filter (fun c => negb (String.eqb c on)) (columns df).

Definition without_key (on : string) (r : row) : row :=
  filter (fun p => negb (String.eqb (fst p) on)) r.

(** The rows one left row gives: one per right row with an equal key, in
    the right frame's order, or the left row alone with every right column
    missing. *)
Definition join_row (lname rname : string -> string) (on : string)
    (rcols : list string) (right_rows : list row) (l : row) : list row :=
  match filter (fun r => cell_eqb (get on r) (get on l)) right_rows with
  | [] => [rename_keys lname l ++ map (fun c => (rname c, NA)) rcols]
  | matches =>
      map (fun r => rename_keys lname l ++ rename_keys rname (without_key on r)) matches
  end.

Definition merge (left right : DataFrame) (on : string) : result DataFrame :=
  if negb (has_column on left && has_column on right) then Raise (KeyError [on]) else
  let lname := suffixed left right on "_x" in
  let rname := suffixed left right on "_y" in
  let rcols := other_columns on right in
  match suffix_repeats lname [] [] (columns left) ++ suffix_repeats rname [] [] rcols with
  | _ :: _ as repeats => Raise (MergeError repeats)
  | [] =>
      Ok {| columns := map lname (columns left) ++ map rname rcols;
            rows := flat_map (join_row lname rname on rcols (rows right)) (rows left) |}
  end.

(** *** [pd.concat([a, b], axis=1)] for two frames on the same index *)

Fixpoint zip_rows (a b : list row) : list row :=
  match a, b with
  | r :: a', s :: b' => (r ++ s) :: zip_rows a' b'
  | _, _ => []
  end.

Definition concat_columns (a b : DataFrame) : DataFrame :=
  {| columns := columns a ++ columns b; rows := zip_rows (rows a) (rows b) |}.

(** *** Sorting *)

Fixpoint insert_label (c : string) (l : list string) : list string :=
  match l with
  | [] => [c]
  | d :: l' => if String.leb c d then c :: l else d :: insert_label c l'
  end.

(** [sorted(labels)] on strings. *)
Definition sorted (l : list string) : list string := fold_right insert_label [] l.

Definition number_leb (a b : number) : bool :=
  match a, b with
  | Fin p, Fin q => Qle_bool p q
  | Inf true, _ => true
  | _, Inf false => true
  | _, _ => false
  end.

(** The order [sort_values] puts a numeric column in: ascending, what is
    no number last. *)
Definition sort_leb (a b : cell) : bool :=
  match as_number a, as_number b with
  | Some x, Some y => number_leb x y
  | Some _, None => true
  | None, Some _ => false
  | None, None => true
  end.

Fixpoint insert_row (key : row -> cell) (r : row) (l : list row) : list row :=
  match l with
  | [] => [r]
  | s :: l' => if sort_leb (key r) (key s) then r :: l else s :: insert_row key r l'
  end.

(** [df.sort_values(c)]. *)
Definition sort_values (c : string) (df : DataFrame) : result DataFrame :=
  if has_column c df
  then Ok {| columns := columns df;
             rows := fold_right (insert_row (get c)) [] (rows df) |}
  else Raise (KeyError [c]).

(** ** The object store *)

(** A variable of the program holds a reference; the frame it refers to is
    in the store.  References are positions, and allocation appends. *)
Definition ref : Type := nat.
Definition heap : Type := list DataFrame.

Definition Py (A : Type) : Type := heap -> result A * heap.

Definition ret {A : Type} (a : A) : Py A := fun h => (Ok a, h).

Definition raise {A : Type} (e : exn) : Py A := fun h => (Raise e, h).

Definition bind {A B : Type} (m : Py A) (k : A -> Py B) : Py B :=
  fun h =>
    match m h with
    | (Ok a, h') => k a h'
    | (Raise e, h') => (Raise e, h')
    end.

Declare Scope py_scope.
Delimit Scope py_scope with py.
Notation "x <- m ;; k" := (bind m (fun x => k))
  (at level 100, m at next level, right associativity) : py_scope.
Notation "m ;; k" := (bind m (fun _ => k))
  (at level 100, right associativity) : py_scope.
Local Open Scope py_scope.

Definition lift {A : Type} (x : result A) : Py A := fun h => (x, h).

Fixpoint update (h : heap) (r : ref) (df : DataFrame) : heap :=
  match h, r with
  | [], _ => []
  | _ :: h', O => df :: h'
  | d :: h', S r' => d :: update h' r' df
  end.

Definition new (df : DataFrame) : Py ref := fun h => (Ok (List.length h), h ++ [df]).

Definition deref (r : ref) : Py DataFrame :=
  fun h =>
    match nth_error h r with
    | Some df => (Ok df, h)
    | None => (Raise NoSuchObject, h)
    end.

Definition assign (r : ref) (df : DataFrame) : Py unit :=
  fun h => (Ok tt, update h r df).

(** A method call that returns a new frame and leaves its receiver alone. *)
Definition method (f : DataFrame -> result DataFrame) (r : ref) : Py ref :=
  df <- deref r ;;
  df' <- lift (f df) ;;
  new df'.

(** A call that changes its receiver in place. *)
Definition inplace (f : DataFrame -> result DataFrame) (r : ref) : Py unit :=
  df <- deref r ;;
  df' <- lift (f df) ;;
  assign r df'.

(** [df[c]] and [df[c] = s] on a reference. *)
Definition column (r : ref) (c : string) : Py Series :=
  df <- deref r ;;
  lift (getitem df c).

Definition assign_column (r : ref) (c : string) (s : Series) : Py unit :=
  inplace (fun df => Ok (setitem df c s)) r.

Definition copy (r : ref) : Py ref := method (fun df => Ok df) r.

(** The column a series was cut from, for its dtype: no step of the code,
    it never raises. *)
Definition origin (r : ref) (c : string) : Py Series :=
  df <- deref r ;;
  ret (match getitem df c with
       | Ok s => s
       | Raise _ => []
       end).

Definition reset_index (r : ref) : Py ref := method (fun df => Ok df) r.

(** The frame behind the reference a call returned, and the frame an
    argument refers to once the call is over. *)
Definition returned (out : result ref * heap) : result DataFrame :=
  match fst out with
  | Ok r =>
      match nth_error (snd out) r with
      | Some df => Ok df
      | None => Raise NoSuchObject
      end
  | Raise e => Raise e
  end.

Definition object_after (out : result ref * heap) (r : ref) : option DataFrame :=
  nth_error (snd out) r.

Fixpoint for_each {A : Type} (l : list A) (body : A -> Py unit) : Py unit :=
  match l with
  | [] => ret tt
  | a :: l' => body a ;; for_each l' body
  end.

Fixpoint map_result {A B : Type} (f : A -> result B) (l : list A) : result (list B) :=
  match l with
  | [] => Ok []
  | a :: l' =>
      bind_result (f a) (fun b => bind_result (map_result f l') (fun bs => Ok (b :: bs)))
  end.

(** [pd.merge] on two references: a new frame. *)
Definition pd_merge (left right : ref) (on : string) : Py ref :=
  a <- deref left ;;
  b <- deref right ;;
  d <- lift (merge a b on) ;;
  new d.

(** [pd.concat([a, b], axis=1)]. *)
Definition pd_concat (a b : ref) : Py ref :=
  x <- deref a ;;
  y <- deref b ;;
  new (concat_columns x y).

(** The integers an [Int64] column holds. *)
Definition in_int64 (z : Z) : bool :=
  ((- 9223372036854775808 <=? z) && (z <=? 9223372036854775807))%Z.

(** [series.astype("Int64")] on one entry of a column of numbers: missing
    stays missing, a number that is an integer of the 64-bit range becomes
    that integer, any other number is refused with TypeError (the cast is
    not safe). *)
Definition astype_Int64_cell (c : cell) : result cell :=
  match c with
  | NA => Ok NA
  | Int z => if in_int64 z then Ok (Int z) else Raise TypeError
  | Float x =>
      match as_integer x with
      | Some z => if in_int64 z then Ok (Int z) else Raise TypeError
      | None => Raise TypeError
      end
  | _ => Raise Unmodelled
  end.

Definition is_infinite (negative : bool) (c : cell) : bool :=
  match c with
  | Float (Inf n) => Bool.eqb n negative
  | _ => false
  end.

(** [series.astype("Int64")] on a column of numbers.  pandas looks at the
    largest value first and converts it with [int]: that raises
    OverflowError when the largest value is infinite, which it is when the
    column holds [inf], or holds [-inf] and no other number.  Then the cast
    is done entry by entry.  What the cast does with strings, dates and
    objects depends on the column as a whole and is outside the model. *)
Definition astype_Int64 (s : Series) : result Series :=
  if forallb (fun c => isna c || is_number c) s
  then if existsb (is_infinite false) s
          || (existsb (is_infinite true) s
              && forallb (fun c => isna c || is_infinite true c) s)
       then Raise OverflowError
       else map_result astype_Int64_cell s
  else Raise Unmodelled.

(** [series.isin(pd.Series(values, dtype="Int64"))]. *)
Definition isin (s : Series) (values : list Z) : list bool :=
  map (fun c => match c with Int z => existsb (Z.eqb z) values | _ => false end) s.

(** [series.dt.year]. *)
Definition dt_year_of (s : Series) : Series :=
  map (fun c => match c with Timestamp t => Int (dt_year t) | _ => NA end) s.

(** ** [parse_genres] *)

(** [bool(v)]. *)
Definition truthy (v : pyval) : bool :=
  match v with
  | PNone => false
  | PEllipsis => true
  | PBool b => b
  | PInt z => negb (z =? 0)%Z
  | PFloat x => negb (number_is_zero x)
  | PComplex re im => negb (number_is_zero re && number_is_zero im)
  | PStr s => negb (String.eqb s "")
  | PBytes s => negb (String.eqb s "")
  | PList l => negb (Nat.eqb (List.length l) 0)
  | PTuple l => negb (Nat.eqb (List.length l) 0)
  | PSet l => negb (Nat.eqb (List.length l) 0)
  | PDict items => negb (Nat.eqb (List.length items) 0)
  end.

(** What [for d in v] runs through; a value that is not iterable raises. *)
Definition iterate (v : pyval) : result (list pyval) :=
  match v with
  | PList l => Ok l
  | PTuple l => Ok l
  | PSet l => Ok l
  | PDict items => Ok (map fst items)
  | PStr s => Ok (map (fun a => PStr (String a EmptyString)) (list_ascii_of_string s))
  | PBytes s => Ok (map (fun a => PInt (Z.of_nat (nat_of_ascii a))) (list_ascii_of_string s))
  | _ => Raise TypeError
  end.

(** [d.get(key, default)] on the items of a dictionary. *)
Definition dict_get (items : list (pyval * pyval)) (key : string) (default : pyval) : pyval :=
  match find (fun kv => match fst kv with PStr k => String.eqb k key | _ => false end) items with
  | Some kv => snd kv
  | None => default
  end.

(** [try: body except: handler]. *)
Definition try_except {A : Type} (body : result A) (handler : result A) : result A :=
  match body with
  | Ok a => Ok a
  | Raise _ => handler
  end.

Section Metadata.

(** [ast.literal_eval] on one string: [None] when it raises. *)
Variable literal_eval : string -> option pyval.

(** The number pandas reads in one string, [None] when it reads none
    (which [errors="coerce"] turns into a missing value). *)
Variable str_to_number : string -> option number.

(** [pd.to_datetime(series, errors="coerce")]: a [Timestamp] or [NA] for
    every entry. *)
Variable to_datetime : Series -> Series.

Definition parse_genres (s : cell) : result (list pyval) :=
  match as_str s with
  | None => Ok []
  | Some EmptyString => Ok []
  | Some text =>
      try_except
        (bind_result
           (match literal_eval text with Some v => Ok v | None => Raise ValueError end)
           (fun lst =>
              bind_result (iterate lst)
                (fun elements =>
                   Ok (flat_map
                         (fun d =>
                            match d with
                            | PDict items =>
                                if truthy (dict_get items "name" PNone)
                                then [dict_get items "name" (PStr "")]
                                else []
                            | _ => []
                            end)
                         elements))))
        (Ok [])
  end.

(** [pd.to_numeric(series, errors="coerce")]. *)
Definition to_numeric_cell (c : cell) : cell :=
  match c with
  | Int z => Int z
  | Float x => Float x
  | Str s =>
      match str_to_number s with
      | Some x => Float x
      | None => NA
      end
  | _ => NA
  end.

Definition to_numeric (s : Series) : Series := map to_numeric_cell s.

(** ** [filter_transform_metadata] *)

Definition required : list string :=
  ["id"; "imdb_id"; "title"; "original_language"; "release_date";
   "runtime"; "budget"; "revenue"; "genres"].

Definition filter_transform_metadata (df : ref) (movie_ids : list Z) : Py ref :=
  d <- deref df ;;
  let missing := missing_labels required d in
  match missing with
  | _ :: _ => raise (KeyError (sorted missing))
  | [] =>
      (* Retain only required columns and coerce ids to numeric *)
      selected <- method (fun d => select d required) df ;;
      transformed <- copy selected ;;
      ids <- column transformed "id" ;;
      ids <- lift (astype_Int64 (to_numeric ids)) ;;
      assign_column transformed "id" ids ;;
      (* Filter by the provided movie_ids *)
      ids <- column transformed "id" ;;
      kept <- method (fun d => Ok (boolean_index d (isin ids movie_ids))) transformed ;;
      transformed <- reset_index kept ;;
      (* Parse types *)
      dates <- column transformed "release_date" ;;
      assign_column transformed "release_date" (to_datetime dates) ;;
      dates <- column transformed "release_date" ;;
      assign_column transformed "year" (dt_year_of dates) ;;
      years <- column transformed "year" ;;
      years <- lift (astype_Int64 (to_numeric years)) ;;
      assign_column transformed "year" years ;;
      for_each ["runtime"; "budget"; "revenue"]
        (fun c => v <- column transformed c ;; assign_column transformed c (to_numeric v)) ;;
      for_each ["imdb_id"; "title"; "original_language"]
        (fun c => v <- column transformed c ;;
                  (* the dtype is that of the column before the filter *)
                  whole <- origin selected c ;;
                  v <- lift (str_strip_of whole v) ;;
                  assign_column transformed c v) ;;
      genres <- column transformed "genres" ;;
      genre_lst <- lift (map_result parse_genres genres) ;;
      assign_column transformed "genre_lst" (map (fun l => Obj (PList l)) genre_lst) ;;
      inplace (drop ["genres"]) transformed ;;
      ordered <- method (sort_values "id") transformed ;;
      reset_index ordered
  end.

(** The names [parse_genres] returns: it returns for every input. *)
Definition genre_names (s : cell) : list pyval :=
  match parse_genres s with
  | Ok names => names
  | Raise _ => []
  end.

(** [filter_transform_metadata(raw, movie_ids)] called on a frame of its own. *)
Definition normalize (raw : DataFrame) (movie_ids : list Z) : result ref * heap :=
  filter_transform_metadata 0 movie_ids [raw].

End Metadata.

(** ** [one_hot_encode_genres] *)

(** The labels of one [genre_lst] entry.  The function expects [list[str]];
    an entry of another kind is outside what this model describes. *)
Definition label_of (v : pyval) : result string :=
  match v with
  | PStr s => Ok s
  | _ => Raise Unmodelled
  end.

Definition labels_of (c : cell) : result (list string) :=
  match c with
  | Obj (PList l) => map_result label_of l
  | _ => Raise Unmodelled
  end.

Fixpoint distinct (l : list string) : list string :=
  match l with
  | [] => []
  | c :: l' => if mem c l' then distinct l' else c :: distinct l'
  end.

(** [MultiLabelBinarizer().fit(y).classes_]: the labels seen, each once,
    in ascending order. *)
Definition classes_ (y : list (list string)) : list string :=
  sorted (distinct (List.concat y)).

(** [MultiLabelBinarizer().fit_transform(y)]: one row of 0/1 per entry. *)
Definition fit_transform (y : list (list string)) : list (list Z) :=
  map (fun labels => map (fun g => if mem g labels then 1%Z else 0%Z) (classes_ y)) y.

(** [pd.DataFrame(G, columns=labels, index=df.index)]. *)
Definition frame_of_matrix (G : list (list Z)) (labels : list string) : DataFrame :=
  {| columns := labels;
     rows := map (fun bits => combine labels (map Int bits)) G |}.

Definition astype_int8 (r : ref) : Py ref := method (fun df => Ok df) r.

Definition one_hot_encode_genres (df : ref) : Py ref :=
  genre_lst <- column df "genre_lst" ;;
  y <- lift (map_result labels_of genre_lst) ;;
  let G := fit_transform y in
  let genre_cols := classes_ y in
  matrix <- new (frame_of_matrix G genre_cols) ;;
  Gdf <- astype_int8 matrix ;;
  rest <- method (drop ["genre_lst"]) df ;;
  pd_concat rest Gdf.

(** ** [merge_datasets] *)

Definition merge_datasets (ml_links meta_with_genres imdb_ratings : ref) : Py ref :=
  (* Merge movielens links and Kaggle metadata via tmdbId *)
  renamed <- method (fun d => Ok (rename [("id", "tmdbId")] d)) meta_with_genres ;;
  meta <- copy renamed ;;
  present <- method (dropna "tmdbId") meta ;;
  meta <- method (drop_duplicates "tmdbId") present ;;
  merged <- pd_merge ml_links meta "tmdbId" ;;
  (* Merge IMDb ratings via imdb_id/tconst *)
  ids <- column merged "imdb_id" ;;
  (* the dtype is that of the column of the right frame of the join *)
  whole <- origin meta "imdb_id" ;;
  ids <- lift (str_strip_of whole ids) ;;
  assign_column merged "tconst" ids ;;
  keys <- column imdb_ratings "tconst" ;;
  keys <- lift (str_strip keys) ;;
  assign_column imdb_ratings "tconst" keys ;;
  merged <- pd_merge merged imdb_ratings "tconst" ;;
  merged <- method (drop ["imdbId"; "tconst"]) merged ;;
  method (fun d => Ok (rename [("imdb_id", "imdbId"); ("numVotes", "imdb_numVotes");
                               ("averageRating", "imdb_averageRating")] d)) merged.

(** ** [load_movielens_links], from the frame [read_csv] returned *)

Definition load_movielens_links (links : ref) : Py ref :=
  d <- deref links ;;
  for_each (columns d)
    (fun col => v <- column links col ;;
                v <- lift (astype_Int64 v) ;;
                assign_column links col v) ;;
  method (fun d => Ok (drop_duplicates_all d)) links.

(** The body of the loop of [load_movielens_links] over the columns. *)
Definition coerce_column (links : ref) (col : string) : Py unit :=
  v <- column links col ;;
  v <- lift (astype_Int64 v) ;;
  assign_column links col v.

(** [series.nunique()] with missing values counted: how many distinct
    values a column holds. *)
Fixpoint nunique (s : Series) : nat :=
  match s with
  | [] => 0
  | c :: s' => if existsb (cell_eqb c) s' then nunique s' else S (nunique s')
  end.

(** ** [load_imdb_ratings], from the frame [read_csv] returned *)

Definition load_imdb_ratings (ratings : ref) : Py ref :=
  keys <- column ratings "tconst" ;;
  keys <- lift (str_strip keys) ;;
  assign_column ratings "tconst" keys ;;
  ret ratings.

(** ** The target ids of [main] *)

(** [series.unique()]: the values in the order of their first occurrence. *)
Fixpoint unique_from (seen : list cell) (s : Series) : Series :=
  match s with
  | [] => []
  | c :: s' =>
      if existsb (cell_eqb c) seen
      then unique_from seen s'
      else c :: unique_from (c :: seen) s'
  end.

Definition unique (s : Series) : Series := unique_from [] s.

(** The integers of an [Int64] array without missing values. *)
Definition integers (s : Series) : list Z :=
  flat_map (fun c => match c with Int z => [z] | _ => [] end) s.

(** [ml_links["tmdbId"].dropna().astype("Int64").unique()], line 18 of
    [main]. *)
Definition movie_ids (ml_links : DataFrame) : result (list Z) :=
  bind_result (getitem ml_links "tmdbId")
    (fun ids =>
       bind_result (astype_Int64 (filter (fun c => negb (isna c)) ids))
         (fun ids => Ok (integers (unique ids)))).

(** ** Calls on a fresh store, and the tables the pipeline passes *)

(** [merge_datasets(links, catalog, ratings)] called on three frames of
    their own: the reference returned and the store afterwards. *)
Definition reconcile (links catalog ratings : DataFrame) : result ref * heap :=
  merge_datasets 0 1 2 [links; catalog; ratings].

(** [one_hot_encode_genres(df)] called on a frame of its own. *)
Definition expand (df : DataFrame) : result ref * heap :=
  one_hot_encode_genres 0 [df].

Fixpoint labels_eqb (a b : list string) : bool :=
  match a, b with
  | [], [] => true
  | x :: a', y :: b' => String.eqb x y && labels_eqb a' b'
  | _, _ => false
  end.

Fixpoint nodupb (l : list string) : bool :=
  match l with
  | [] => true
  | c :: l' => negb (mem c l') && nodupb l'
  end.

Definition wfb (df : DataFrame) : bool :=
  forallb (fun r => labels_eqb (map fst r) (columns df)) (rows df).

Definition link_columns : list string := ["movieId"; "imdbId"; "tmdbId"].
Definition rating_columns : list string := ["tconst"; "averageRating"; "numVotes"].

(** Labels the reconciler itself reads, writes or publishes; no catalog
    column (a genre indicator, say) may carry one of them. *)
Definition reconciler_labels : list string :=
  ["movieId"; "imdbId"; "tmdbId"; "tconst"; "averageRating"; "numVotes";
   "imdb_averageRating"; "imdb_numVotes"].

(** The tables the pipeline hands to [merge_datasets]: the links of
    links.csv, a catalog with an [id] and an [imdb_id] column and labels of
    its own, and the ratings of title.ratings.tsv. *)
Definition reconciler_inputs (links catalog ratings : DataFrame) : bool :=
  labels_eqb (columns links) link_columns && wfb links
  && labels_eqb (columns ratings) rating_columns && wfb ratings
  && mem "id" (columns catalog) && mem "imdb_id" (columns catalog)
  && nodupb (columns catalog) && wfb catalog
  && forallb (fun c => negb (mem c (columns catalog))) reconciler_labels.

(** *** The reconciler row by row *)

Definition catalog_key : list (string * string) := [("id", "tmdbId")].

Definition published : list (string * string) :=
  [("imdb_id", "imdbId"); ("numVotes", "imdb_numVotes");
   ("averageRating", "imdb_averageRating")].

(** The catalog as the first join sees it: keyed by [tmdbId], rows without
    a key dropped, the first row of every key kept. *)
Definition catalog_rows (catalog : DataFrame) : list row :=
  first_seen (get "tmdbId") []
    (filter (fun r => negb (isna (get "tmdbId" r)))
       (map (rename_keys (rename_label catalog_key)) (rows catalog))).

(** The rating rows as the second join sees them: keys trimmed. *)
Definition rating_rows (ratings : DataFrame) : list row :=
  set_rows "tconst" (rows ratings) (map strip_cell (map (get "tconst") (rows ratings))).

(** [join_row] when no label needs a suffix. *)
Definition plain_join (on : string) (rcols : list string) (right_rows : list row) (l : row)
  : list row :=
  match filter (fun r => cell_eqb (get on r) (get on l)) right_rows with
  | [] => [l ++ map (fun c => (c, NA)) rcols]
  | matches => map (fun r => l ++ without_key on r) matches
  end.

Definition with_tconst (r : row) : row :=
  set_cell "tconst" (strip_cell (get "imdb_id" r)) r.

Definition publish (r : row) : row :=
  rename_keys (rename_label published)
    (filter (fun p => negb (mem (fst p) ["imdbId"; "tconst"])) r).

(** The catalog's columns in the joined table: all but the key. *)
Definition catalog_columns (catalog : DataFrame) : list string :=
  filter (fun c => negb (String.eqb c "tmdbId"))
    (map (rename_label catalog_key) (columns catalog)).

(** The output rows one link row gives. *)
Definition reconciled_rows (catalog ratings : DataFrame) (l : row) : list row :=
  map publish
    (flat_map (plain_join "tconst" ["averageRating"; "numVotes"] (rating_rows ratings))
       (map with_tconst
          (plain_join "tmdbId" (catalog_columns catalog) (catalog_rows catalog) l))).

(** What a right frame appends to a left row with key [k]: the matching
    rows without their key, or one run of missing values. *)
Definition join_tails (on : string) (rcols : list string) (right_rows : list row) (k : cell)
  : list row :=
  match filter (fun r => cell_eqb (get on r) k) right_rows with
  | [] => [map (fun c => (c, NA)) rcols]
  | matches => map (without_key on) matches
  end.

Definition catalog_tails (catalog : DataFrame) (k : cell) : list row :=
  join_tails "tmdbId" (catalog_columns catalog) (catalog_rows catalog) k.

Definition rating_tails (ratings : DataFrame) (k : cell) : list row :=
  join_tails "tconst" ["averageRating"; "numVotes"] (rating_rows ratings) k.

(** An output row: the link's two surviving fields, then the catalog's
    fields and the rating's fields under their published names. *)
Definition output_row (l t1 t2 : row) : row :=
  [("movieId", get "movieId" l); ("tmdbId", get "tmdbId" l)]
    ++ rename_keys (rename_label published) t1
    ++ rename_keys (rename_label published) t2.

(** The table [merge_datasets] returns on the pipeline's tables. *)
Definition reconciled (L M R : DataFrame) : DataFrame :=
  {| columns :=
       map (rename_label published)
         (filter (fun c => negb (mem c ["imdbId"; "tconst"]))
            (((columns L ++ catalog_columns M) ++ ["tconst"])
             ++ ["averageRating"; "numVotes"]));
     rows :=
       flat_map
         (fun l =>
            flat_map
              (fun t1 =>
                 map (output_row l t1) (rating_tails R (strip_cell (get "imdb_id" t1))))
              (catalog_tails M (get "tmdbId" l)))
         (rows L) |}.

(** Some row of the deduplicated catalog carries the key [k]. *)
Definition catalog_match (catalog : DataFrame) (k : cell) : bool :=
  existsb (fun m => cell_eqb (get "tmdbId" m) k) (catalog_rows catalog).

(** The [imdb_id] column of the deduplicated catalog, the right frame of
    the first join. *)
Definition catalog_ids (catalog : DataFrame) : Series :=
  map (get "imdb_id") (catalog_rows catalog).

(** The [imdb_id] column of the first join, the column line 93 trims. *)
Definition joined_ids (links catalog : DataFrame) : Series :=
  map (get "imdb_id")
    (flat_map (plain_join "tmdbId" (catalog_columns catalog) (catalog_rows catalog))
       (rows links)).

(** The catalog row a link with key [k] is joined to: the first row whose
    [id] is the key. *)
Definition first_match (catalog : DataFrame) (k : cell) : option row :=
  find (fun m => negb (isna (get "id" m)) && cell_eqb (get "id" m) k) (rows catalog).

(** Two lists of seen keys that answer every membership question alike. *)
Definition same_seen (s1 s2 : list cell) : Prop :=
  forall x, existsb (cell_eqb x) s1 = existsb (cell_eqb x) s2.

(** ** Sample tables *)

Definition sample_links : DataFrame :=
  {| columns := link_columns;
     rows := [ [("movieId", Int 10); ("imdbId", Int 113277); ("tmdbId", Int 1)];
               [("movieId", Int 11); ("imdbId", Int 113497); ("tmdbId", Int 99)] ] |}.

Definition sample_catalog_columns : list string :=
  ["id"; "imdb_id"; "title"; "original_language"; "release_date";
   "runtime"; "budget"; "revenue"; "year"; "Crime"; "Drama"].

Definition sample_heat : row :=
  [("id", Int 1); ("imdb_id", Str "tt001 "); ("title", Str "Heat");
   ("original_language", Str "en");
   ("release_date", Timestamp (mkDatetime 1995 12 15));
   ("runtime", Float (Fin (inject_Z 170))); ("budget", Int 60000000);
   ("revenue", Int 187436818); ("year", Int 1995); ("Crime", Int 1); ("Drama", Int 1)].

Definition sample_heat_again : row :=
  [("id", Int 1); ("imdb_id", Str "tt002"); ("title", Str "Heat (1972)");
   ("original_language", Str "en"); ("release_date", NA);
   ("runtime", NA); ("budget", NA); ("revenue", NA); ("year", NA);
   ("Crime", Int 0); ("Drama", Int 0)].

Definition sample_unkeyed : row :=
  [("id", NA); ("imdb_id", Str "tt003"); ("title", Str "Untitled");
   ("original_language", Str "fr"); ("release_date", NA);
   ("runtime", NA); ("budget", NA); ("revenue", NA); ("year", NA);
   ("Crime", Int 0); ("Drama", Int 1)].

Definition sample_catalog : DataFrame :=
  {| columns := sample_catalog_columns;
     rows := [sample_heat; sample_heat_again; sample_unkeyed] |}.

Definition sample_rating : row :=
  [("tconst", Str " tt001"); ("averageRating", Float (Fin (41 # 5))); ("numVotes", Int 100)].

Definition sample_ratings : DataFrame :=
  {| columns := rating_columns; rows := [sample_rating] |}.

(** The same rating key on two rows. *)
Definition repeated_ratings : DataFrame :=
  {| columns := rating_columns;
     rows := [ [("tconst", Str "tt001"); ("averageRating", Float (Fin (41 # 5)));
                ("numVotes", Int 100)];
               [("tconst", Str "tt001"); ("averageRating", Float (Fin (39 # 5)));
                ("numVotes", Int 7)] ] |}.

(** Sample readers for the three library functions the normalizer takes. *)
Definition sample_literal_eval (s : string) : option pyval :=
  if String.eqb s "[{'id': 18, 'name': 'Drama'}]"
  then Some (PList [PDict [(PStr "id", PInt 18); (PStr "name", PStr "Drama")]])
  else if String.eqb s "[{'id': 18}, 7]"
  then Some (PList [PDict [(PStr "id", PInt 18)]; PInt 7])
  else None.

Fixpoint read_digits (s : string) (acc : Z) : option Z :=
  match s with
  | EmptyString => Some acc
  | String a s' =>
      let n := nat_of_ascii a in
      if ((48 <=? n) && (n <=? 57))%nat
      then read_digits s' (10 * acc + Z.of_nat (n - 48))%Z
      else None
  end.

Definition sample_str_to_number (s : string) : option number :=
  match s with
  | EmptyString => None
  | _ => match read_digits s 0 with
         | Some z => Some (Fin (inject_Z z))
         | None => None
         end
  end.

Definition sample_to_datetime (s : Series) : Series :=
  map (fun c => match c with
                | Str "1995-12-15" => Timestamp (mkDatetime 1995 12 15)
                | _ => NA
                end) s.

Definition sample_raw : DataFrame :=
  {| columns := ["adult"; "id"; "imdb_id"; "title"; "original_language";
                 "release_date"; "runtime"; "budget"; "revenue"; "genres"];
     rows := [ [("adult", Str "False"); ("id", Str "2"); ("imdb_id", Str " tt002");
                ("title", Str "Sabrina "); ("original_language", Str "en");
                ("release_date", Str "soon"); ("runtime", Str "x"); ("budget", Int 5);
                ("revenue", NA); ("genres", Str "not a list")];
               [("adult", Str "False"); ("id", Str "1"); ("imdb_id", Str "tt001");
                ("title", Str "Heat"); ("original_language", Str "en");
                ("release_date", Str "1995-12-15"); ("runtime", Str "170");
                ("budget", Int 60000000); ("revenue", NA);
                ("genres", Str "[{'id': 18, 'name': 'Drama'}]")];
               [("adult", Str "False"); ("id", Str "1997-08-20"); ("imdb_id", NA);
                ("title", NA); ("original_language", NA);
                ("release_date", NA); ("runtime", NA); ("budget", NA);
                ("revenue", NA); ("genres", NA)];
               [("adult", Str "False"); ("id", Str "3"); ("imdb_id", Str "tt003");
                ("title", Str "Other"); ("original_language", Str "en");
                ("release_date", NA); ("runtime", NA); ("budget", NA);
                ("revenue", NA); ("genres", NA)] ] |}.

Definition sample_normalized : DataFrame :=
  {| columns := ["id"; "title"; "genre_lst"];
     rows := [ [("id", Int 1); ("title", Str "Heat");
                ("genre_lst", Obj (PList [PStr "Drama"; PStr "Crime"; PStr "Drama"]))];
               [("id", Int 2); ("title", Str "Sabrina"); ("genre_lst", Obj (PList []))] ] |}.

(** *** Notions the properties are stated with *)

(** A record that counts for [parse_genres]: a dictionary with a "name"
    entry whose value is not empty (true in Python's sense). *)
Definition has_name (d : pyval) : Prop :=
  exists items v, d = PDict items /\ In (PStr "name", v) items /\ truthy v = true.

(** A cell an Int64 column may hold. *)
Definition int_or_na (c : cell) : Prop :=
  match c with
  | NA => True
  | Int z => in_int64 z = true
  | _ => False
  end.

(** A missing value or an integer, of whatever size. *)
Definition integer_or_na (c : cell) : Prop :=
  match c with NA | Int _ => True | _ => False end.

(** An id that [isin] finds among the target ids. *)
Definition in_target (movie_ids : list Z) (c : cell) : bool :=
  match c with
  | Int z => existsb (Z.eqb z) movie_ids
  | _ => false
  end.

(** The order [sorted] puts labels in. *)
Definition label_order (a b : string) : Prop := String.leb a b = true.

(** The indicator block of a record with labels [labels]. *)
Definition indicators (vocabulary labels : list string) : row :=
  map (fun g => (g, Int (if mem g labels then 1 else 0)%Z)) vocabulary.

(** *** Notions for the schemas, the loaders and the rows of the tables *)

(** The labels of the reconciled table: the link's two ids, the catalog's
    columns but [id] under their published names, the two rating columns. *)
Definition reconciled_labels (M : DataFrame) : list string :=
  ["movieId"; "tmdbId"]
    ++ map (rename_label published) (filter (fun c => negb (String.eqb c "id")) (columns M))
    ++ ["imdb_averageRating"; "imdb_numVotes"].

(** Some rating row carries the key [k] once its own key is trimmed. *)
Definition rating_match (ratings : DataFrame) (k : cell) : bool :=
  existsb (fun r => cell_eqb (strip_cell (get "tconst" r)) k) (rows ratings).

(** A key as [str.strip()] leaves it: missing, or a string that [strip]
    does not change. *)
Definition trimmed (c : cell) : Prop :=
  match c with
  | NA => True
  | Str s => strip s = s
  | _ => False
  end.

(** Row [r'] holds, under every label of [cols], what [astype("Int64")]
    makes of the entry of [r]. *)
Definition coerced (cols : list string) (r r' : row) : Prop :=
  forall c, In c cols -> astype_Int64_cell (get c r) = Ok (get c r').

(** An entry [astype("Int64")] accepts: a missing value or a number whose
    value is an integer of the 64-bit range. *)
Definition fits_Int64 (c : cell) : bool :=
  match astype_Int64_cell c with
  | Ok _ => true
  | Raise _ => false
  end.

(** A finite number or a missing value. *)
Definition finite_or_na (c : cell) : bool :=
  match c with
  | NA | Int _ | Float (Fin _) => true
  | _ => false
  end.

(** Every entry of the frame, under every label it has, is one. *)
Definition all_finite (d : DataFrame) : bool :=
  forallb (fun r => forallb (fun c => finite_or_na (get c r)) (columns d)) (rows d).

(** Every entry of the frame, under every label it has, fits. *)
Definition all_fit (d : DataFrame) : bool :=
  forallb (fun r => forallb (fun c => fits_Int64 (get c r)) (columns d)) (rows d).

(** [series.dt.year] on one entry. *)
Definition year_of (c : cell) : cell :=
  match c with
  | Timestamp t => Int (dt_year t)
  | _ => NA
  end.

(** The labels of the normalized table, in its order. *)
Definition normalized_columns : list string :=
  ["id"; "imdb_id"; "title"; "original_language"; "release_date";
   "runtime"; "budget"; "revenue"; "year"; "genre_lst"].

(** The order [sort_values("id")] leaves integer ids in. *)
Definition id_le (a b : cell) : Prop :=
  match a, b with
  | Int x, Int y => (x <= y)%Z
  | _, _ => False
  end.

(** [df[c] = f(df)] on one row, for a series computed row by row. *)
Definition set_by (c : string) (f : row -> cell) (r : row) : row := set_cell c (f r) r.

Section NormalizedRows.

Variable literal_eval : string -> option pyval.
Variable str_to_number : string -> option number.
Variable to_datetime : Series -> Series.

(** What the steps after the date parsing make of one row, the last step
    outermost. *)
Definition finish_row (r : row) : row :=
  filter (fun p => negb (mem (fst p) ["genres"]))
    (set_by "genre_lst" (fun r => Obj (PList (genre_names literal_eval (get "genres" r))))
    (set_by "original_language" (fun r => strip_cell (get "original_language" r))
    (set_by "title" (fun r => strip_cell (get "title" r))
    (set_by "imdb_id" (fun r => strip_cell (get "imdb_id" r))
    (set_by "revenue" (fun r => to_numeric_cell str_to_number (get "revenue" r))
    (set_by "budget" (fun r => to_numeric_cell str_to_number (get "budget" r))
    (set_by "runtime" (fun r => to_numeric_cell str_to_number (get "runtime" r))
    (set_by "year" (get "year")
    (set_by "year" (fun r => year_of (get "release_date" r)) r))))))))).

(** The rows with their ids coerced that lie among the target ids. *)
Definition kept_rows (df : DataFrame) (movie_ids : list Z) (ids : Series) : list row :=
  filter (fun r => in_target movie_ids (get "id" r))
    (set_rows "id" (map (fun r => map (fun c => (c, get c r)) required) (rows df)) ids).

(** The kept rows with their release dates parsed. *)
Definition dated_rows (df : DataFrame) (movie_ids : list Z) (ids : Series) : list row :=
  set_rows "release_date" (kept_rows df movie_ids ids)
    (to_datetime (map (get "release_date") (kept_rows df movie_ids ids))).

(** The table [filter_transform_metadata] returns when the ids were cast
    to [ids]: the finished rows in the order of their ids. *)
Definition normalized (df : DataFrame) (movie_ids : list Z) (ids : Series) : DataFrame :=
  {| columns := normalized_columns;
     rows := fold_right (insert_row (get "id")) []
               (map finish_row (dated_rows df movie_ids ids)) |}.

End NormalizedRows.

(** How [parse_genres] runs through the elements [ds] of the evaluated
    text: a dictionary with a non-empty "name" gives that name, any other
    element gives nothing. *)
Inductive reads : list pyval -> list pyval -> Prop :=
| reads_end : reads [] []
| reads_name (items : list (pyval * pyval)) (v : pyval) (ds names : list pyval) :
    dict_get items "name" PNone = v -> truthy v = true ->
    reads ds names -> reads (PDict items :: ds) (v :: names)
| reads_past (d : pyval) (ds names : list pyval) :
    (forall items, d = PDict items -> truthy (dict_get items "name" PNone) = false) ->
    reads ds names -> reads (d :: ds) names.

(** *** Sample files for the loaders and the normalizer *)

(** A links file with a repeated row and an id read as a float. *)
Definition sample_links_read : DataFrame :=
  {| columns := link_columns;
     rows := [ [("movieId", Int 10); ("imdbId", Int 113277); ("tmdbId", Float (Fin (inject_Z 1)))];
               [("movieId", Int 11); ("imdbId", Int 113497); ("tmdbId", NA)];
               [("movieId", Int 10); ("imdbId", Int 113277); ("tmdbId", Int 1)] ] |}.

(** A links file with an id that is no integer. *)
Definition sample_links_fraction : DataFrame :=
  {| columns := link_columns;
     rows := [ [("movieId", Int 10); ("imdbId", Int 113277); ("tmdbId", Float (Fin (3 # 2)))] ] |}.

(** A reader for one text with elements of three kinds. *)
Definition sample_literal_eval_mixed (s : string) : option pyval :=
  if String.eqb s "[{'name': 'Drama'}, 7, {'id': 18}, {'name': 'Crime'}, {'name': 'Drama'}]"
  then Some (PList [PDict [(PStr "name", PStr "Drama")]; PInt 7; PDict [(PStr "id", PInt 18)];
                    PDict [(PStr "name", PStr "Crime")]; PDict [(PStr "name", PStr "Drama")]])
  else None.

(** A catalog with an id that is no integer. *)
Definition sample_raw_fraction : DataFrame :=
  {| columns := required;
     rows := [ [("id", Float (Fin (3 # 2))); ("imdb_id", Str "tt001"); ("title", Str "Heat");
                ("original_language", Str "en"); ("release_date", NA); ("runtime", NA);
                ("budget", NA); ("revenue", NA); ("genres", NA)] ] |}.


(** A normalized catalog of two records, before the expander. *)
Definition sample_expandable : DataFrame :=
  {| columns := ["id"; "imdb_id"; "title"; "genre_lst"];
     rows := [ [("id", Int 1); ("imdb_id", Str "tt001 "); ("title", Str "Heat");
                ("genre_lst", Obj (PList [PStr "Drama"; PStr "Crime"; PStr "Drama"]))];
               [("id", Int 2); ("imdb_id", Str "tt002"); ("title", Str "Sabrina");
                ("genre_lst", Obj (PList []))] ] |}.

(** A link table whose one row matches no catalog row. *)
Definition unmatched_links : DataFrame :=
  {| columns := link_columns;
     rows := [ [("movieId", Int 11); ("imdbId", Int 113497); ("tmdbId", Int 99)] ] |}.

(** A rating table whose key column holds numbers. *)
Definition numeric_ratings : DataFrame :=
  {| columns := rating_columns;
     rows := [ [("tconst", Int 1); ("averageRating", Float (Fin (41 # 5)));
                ("numVotes", Int 100)] ] |}.

(** *** What the functions return on the sample tables *)

(** The table of a call that returned one. *)
Definition table_of (r : result DataFrame) : DataFrame :=
  match r with
  | Ok df => df
  | Raise _ => {| columns := []; rows := [] |}
  end.

Definition sample_reconciled : DataFrame :=
  Eval vm_compute in
    table_of (returned (reconcile sample_links sample_catalog sample_ratings)).

Definition sample_reconciled_unmatched : DataFrame :=
  Eval vm_compute in
    table_of (returned (reconcile unmatched_links sample_catalog sample_ratings)).

Definition sample_reconciled_repeated : DataFrame :=
  Eval vm_compute in
    table_of (returned (reconcile (drop_duplicates_all sample_links) sample_catalog
                          repeated_ratings)).

Definition sample_loaded : DataFrame :=
  Eval vm_compute in table_of (returned (load_imdb_ratings 0 [sample_ratings])).

Definition sample_raw_normalized : DataFrame :=
  Eval vm_compute in
    table_of (returned (normalize sample_literal_eval sample_str_to_number sample_to_datetime
                          sample_raw [1; 2]%Z)).

Definition sample_raw_linked : DataFrame :=
  Eval vm_compute in
    table_of (returned (normalize sample_literal_eval sample_str_to_number sample_to_datetime
                          sample_raw [1; 99]%Z)).

(** * Properties *)

(** ** Labels and rows *)

Lemma mem_In (c : string) (l : list string) : mem c l = true <-> In c l.
Proof.
  unfold mem. rewrite existsb_exists. split.
  - intros [x [Hx He]]. apply String.eqb_eq in He. subst x. exact Hx.
  - intro H. exists c. split; [exact H | apply String.eqb_refl].
Qed.

Lemma mem_false (c : string) (l : list string) : mem c l = false <-> ~ In c l.
Proof.
  rewrite <- mem_In. destruct (mem c l); split; intro H; congruence.
Qed.

Lemma labels_eqb_eq (a b : list string) : labels_eqb a b = true <-> a = b.
Proof.
  revert b. induction a as [|x a IH]; intros [|y b]; simpl; split; intro H;
    try reflexivity; try discriminate.
  - apply andb_true_iff in H. destruct H as [H1 H2].
    apply String.eqb_eq in H1. apply IH in H2. congruence.
  - inversion H; subst. rewrite String.eqb_refl. simpl. apply IH. reflexivity.
Qed.

Lemma nodupb_NoDup (l : list string) : nodupb l = true <-> NoDup l.
Proof.
  induction l as [|c l IH]; simpl.
  - split; [constructor | reflexivity].
  - rewrite andb_true_iff, negb_true_iff, mem_false, IH. split.
    + intros [H1 H2]. constructor; assumption.
    + intro H. inversion H; subst. split; assumption.
Qed.

Lemma wfb_wf (df : DataFrame) : wfb df = true <-> wf df.
Proof.
  unfold wfb, wf. rewrite forallb_forall, Forall_forall.
  split; intros H r Hr; apply labels_eqb_eq; apply H; exact Hr.
Qed.

Lemma lookup_app (c : string) (a b : row) :
  lookup c (a ++ b) = match lookup c a with Some v => Some v | None => lookup c b end.
Proof.
  induction a as [|[k v] a IH]; simpl; [reflexivity|].
  destruct (String.eqb c k); [reflexivity | exact IH].
Qed.

Lemma lookup_None (c : string) (r : row) : lookup c r = None <-> ~ In c (map fst r).
Proof.
  induction r as [|[k v] r IH]; simpl.
  - split; [intros _ [] | reflexivity].
  - destruct (String.eqb_spec c k) as [->|Hne].
    + split; [discriminate | intro H; exfalso; apply H; left; reflexivity].
    + rewrite IH. split.
      * intros H [E|E]; [apply Hne; symmetry; exact E | exact (H E)].
      * intros H E. apply H. right. exact E.
Qed.

Lemma lookup_filter (P : string -> bool) (c : string) (r : row) :
  lookup c (filter (fun p => P (fst p)) r) = if P c then lookup c r else None.
Proof.
  induction r as [|[k v] r IH]; simpl.
  - destruct (P c); reflexivity.
  - destruct (P k) eqn:Pk; simpl; destruct (String.eqb_spec c k) as [->|Hne].
    + rewrite Pk. reflexivity.
    + exact IH.
    + rewrite Pk in IH |- *. exact IH.
    + exact IH.
Qed.

Lemma lookup_set_cell (c : string) (v : cell) (c' : string) (r : row) :
  lookup c' (set_cell c v r) = if String.eqb c' c then Some v else lookup c' r.
Proof.
  induction r as [|[k w] r IH]; simpl.
  - reflexivity.
  - destruct (String.eqb_spec c k) as [->|Hne]; simpl.
    + destruct (String.eqb c' k); reflexivity.
    + destruct (String.eqb_spec c' k) as [->|Hne'].
      * destruct (String.eqb_spec k c) as [E|_]; [congruence | reflexivity].
      * exact IH.
Qed.

Lemma lookup_fill (c : string) (cols : list string) :
  lookup c (map (fun k => (k, NA)) cols) = if mem c cols then Some NA else None.
Proof.
  induction cols as [|k cols IH]; simpl; [reflexivity|].
  destruct (String.eqb c k); [reflexivity | exact IH].
Qed.

Lemma lookup_rename_keys (f : string -> string) (c : string) (r : row) :
  (forall k, In k (map fst r) -> f k = f c -> k = c) ->
  lookup (f c) (rename_keys f r) = lookup c r.
Proof.
  induction r as [|[k v] r IH]; simpl; intro H; [reflexivity|].
  destruct (String.eqb_spec c k) as [->|Hne].
  - rewrite String.eqb_refl. reflexivity.
  - destruct (String.eqb_spec (f c) (f k)) as [E|_].
    + exfalso. apply Hne. symmetry. apply H; [left; reflexivity | symmetry; exact E].
    + apply IH. intros k' Hk'. apply H. right. exact Hk'.
Qed.

Lemma rename_keys_id (f : string -> string) (r : row) :
  (forall c, f c = c) -> rename_keys f r = r.
Proof.
  intro H. unfold rename_keys. induction r as [|[k v] r IH]; simpl; [reflexivity|].
  rewrite H, IH. reflexivity.
Qed.

Lemma get_lookup (c : string) (r : row) (v : cell) : lookup c r = Some v -> get c r = v.
Proof. unfold get. intros ->. reflexivity. Qed.

Lemma get_set_cell_other (c c' : string) (v : cell) (r : row) :
  c' <> c -> get c' (set_cell c v r) = get c' r.
Proof.
  intro Hne. unfold get. rewrite lookup_set_cell.
  replace (String.eqb c' c) with false by (symmetry; apply String.eqb_neq; exact Hne).
  reflexivity.
Qed.

(** ** Key equality *)

Lemma number_eqb_sym (x y : number) : number_eqb x y = number_eqb y x.
Proof.
  destruct x as [p|s], y as [q|t]; simpl; try reflexivity.
  - apply Qeq_bool_comm.
  - destruct s, t; reflexivity.
Qed.

Lemma number_eqb_trans (x y z : number) :
  number_eqb x y = true -> number_eqb y z = true -> number_eqb x z = true.
Proof.
  destruct x as [p|s], y as [q|t], z as [r|u]; simpl; try discriminate.
  - apply Qeq_bool_trans.
  - destruct s, t, u; simpl; congruence.
Qed.

Lemma datetime_eqb_sym (a b : datetime) : datetime_eqb a b = datetime_eqb b a.
Proof.
  unfold datetime_eqb.
  rewrite (Z.eqb_sym (dt_year a)), (Z.eqb_sym (dt_month a)), (Z.eqb_sym (dt_day a)).
  reflexivity.
Qed.

Lemma datetime_eqb_trans (a b c : datetime) :
  datetime_eqb a b = true -> datetime_eqb b c = true -> datetime_eqb a c = true.
Proof.
  unfold datetime_eqb. rewrite !andb_true_iff, !Z.eqb_eq.
  intros [[H1 H2] H3] [[H4 H5] H6]. repeat split; congruence.
Qed.

Lemma cell_eqb_sym (a b : cell) : cell_eqb a b = cell_eqb b a.
Proof.
  destruct a, b; cbn [cell_eqb as_number]; try reflexivity;
    auto using number_eqb_sym, String.eqb_sym, datetime_eqb_sym.
Qed.

Lemma cell_eqb_trans (a b c : cell) :
  cell_eqb a b = true -> cell_eqb b c = true -> cell_eqb a c = true.
Proof.
  destruct a, b, c; cbn [cell_eqb as_number]; try discriminate; try reflexivity;
    eauto using number_eqb_trans, datetime_eqb_trans.
  rewrite !String.eqb_eq. congruence.
Qed.

Lemma cell_eqb_not_na (a b : cell) : cell_eqb a b = true -> isna a = isna b.
Proof. destruct a, b; cbn [cell_eqb as_number isna]; congruence. Qed.

(** ** [drop_duplicates]: the first row of every key, and nothing else *)

Section FirstSeen.

Variable key : row -> cell.

Lemma first_seen_already (k : cell) (rs : list row) (seen : list cell) :
  (exists s, In s seen /\ cell_eqb k s = true) ->
  filter (fun r => cell_eqb (key r) k) (first_seen key seen rs) = [].
Proof.
  revert seen. induction rs as [|r rs IH]; intros seen [s [Hs Hk]]; simpl; [reflexivity|].
  assert (Hnext : exists s', In s' (key r :: seen) /\ cell_eqb k s' = true).
  { exists s. split; [right; exact Hs | exact Hk]. }
  destruct (existsb (cell_eqb (key r)) seen) eqn:E.
  - apply IH. exact Hnext.
  - simpl. destruct (cell_eqb (key r) k) eqn:E2.
    + exfalso. assert (existsb (cell_eqb (key r)) seen = true) as E3.
      { apply existsb_exists. exists s. split; [exact Hs|].
        eapply cell_eqb_trans; eassumption. }
      congruence.
    + apply IH. exact Hnext.
Qed.

Lemma first_seen_at_most_one (k : cell) (rs : list row) (seen : list cell) :
  List.length (filter (fun r => cell_eqb (key r) k) (first_seen key seen rs)) <= 1.
Proof.
  revert seen. induction rs as [|r rs IH]; intro seen; simpl; [lia|].
  destruct (existsb (cell_eqb (key r)) seen); [apply IH|].
  simpl. destruct (cell_eqb (key r) k) eqn:E; [|apply IH].
  rewrite first_seen_already; [simpl; lia|].
  exists (key r). split; [left; reflexivity|]. rewrite cell_eqb_sym. exact E.
Qed.

Lemma first_seen_first (k : cell) (pre : list row) (m : row) (post : list row)
    (seen : list cell) :
  (forall s, In s seen -> cell_eqb s k = false) ->
  (forall p, In p pre -> cell_eqb (key p) k = false) ->
  cell_eqb (key m) k = true ->
  filter (fun r => cell_eqb (key r) k) (first_seen key seen (pre ++ m :: post)) = [m].
Proof.
  revert seen. induction pre as [|p pre IH]; intros seen Hseen Hpre Hm; simpl.
  - assert (existsb (cell_eqb (key m)) seen = false) as E.
    { destruct (existsb (cell_eqb (key m)) seen) eqn:E; [|reflexivity].
      apply existsb_exists in E. destruct E as [s [Hs E]].
      rewrite <- (Hseen s Hs). symmetry. apply (cell_eqb_trans s (key m) k); [|exact Hm].
      rewrite cell_eqb_sym. exact E. }
    rewrite E. simpl. rewrite Hm. f_equal. apply first_seen_already.
    exists (key m). split; [left; reflexivity|]. rewrite cell_eqb_sym. exact Hm.
  - assert (Hp : cell_eqb (key p) k = false) by (apply Hpre; left; reflexivity).
    assert (Hseen' : forall s, In s (key p :: seen) -> cell_eqb s k = false).
    { intros s [<-|Hs]; [exact Hp | apply Hseen; exact Hs]. }
    assert (Hpre' : forall q, In q pre -> cell_eqb (key q) k = false).
    { intros q Hq. apply Hpre. right. exact Hq. }
    destruct (existsb (cell_eqb (key p)) seen).
    + apply IH; assumption.
    + simpl. rewrite Hp. apply IH; assumption.
Qed.

Lemma first_seen_subset (rs : list row) (seen : list cell) (r : row) :
  In r (first_seen key seen rs) -> In r rs.
Proof.
  revert seen. induction rs as [|a rs IH]; intros seen; simpl; [tauto|].
  destruct (existsb (cell_eqb (key a)) seen); simpl.
  - intro H. right. eapply IH. exact H.
  - intros [H|H]; [left; exact H | right; eapply IH; exact H].
Qed.

End FirstSeen.

(** ** Item assignment *)

Lemma set_rows_map (c : string) (f : row -> cell) (rs : list row) :
  set_rows c rs (map f rs) = map (fun r => set_cell c (f r) r) rs.
Proof.
  induction rs as [|r rs IH]; simpl; [reflexivity|]. rewrite IH. reflexivity.
Qed.

Lemma set_rows_length (c : string) (rs : list row) (s : Series) :
  List.length (set_rows c rs s) = List.length rs.
Proof.
  revert s. induction rs as [|r rs IH]; intro s; simpl; [reflexivity|].
  rewrite IH. reflexivity.
Qed.

(** ** [merge] when the two frames share no label but the key *)

Lemma suffix_repeats_none (f : string -> string) (cols seen : list string) :
  (forall c, f c = c) -> suffix_repeats f seen seen cols = [].
Proof.
  intro Hf. revert seen. induction cols as [|c cols IH]; intro seen; simpl; [reflexivity|].
  rewrite Hf. rewrite IH. destruct (mem c seen); reflexivity.
Qed.

Lemma join_row_plain (lname rname : string -> string) (on : string)
    (rcols : list string) (right_rows : list row) (l : row) :
  (forall c, lname c = c) -> (forall c, rname c = c) ->
  join_row lname rname on rcols right_rows l = plain_join on rcols right_rows l.
Proof.
  intros Hl Hr. unfold join_row, plain_join.
  rewrite (rename_keys_id lname l Hl).
  destruct (filter (fun r => cell_eqb (get on r) (get on l)) right_rows) as [|m ms].
  - do 2 f_equal. apply map_ext. intro c. rewrite Hr. reflexivity.
  - apply map_ext. intro r. rewrite (rename_keys_id rname _ Hr). reflexivity.
Qed.

Lemma merge_plain (left right : DataFrame) (on : string) :
  has_column on left = true ->
  has_column on right = true ->
  (forall c, In c (columns left) -> In c (columns right) -> c = on) ->
  merge left right on
  = Ok {| columns := columns left ++ other_columns on right;
          rows := flat_map (plain_join on (other_columns on right) (rows right))
                    (rows left) |}.
Proof.
  intros Hl Hr Hshare. unfold merge. rewrite Hl, Hr. simpl.
  assert (Hx : forall suffix c, suffixed left right on suffix c = c).
  { intros suffix c. unfold suffixed, overlaps.
    destruct (String.eqb_spec c on) as [->|Hne]; simpl; [reflexivity|].
    destruct (has_column c left) eqn:A; simpl; [|reflexivity].
    destruct (has_column c right) eqn:B; simpl; [|reflexivity].
    exfalso. apply Hne. apply Hshare; apply mem_In; assumption. }
  rewrite !suffix_repeats_none by (apply Hx). simpl.
  f_equal. f_equal.
  - f_equal; (erewrite map_ext; [apply map_id | intro c; apply Hx]).
  - apply flat_map_ext. intro l. apply join_row_plain; apply Hx.
Qed.

(** ** Running [merge_datasets] *)

Lemma str_strip_of_ok (origin s v : Series) :
  str_strip_of origin s = Ok v -> v = map strip_cell s.
Proof.
  unfold str_strip_of. destruct (existsb is_object s); [discriminate|].
  destruct (existsb is_str s); [intro H; injection H as <-; reflexivity|].
  destruct (existsb is_number s && forallb (fun c => isna c || is_number c) s);
    [discriminate|].
  destruct (existsb is_str origin && forallb isna s); [|discriminate].
  intro H. injection H as <-. reflexivity.
Qed.

Lemma str_strip_of_raises (origin s : Series) (e : exn) :
  str_strip_of origin s = Raise e -> e = AttributeError \/ e = Unmodelled.
Proof.
  unfold str_strip_of. destruct (existsb is_object s); [intro H; injection H as <-; tauto|].
  destruct (existsb is_str s); [discriminate|].
  destruct (existsb is_number s && forallb (fun c => isna c || is_number c) s);
    [intro H; injection H as <-; tauto|].
  destruct (existsb is_str origin && forallb isna s); [discriminate|].
  intro H. injection H as <-. tauto.
Qed.

Lemma str_strip_ok (s v : Series) : str_strip s = Ok v -> v = map strip_cell s.
Proof. apply str_strip_of_ok. Qed.

Lemma str_strip_raises (s : Series) (e : exn) :
  str_strip s = Raise e -> e = AttributeError \/ e = Unmodelled.
Proof. apply str_strip_of_raises. Qed.

Lemma merge_datasets_exec (L M R M2 M3 J1 J2 D : DataFrame) (ids whole keys ids' keys' : Series) :
  dropna "tmdbId" (rename catalog_key M) = Ok M2 ->
  drop_duplicates "tmdbId" M2 = Ok M3 ->
  merge L M3 "tmdbId" = Ok J1 ->
  getitem J1 "imdb_id" = Ok ids ->
  getitem M3 "imdb_id" = Ok whole ->
  str_strip_of whole ids = Ok ids' ->
  getitem R "tconst" = Ok keys ->
  str_strip keys = Ok keys' ->
  merge (setitem J1 "tconst" ids') (setitem R "tconst" keys') "tconst" = Ok J2 ->
  drop ["imdbId"; "tconst"] J2 = Ok D ->
  reconcile L M R
  = (Ok 10,
     [L; M; setitem R "tconst" keys';
      rename catalog_key M; rename catalog_key M; M2; M3;
      setitem J1 "tconst" ids'; J2; D; rename published D]).
Proof.
  intros H1 H2 H3 H4 W4 S4 H5 S5 H6 H7. unfold catalog_key in H1.
  cbv beta delta [reconcile merge_datasets method copy pd_merge column assign_column inplace
                  origin bind deref lift new assign ret].
  cbn [nth_error List.length app update]. rewrite H1.
  cbn [nth_error List.length app update]. rewrite H2.
  cbn [nth_error List.length app update]. rewrite H3.
  cbn [nth_error List.length app update]. rewrite H4.
  cbn [nth_error List.length app update]. rewrite W4.
  cbn [nth_error List.length app update]. rewrite S4.
  cbn [nth_error List.length app update]. rewrite H5.
  cbn [nth_error List.length app update]. rewrite S5.
  cbn [nth_error List.length app update]. rewrite H6.
  cbn [nth_error List.length app update]. rewrite H7.
  reflexivity.
Qed.

(** Line 93 raises: nothing was assigned. *)
Lemma merge_datasets_stops_at_93 (L M R M2 M3 J1 : DataFrame) (ids whole : Series) (e : exn) :
  dropna "tmdbId" (rename catalog_key M) = Ok M2 ->
  drop_duplicates "tmdbId" M2 = Ok M3 ->
  merge L M3 "tmdbId" = Ok J1 ->
  getitem J1 "imdb_id" = Ok ids ->
  getitem M3 "imdb_id" = Ok whole ->
  str_strip_of whole ids = Raise e ->
  reconcile L M R
  = (Raise e, [L; M; R; rename catalog_key M; rename catalog_key M; M2; M3; J1]).
Proof.
  intros H1 H2 H3 H4 W4 S4. unfold catalog_key in H1.
  cbv beta delta [reconcile merge_datasets method copy pd_merge column assign_column inplace
                  origin bind deref lift new assign ret].
  cbn [nth_error List.length app update]. rewrite H1.
  cbn [nth_error List.length app update]. rewrite H2.
  cbn [nth_error List.length app update]. rewrite H3.
  cbn [nth_error List.length app update]. rewrite H4.
  cbn [nth_error List.length app update]. rewrite W4.
  cbn [nth_error List.length app update]. rewrite S4.
  reflexivity.
Qed.

(** Line 94 raises: the rating table was not assigned to. *)
Lemma merge_datasets_stops_at_94 (L M R M2 M3 J1 : DataFrame)
    (ids whole keys ids' : Series) (e : exn) :
  dropna "tmdbId" (rename catalog_key M) = Ok M2 ->
  drop_duplicates "tmdbId" M2 = Ok M3 ->
  merge L M3 "tmdbId" = Ok J1 ->
  getitem J1 "imdb_id" = Ok ids ->
  getitem M3 "imdb_id" = Ok whole ->
  str_strip_of whole ids = Ok ids' ->
  getitem R "tconst" = Ok keys ->
  str_strip keys = Raise e ->
  reconcile L M R
  = (Raise e,
     [L; M; R; rename catalog_key M; rename catalog_key M; M2; M3;
      setitem J1 "tconst" ids']).
Proof.
  intros H1 H2 H3 H4 W4 S4 H5 S5. unfold catalog_key in H1.
  cbv beta delta [reconcile merge_datasets method copy pd_merge column assign_column inplace
                  origin bind deref lift new assign ret].
  cbn [nth_error List.length app update]. rewrite H1.
  cbn [nth_error List.length app update]. rewrite H2.
  cbn [nth_error List.length app update]. rewrite H3.
  cbn [nth_error List.length app update]. rewrite H4.
  cbn [nth_error List.length app update]. rewrite W4.
  cbn [nth_error List.length app update]. rewrite S4.
  cbn [nth_error List.length app update]. rewrite H5.
  cbn [nth_error List.length app update]. rewrite S5.
  reflexivity.
Qed.

(** ** What [merge_datasets] returns on the pipeline's tables *)

Lemma catalog_label (c : string) :
  rename_label catalog_key c = if String.eqb c "id" then "tmdbId" else c.
Proof. unfold rename_label, catalog_key. simpl. destruct (String.eqb c "id"); reflexivity. Qed.

Lemma catalog_label_in (c : string) (cols : list string) :
  In c (map (rename_label catalog_key) cols) -> c <> "tmdbId" -> In c cols.
Proof.
  intros H Hne. apply in_map_iff in H. destruct H as [k [Hk Hin]].
  rewrite catalog_label in Hk. destruct (String.eqb k "id"); congruence.
Qed.

Record inputs_ok (L M R : DataFrame) : Prop := {
  links_columns : columns L = link_columns;
  links_wf : wf L;
  ratings_columns : columns R = rating_columns;
  ratings_wf : wf R;
  catalog_id : In "id" (columns M);
  catalog_imdb_id : In "imdb_id" (columns M);
  catalog_nodup : NoDup (columns M);
  catalog_wf : wf M;
  catalog_fresh : forall c, In c reconciler_labels -> ~ In c (columns M)
}.

Lemma reconciler_inputs_ok (L M R : DataFrame) :
  reconciler_inputs L M R = true -> inputs_ok L M R.
Proof.
  unfold reconciler_inputs. rewrite !andb_true_iff.
  intros [[[[[[[[H1 H2] H3] H4] H5] H6] H7] H8] H9].
  constructor.
  - apply labels_eqb_eq. exact H1.
  - apply wfb_wf. exact H2.
  - apply labels_eqb_eq. exact H3.
  - apply wfb_wf. exact H4.
  - apply mem_In. exact H5.
  - apply mem_In. exact H6.
  - apply nodupb_NoDup. exact H7.
  - apply wfb_wf. exact H8.
  - intros c Hc. rewrite forallb_forall in H9. specialize (H9 c Hc).
    apply negb_true_iff in H9. apply mem_false. exact H9.
Qed.

Lemma flat_map_map {A B C : Type} (f : A -> B) (g : B -> list C) (l : list A) :
  flat_map g (map f l) = flat_map (fun a => g (f a)) l.
Proof. induction l as [|a l IH]; simpl; [reflexivity|]. rewrite IH. reflexivity. Qed.

Lemma flat_map_flat_map {A B C : Type} (f : A -> list B) (g : B -> list C) (l : list A) :
  flat_map g (flat_map f l) = flat_map (fun a => flat_map g (f a)) l.
Proof.
  induction l as [|a l IH]; simpl; [reflexivity|].
  rewrite flat_map_app, IH. reflexivity.
Qed.

Lemma map_flat_map {A B C : Type} (f : A -> list B) (g : B -> C) (l : list A) :
  map g (flat_map f l) = flat_map (fun a => map g (f a)) l.
Proof.
  induction l as [|a l IH]; simpl; [reflexivity|].
  rewrite map_app, IH. reflexivity.
Qed.

Lemma reconcile_run (L M R : DataFrame) :
  inputs_ok L M R ->
  object_after (reconcile L M R) 0 = Some L
  /\ object_after (reconcile L M R) 1 = Some M
  /\ match str_strip_of (catalog_ids M) (joined_ids L M) with
     | Raise e =>
         fst (reconcile L M R) = Raise e /\ object_after (reconcile L M R) 2 = Some R
     | Ok _ =>
         match str_strip (map (get "tconst") (rows R)) with
         | Raise e =>
             fst (reconcile L M R) = Raise e /\ object_after (reconcile L M R) 2 = Some R
         | Ok _ =>
             returned (reconcile L M R)
             = Ok {| columns :=
                       map (rename_label published)
                         (filter (fun c => negb (mem c ["imdbId"; "tconst"]))
                            (((columns L ++ catalog_columns M) ++ ["tconst"])
                             ++ ["averageRating"; "numVotes"]));
                     rows := flat_map (reconciled_rows M R) (rows L) |}
             /\ object_after (reconcile L M R) 2
                = Some {| columns := columns R; rows := rating_rows R |}
         end
     end.
Proof.
  intros [HL HLwf HR HRwf Hid Himdb Hnd HMwf Hfresh].
  set (M1 := rename catalog_key M).
  set (M2 := {| columns := columns M1;
                rows := filter (fun r => negb (isna (get "tmdbId" r))) (rows M1) |}).
  set (M3 := {| columns := columns M1; rows := catalog_rows M |}).
  assert (HM1 : has_column "tmdbId" M1 = true).
  { apply mem_In. unfold M1. simpl. apply in_map_iff. exists "id". split; [reflexivity | exact Hid]. }
  assert (E1 : dropna "tmdbId" M1 = Ok M2).
  { unfold dropna. rewrite HM1. reflexivity. }
  assert (E2 : drop_duplicates "tmdbId" M2 = Ok M3).
  { unfold drop_duplicates. change (has_column "tmdbId" M2) with (has_column "tmdbId" M1).
    rewrite HM1. reflexivity. }
  assert (Hnot : forall c, In c reconciler_labels -> c <> "tmdbId" ->
                           ~ In c (map (rename_label catalog_key) (columns M))).
  { intros c Hc Hne Hin. apply (Hfresh c Hc). apply catalog_label_in; assumption. }
  set (J1 := {| columns := columns L ++ catalog_columns M;
                rows := flat_map (plain_join "tmdbId" (catalog_columns M) (catalog_rows M))
                          (rows L) |}).
  assert (E3 : merge L M3 "tmdbId" = Ok J1).
  { rewrite merge_plain; [reflexivity | | exact HM1 |].
    - unfold has_column. rewrite HL. reflexivity.
    - intros c Hc Hc'. rewrite HL in Hc. simpl in Hc.
      destruct Hc as [<-|[<-|[<-|[]]]]; try reflexivity; exfalso;
        (refine (Hnot _ _ _ Hc'); [simpl; tauto | discriminate]). }
  assert (Himdb' : In "imdb_id" (catalog_columns M)).
  { unfold catalog_columns. apply filter_In. split; [|reflexivity].
    apply in_map_iff. exists "imdb_id". split; [reflexivity | exact Himdb]. }
  assert (E4 : getitem J1 "imdb_id" = Ok (joined_ids L M)).
  { unfold getitem. replace (has_column "imdb_id" J1) with true; [reflexivity|].
    symmetry. apply mem_In. simpl. apply in_or_app. right. exact Himdb'. }
  assert (E5 : getitem R "tconst" = Ok (map (get "tconst") (rows R))).
  { unfold getitem, has_column. rewrite HR. reflexivity. }
  assert (W4 : getitem M3 "imdb_id" = Ok (catalog_ids M)).
  { unfold getitem. replace (has_column "imdb_id" M3) with true; [reflexivity|].
    symmetry. apply mem_In. unfold M3, M1. cbn [columns rename].
    apply in_map_iff. exists "imdb_id". split; [reflexivity | exact Himdb]. }
  destruct (str_strip_of (catalog_ids M) (joined_ids L M)) as [ids'|e] eqn:S4.
  2:{ rewrite (merge_datasets_stops_at_93 L M R M2 M3 J1 _ _ e E1 E2 E3 E4 W4 S4).
      unfold object_after. cbn [fst snd nth_error]. repeat split. }
  destruct (str_strip (map (get "tconst") (rows R))) as [keys'|e] eqn:S5.
  2:{ rewrite (merge_datasets_stops_at_94 L M R M2 M3 J1 _ _ _ ids' e E1 E2 E3 E4 W4 S4 E5 S5).
      unfold object_after. cbn [fst snd nth_error]. repeat split. }
  apply str_strip_of_ok in S4 as Eids. apply str_strip_ok in S5 as Ekeys.
  assert (Hcat : forall c, In c reconciler_labels -> ~ In c (catalog_columns M)).
  { intros c Hc Hin. unfold catalog_columns in Hin. apply filter_In in Hin.
    destruct Hin as [Hin Hne]. apply negb_true_iff, String.eqb_neq in Hne.
    exact (Hnot c Hc Hne Hin). }
  set (J1' := {| columns := (columns L ++ catalog_columns M) ++ ["tconst"];
                 rows := map with_tconst (rows J1) |}).
  assert (E6 : setitem J1 "tconst" ids' = J1').
  { rewrite Eids. unfold setitem. replace (has_column "tconst" J1) with false.
    - unfold J1', joined_ids. f_equal. fold (rows J1). rewrite map_map.
      rewrite (set_rows_map "tconst" (fun r => strip_cell (get "imdb_id" r))). reflexivity.
    - symmetry. apply mem_false. simpl. intro Hin. apply in_app_or in Hin.
      destruct Hin as [Hin|Hin].
      + rewrite HL in Hin. simpl in Hin. intuition discriminate.
      + revert Hin. apply Hcat. simpl. tauto. }
  set (R' := {| columns := columns R; rows := rating_rows R |}).
  assert (E7 : setitem R "tconst" keys' = R').
  { rewrite Ekeys. unfold R', setitem, has_column. rewrite HR. reflexivity. }
  set (J2 := {| columns := columns J1' ++ ["averageRating"; "numVotes"];
                rows := flat_map (plain_join "tconst" ["averageRating"; "numVotes"]
                                    (rating_rows R)) (rows J1') |}).
  assert (E8 : merge J1' R' "tconst" = Ok J2).
  { rewrite merge_plain.
    - unfold J2, other_columns. simpl columns. rewrite HR. reflexivity.
    - apply mem_In. simpl. apply in_or_app. right. left. reflexivity.
    - unfold has_column. simpl. rewrite HR. reflexivity.
    - intros c Hc Hc'. simpl in Hc'. rewrite HR in Hc'. simpl in Hc'.
      destruct Hc' as [<-|[<-|[<-|[]]]]; try reflexivity; exfalso;
        simpl in Hc; rewrite HL in Hc;
        apply in_app_or in Hc; destruct Hc as [Hc|Hc];
        try (apply in_app_or in Hc; destruct Hc as [Hc|Hc]);
        try (simpl in Hc; intuition discriminate);
        (revert Hc; apply Hcat; simpl; tauto). }
  set (D := {| columns := filter (fun c => negb (mem c ["imdbId"; "tconst"])) (columns J2);
               rows := map (filter (fun p => negb (mem (fst p) ["imdbId"; "tconst"])))
                         (rows J2) |}).
  assert (E9 : drop ["imdbId"; "tconst"] J2 = Ok D).
  { unfold drop, missing_labels. simpl filter.
    replace (has_column "imdbId" J2) with true.
    - replace (has_column "tconst" J2) with true; [reflexivity|].
      symmetry. apply mem_In. simpl. apply in_or_app. left. apply in_or_app. right.
      left. reflexivity.
    - symmetry. apply mem_In. simpl. rewrite HL. simpl. tauto. }
  rewrite <- E6 in E8. rewrite <- E7 in E8.
  rewrite (merge_datasets_exec L M R M2 M3 J1 J2 D _ _ _ ids' keys'
             E1 E2 E3 E4 W4 S4 E5 S5 E8 E9).
  rewrite E6, E7. unfold returned, object_after. cbn [fst snd nth_error].
  repeat split. f_equal.
  unfold rename, D, J2, J1', J1. cbn [columns rows]. f_equal.
  unfold reconciled_rows. fold (catalog_columns M).
  rewrite map_map, map_flat_map, flat_map_map, flat_map_flat_map.
  apply flat_map_ext. intro l.
  rewrite map_flat_map, flat_map_map. reflexivity.
Qed.

(** ** The shape of an output row *)

Lemma keys_rename_keys (f : string -> string) (r : row) :
  map fst (rename_keys f r) = map f (map fst r).
Proof. unfold rename_keys. rewrite !map_map. reflexivity. Qed.

Lemma keys_without_key (on : string) (r : row) :
  map fst (without_key on r) = filter (fun c => negb (String.eqb c on)) (map fst r).
Proof.
  unfold without_key. induction r as [|[k v] r IH]; simpl; [reflexivity|].
  destruct (String.eqb k on); simpl; rewrite IH; reflexivity.
Qed.

Lemma keys_fill (cols : list string) : map fst (map (fun c => (c, NA)) cols) = cols.
Proof. rewrite map_map. simpl. apply map_id. Qed.

Lemma keys_set_cell_present (c : string) (v : cell) (r : row) :
  In c (map fst r) -> map fst (set_cell c v r) = map fst r.
Proof.
  induction r as [|[k w] r IH]; simpl; [tauto|].
  destruct (String.eqb_spec c k) as [->|Hne]; simpl; [reflexivity|].
  intros [E|H]; [congruence|]. rewrite IH by exact H. reflexivity.
Qed.

Lemma set_cell_absent (c : string) (v : cell) (r : row) :
  ~ In c (map fst r) -> set_cell c v r = r ++ [(c, v)].
Proof.
  induction r as [|[k w] r IH]; simpl; intro H; [reflexivity|].
  destruct (String.eqb_spec c k) as [->|Hne]; [exfalso; apply H; left; reflexivity|].
  rewrite IH; [reflexivity|]. intro Hin. apply H. right. exact Hin.
Qed.

Lemma filter_keys_all (P : string -> bool) (r : row) :
  (forall k, In k (map fst r) -> P k = true) -> filter (fun p => P (fst p)) r = r.
Proof.
  induction r as [|[k v] r IH]; simpl; intro H; [reflexivity|].
  rewrite (H k) by (left; reflexivity). rewrite IH; [reflexivity|].
  intros k' Hk'. apply H. right. exact Hk'.
Qed.

Lemma flat_map_ext_in {A B : Type} (f g : A -> list B) (l : list A) :
  (forall a, In a l -> f a = g a) -> flat_map f l = flat_map g l.
Proof.
  induction l as [|a l IH]; simpl; intro H; [reflexivity|].
  rewrite (H a) by (left; reflexivity). rewrite IH; [reflexivity|].
  intros b Hb. apply H. right. exact Hb.
Qed.

Lemma plain_join_tails (on : string) (rcols : list string) (right_rows : list row) (l : row) :
  plain_join on rcols right_rows l = map (app l) (join_tails on rcols right_rows (get on l)).
Proof.
  unfold plain_join, join_tails.
  destruct (filter (fun r => cell_eqb (get on r) (get on l)) right_rows); simpl.
  - reflexivity.
  - rewrite map_map. reflexivity.
Qed.

Lemma join_tails_keys (on : string) (rcols cols : list string) (right_rows : list row)
    (k : cell) (t : row) :
  (forall r, In r right_rows -> map fst r = cols) ->
  rcols = filter (fun c => negb (String.eqb c on)) cols ->
  In t (join_tails on rcols right_rows k) -> map fst t = rcols.
Proof.
  intros Hwf Hcols. unfold join_tails.
  destruct (filter (fun r => cell_eqb (get on r) k) right_rows) as [|m ms] eqn:E.
  - intros [<-|[]]. apply keys_fill.
  - intro Hin. apply in_map_iff in Hin. destruct Hin as [r [<- Hr]].
    rewrite keys_without_key, Hcols. f_equal. apply Hwf.
    rewrite <- E in Hr. apply filter_In in Hr. tauto.
Qed.

Lemma join_tails_nonempty (on : string) (rcols : list string) (right_rows : list row)
    (k : cell) :
  join_tails on rcols right_rows k <> [].
Proof.
  unfold join_tails.
  destruct (filter (fun r => cell_eqb (get on r) k) right_rows); simpl; discriminate.
Qed.

Lemma catalog_rows_from (M : DataFrame) (m' : row) :
  In m' (catalog_rows M) ->
  exists m, In m (rows M) /\ m' = rename_keys (rename_label catalog_key) m
            /\ isna (get "tmdbId" m') = false.
Proof.
  unfold catalog_rows. intro H. apply first_seen_subset in H.
  apply filter_In in H. destruct H as [H Hna]. apply in_map_iff in H.
  destruct H as [m [<- Hm]]. exists m. repeat split; [exact Hm|].
  apply negb_true_iff. exact Hna.
Qed.

Lemma catalog_tails_keys (M : DataFrame) (k : cell) (t : row) :
  wf M -> In t (catalog_tails M k) -> map fst t = catalog_columns M.
Proof.
  intros Hwf. unfold catalog_tails.
  apply (join_tails_keys _ _ (map (rename_label catalog_key) (columns M))); [|reflexivity].
  intros r Hr. apply catalog_rows_from in Hr. destruct Hr as [m [Hm [-> _]]].
  rewrite keys_rename_keys. f_equal. unfold wf in Hwf. rewrite Forall_forall in Hwf.
  apply Hwf. exact Hm.
Qed.

Lemma rating_rows_map (R : DataFrame) :
  rating_rows R
  = map (fun r => set_cell "tconst" (strip_cell (get "tconst" r)) r) (rows R).
Proof.
  unfold rating_rows. rewrite map_map.
  apply (set_rows_map "tconst" (fun r => strip_cell (get "tconst" r))).
Qed.

Lemma rating_tails_keys (R : DataFrame) (k : cell) (t : row) :
  columns R = rating_columns -> wf R ->
  In t (rating_tails R k) -> map fst t = ["averageRating"; "numVotes"].
Proof.
  intros HR Hwf. unfold rating_tails.
  apply (join_tails_keys _ _ rating_columns); [|reflexivity].
  intros r Hr. rewrite rating_rows_map in Hr. apply in_map_iff in Hr.
  destruct Hr as [r0 [<- Hr0]]. unfold wf in Hwf. rewrite Forall_forall in Hwf.
  specialize (Hwf r0 Hr0). rewrite HR in Hwf.
  rewrite keys_set_cell_present; [exact Hwf|]. rewrite Hwf. simpl. tauto.
Qed.

Lemma published_label (c : string) :
  rename_label published c
  = if String.eqb c "imdb_id" then "imdbId"
    else if String.eqb c "numVotes" then "imdb_numVotes"
    else if String.eqb c "averageRating" then "imdb_averageRating"
    else c.
Proof.
  unfold rename_label, published. simpl.
  destruct (String.eqb c "imdb_id"); [reflexivity|].
  destruct (String.eqb c "numVotes"); [reflexivity|].
  destruct (String.eqb c "averageRating"); reflexivity.
Qed.

Lemma reconciled_rows_shape (L M R : DataFrame) (l : row) :
  inputs_ok L M R -> In l (rows L) ->
  reconciled_rows M R l
  = flat_map
      (fun t1 => map (output_row l t1) (rating_tails R (strip_cell (get "imdb_id" t1))))
      (catalog_tails M (get "tmdbId" l)).
Proof.
  intros [HL HLwf HR HRwf Hid Himdb Hnd HMwf Hfresh] Hl.
  assert (Hcat : forall c, In c reconciler_labels -> ~ In c (catalog_columns M)).
  { intros c Hc Hin. unfold catalog_columns in Hin. apply filter_In in Hin.
    destruct Hin as [Hin Hne]. apply negb_true_iff, String.eqb_neq in Hne.
    apply (Hfresh c Hc). apply catalog_label_in; assumption. }
  unfold wf in HLwf. rewrite Forall_forall in HLwf. specialize (HLwf l Hl).
  rewrite HL in HLwf.
  destruct l as [|[k1 v1] [|[k2 v2] [|[k3 v3] [|? ?]]]]; try discriminate HLwf.
  unfold link_columns in HLwf. simpl in HLwf.
  injection HLwf as -> -> ->.
  set (l := [("movieId", v1); ("imdbId", v2); ("tmdbId", v3)]).
  unfold reconciled_rows. rewrite plain_join_tails.
  fold (catalog_tails M (get "tmdbId" l)).
  rewrite map_map, flat_map_map, map_flat_map.
  apply flat_map_ext_in. intros t1 Ht1.
  pose proof (catalog_tails_keys M _ t1 HMwf Ht1) as Hk1.
  assert (Hway : with_tconst (l ++ t1)
                 = l ++ t1 ++ [("tconst", strip_cell (get "imdb_id" t1))]).
  { unfold with_tconst. rewrite set_cell_absent.
    - rewrite <- app_assoc. reflexivity.
    - rewrite map_app, Hk1. intro Hin. apply in_app_or in Hin. destruct Hin as [Hin|Hin].
      + simpl in Hin. intuition discriminate.
      + revert Hin. apply Hcat. simpl. tauto. }
  rewrite Hway. rewrite plain_join_tails.
  assert (Hkey : get "tconst" (l ++ t1 ++ [("tconst", strip_cell (get "imdb_id" t1))])
                 = strip_cell (get "imdb_id" t1)).
  { apply get_lookup. rewrite lookup_app. simpl lookup at 1.
    rewrite lookup_app.
    replace (lookup "tconst" t1) with (@None cell).
    - simpl. reflexivity.
    - symmetry. apply lookup_None. rewrite Hk1. apply Hcat. simpl. tauto. }
  rewrite Hkey. fold (rating_tails R (strip_cell (get "imdb_id" t1))).
  rewrite map_map. apply map_ext_in. intros t2 Ht2.
  pose proof (rating_tails_keys R _ t2 HR HRwf Ht2) as Hk2.
  unfold publish, output_row.
  rewrite !filter_app.
  rewrite (filter_keys_all (fun k => negb (mem k ["imdbId"; "tconst"])) t1).
  - rewrite (filter_keys_all (fun k => negb (mem k ["imdbId"; "tconst"])) t2).
    + assert (E1 : filter (fun p : string * cell => negb (mem (fst p) ["imdbId"; "tconst"])) l
                   = [("movieId", v1); ("tmdbId", v3)]) by reflexivity.
      assert (E2 : filter (fun p : string * cell => negb (mem (fst p) ["imdbId"; "tconst"]))
                     [("tconst", strip_cell (get "imdb_id" t1))] = []) by reflexivity.
      rewrite E1, E2, app_nil_r. unfold rename_keys. rewrite !map_app, <- app_assoc.
      reflexivity.
    + rewrite Hk2. simpl. intros k [<-|[<-|[]]]; reflexivity.
  - rewrite Hk1. intros k Hk. apply negb_true_iff. apply mem_false.
    simpl. intros [<-|[<-|[]]]; revert Hk; apply Hcat; simpl; tauto.
Qed.

(** ** The rows of the reconciled table *)

Lemma returned_raises (A : result ref * heap) (e : exn) (out : DataFrame) :
  fst A = Raise e -> returned A <> Ok out.
Proof. unfold returned. intros ->. discriminate. Qed.

(** Whenever [merge_datasets] returns on the pipeline's tables, it returns
    the table [reconciled]. *)
Lemma reconcile_returns (L M R out : DataFrame) :
  inputs_ok L M R -> returned (reconcile L M R) = Ok out -> out = reconciled L M R.
Proof.
  intros H Hout. destruct (reconcile_run L M R H) as [_ [_ E]].
  destruct (str_strip_of (catalog_ids M) (joined_ids L M)) as [ids|e];
    [|destruct E as [E _]; exfalso; exact (returned_raises _ e out E Hout)].
  destruct (str_strip (map (get "tconst") (rows R))) as [keys|e];
    [|destruct E as [E _]; exfalso; exact (returned_raises _ e out E Hout)].
  destruct E as [E _]. rewrite E in Hout. injection Hout as <-.
  unfold reconciled. f_equal.
  apply flat_map_ext_in. intros l Hl. apply (reconciled_rows_shape L M R l H Hl).
Qed.

(** It returns when [.str] accepts the two key columns. *)
Lemma reconcile_returns_when (L M R : DataFrame) (ids keys : Series) :
  inputs_ok L M R ->
  str_strip_of (catalog_ids M) (joined_ids L M) = Ok ids ->
  str_strip (map (get "tconst") (rows R)) = Ok keys ->
  returned (reconcile L M R) = Ok (reconciled L M R).
Proof.
  intros H S4 S5. destruct (reconcile_run L M R H) as [_ [_ E]].
  rewrite S4, S5 in E. destruct E as [E _].
  rewrite (reconcile_returns L M R _ H E) in E. exact E.
Qed.

Lemma in_reconciled (L M R : DataFrame) (o : row) :
  In o (rows (reconciled L M R))
  <-> exists l t1 t2,
        In l (rows L)
        /\ In t1 (catalog_tails M (get "tmdbId" l))
        /\ In t2 (rating_tails R (strip_cell (get "imdb_id" t1)))
        /\ o = output_row l t1 t2.
Proof.
  unfold reconciled. cbn [rows].
  rewrite in_flat_map. split.
  - intros [l [Hl H]]. apply in_flat_map in H. destruct H as [t1 [Ht1 H]].
    apply in_map_iff in H. destruct H as [t2 [<- Ht2]]. exists l, t1, t2. tauto.
  - intros [l [t1 [t2 [Hl [Ht1 [Ht2 ->]]]]]]. exists l. split; [exact Hl|].
    apply in_flat_map. exists t1. split; [exact Ht1|].
    apply in_map. exact Ht2.
Qed.

Lemma output_row_link (l t1 t2 : row) :
  get "movieId" (output_row l t1 t2) = get "movieId" l
  /\ get "tmdbId" (output_row l t1 t2) = get "tmdbId" l.
Proof. split; reflexivity. Qed.

Lemma lookup_in_keys (c : string) (r : row) :
  In c (map fst r) -> exists v, lookup c r = Some v.
Proof.
  intro H. destruct (lookup c r) as [v|] eqn:E; [exists v; reflexivity|].
  apply lookup_None in E. contradiction.
Qed.

(** A catalog column keeps its value under its published name. *)
Lemma output_row_catalog (M : DataFrame) (l t1 t2 : row) (c : string) :
  (forall c, In c reconciler_labels -> ~ In c (catalog_columns M)) ->
  map fst t1 = catalog_columns M ->
  In c (catalog_columns M) ->
  lookup (rename_label published c) (output_row l t1 t2) = lookup c t1.
Proof.
  intros Hcat Hk1 Hc.
  assert (Hpub : forall k, In k (catalog_columns M) ->
                   rename_label published k = if String.eqb k "imdb_id" then "imdbId" else k).
  { intros k Hk. rewrite published_label.
    destruct (String.eqb k "imdb_id"); [reflexivity|].
    destruct (String.eqb_spec k "numVotes") as [->|_];
      [exfalso; revert Hk; apply Hcat; simpl; tauto|].
    destruct (String.eqb_spec k "averageRating") as [->|_];
      [exfalso; revert Hk; apply Hcat; simpl; tauto|].
    reflexivity. }
  assert (Hne : forall lab, In lab reconciler_labels -> c <> lab).
  { intros lab Hlab ->. revert Hc. apply Hcat. exact Hlab. }
  unfold output_row. rewrite lookup_app.
  replace (lookup (rename_label published c)
             [("movieId", get "movieId" l); ("tmdbId", get "tmdbId" l)]) with (@None cell).
  - rewrite lookup_app. rewrite lookup_rename_keys.
    + destruct (lookup_in_keys c t1) as [v ->]; [rewrite Hk1; exact Hc | reflexivity].
    + intros k Hk. rewrite Hk1 in Hk. rewrite (Hpub k Hk), (Hpub c Hc).
      destruct (String.eqb_spec k "imdb_id") as [->|Hk'];
        destruct (String.eqb_spec c "imdb_id") as [->|Hc']; try congruence.
      * intro E. exfalso. apply (Hne "imdbId"); [simpl; tauto | congruence].
      * intros ->. exfalso. revert Hk. apply Hcat. simpl. tauto.
  - symmetry. rewrite (Hpub c Hc). simpl.
    destruct (String.eqb_spec c "imdb_id") as [->|_]; [reflexivity|].
    destruct (String.eqb_spec c "movieId") as [E|_];
      [exfalso; apply (Hne "movieId"); [simpl; tauto | exact E]|].
    destruct (String.eqb_spec c "tmdbId") as [E|_];
      [exfalso; apply (Hne "tmdbId"); [simpl; tauto | exact E]|].
    reflexivity.
Qed.

(** The two rating columns under their published names. *)
Lemma output_row_rating (M : DataFrame) (l t1 t2 : row) :
  (forall c, In c reconciler_labels -> ~ In c (catalog_columns M)) ->
  map fst t1 = catalog_columns M ->
  map fst t2 = ["averageRating"; "numVotes"] ->
  lookup "imdb_averageRating" (output_row l t1 t2) = lookup "averageRating" t2
  /\ lookup "imdb_numVotes" (output_row l t1 t2) = lookup "numVotes" t2.
Proof.
  intros Hcat Hk1 Hk2.
  assert (Hnone : forall lab, In lab ["imdb_averageRating"; "imdb_numVotes"] ->
                    lookup lab (rename_keys (rename_label published) t1) = None).
  { intros lab Hlab. apply lookup_None. rewrite keys_rename_keys, Hk1.
    intro Hin. apply in_map_iff in Hin. destruct Hin as [k [Ek Hk]].
    rewrite published_label in Ek. revert Ek.
    destruct (String.eqb_spec k "imdb_id") as [->|_];
      [intros <-; simpl in Hlab; intuition congruence|].
    destruct (String.eqb_spec k "numVotes") as [->|_];
      [intros _; revert Hk; apply Hcat; simpl; tauto|].
    destruct (String.eqb_spec k "averageRating") as [->|_];
      [intros _; revert Hk; apply Hcat; simpl; tauto|].
    intros ->. revert Hk. apply Hcat. simpl in Hlab |- *. tauto. }
  destruct t2 as [|[k1 v1] [|[k2 v2] [|? ?]]]; try discriminate Hk2.
  simpl in Hk2. injection Hk2 as -> ->.
  unfold output_row. split.
  - rewrite lookup_app. simpl lookup at 1. rewrite lookup_app.
    rewrite Hnone by (simpl; tauto). reflexivity.
  - rewrite lookup_app. simpl lookup at 1. rewrite lookup_app.
    rewrite Hnone by (simpl; tauto). reflexivity.
Qed.

(** ** Matching a link against the catalog *)

Lemma filter_none {A : Type} (f : A -> bool) (l : list A) :
  existsb f l = false -> filter f l = [].
Proof.
  induction l as [|a l IH]; simpl; [reflexivity|].
  destruct (f a); simpl; [discriminate | exact IH].
Qed.

Lemma catalog_tails_unmatched (M : DataFrame) (k : cell) :
  catalog_match M k = false ->
  catalog_tails M k = [map (fun c => (c, NA)) (catalog_columns M)].
Proof.
  intro H. unfold catalog_tails, join_tails. rewrite filter_none; [reflexivity | exact H].
Qed.

Lemma catalog_columns_in (M : DataFrame) (c : string) :
  (forall c, In c reconciler_labels -> ~ In c (columns M)) ->
  In c (columns M) -> c <> "id" -> In c (catalog_columns M).
Proof.
  intros Hfresh Hc Hne. unfold catalog_columns. apply filter_In. split.
  - apply in_map_iff. exists c. split; [|exact Hc]. rewrite catalog_label.
    destruct (String.eqb_spec c "id"); [contradiction | reflexivity].
  - apply negb_true_iff. apply String.eqb_neq. intros ->. revert Hc. apply Hfresh.
    simpl. tauto.
Qed.

Lemma catalog_columns_fresh (M : DataFrame) :
  (forall c, In c reconciler_labels -> ~ In c (columns M)) ->
  forall c, In c reconciler_labels -> ~ In c (catalog_columns M).
Proof.
  intros Hfresh c Hc Hin. unfold catalog_columns in Hin. apply filter_In in Hin.
  destruct Hin as [Hin Hne]. apply negb_true_iff, String.eqb_neq in Hne.
  apply (Hfresh c Hc). apply catalog_label_in; assumption.
Qed.

(** Claim C5: in every table the reconciler returns, a link row whose
    external catalog id matches no row of the deduplicated catalog has a
    row, and every output row with such an id carries the missing value,
    not zero and not the empty string, in every catalog-derived column, the
    genre indicators included.  (The reconciler returns no table when
    [.str] refuses one of the two key columns.) *)
Theorem unmatched_links_carry_nulls (L M R : DataFrame) :
  reconciler_inputs L M R = true ->
  forall out,
    returned (reconcile L M R) = Ok out ->
    (forall l, In l (rows L) -> catalog_match M (get "tmdbId" l) = false ->
       exists o, In o (rows out)
                 /\ get "movieId" o = get "movieId" l
                 /\ get "tmdbId" o = get "tmdbId" l
                 /\ forall c, In c (columns M) -> c <> "id" ->
                      lookup (rename_label published c) o = Some NA)
    /\ (forall o, In o (rows out) -> catalog_match M (get "tmdbId" o) = false ->
          forall c, In c (columns M) -> c <> "id" ->
            lookup (rename_label published c) o = Some NA).
Proof.
  intros Hin out Hout. apply reconciler_inputs_ok in Hin.
  rewrite (reconcile_returns L M R out Hin Hout). clear out Hout.
  pose proof (catalog_fresh _ _ _ Hin) as Hfresh.
  pose proof (catalog_columns_fresh M Hfresh) as Hcat.
  assert (Hall : forall o, In o (rows (reconciled L M R)) -> catalog_match M (get "tmdbId" o) = false ->
            forall c, In c (columns M) -> c <> "id" ->
              lookup (rename_label published c) o = Some NA).
  { intros o Ho Hun c Hc Hne. apply in_reconciled in Ho.
    destruct Ho as [l [t1 [t2 [Hl [Ht1 [Ht2 ->]]]]]].
    change (get "tmdbId" (output_row l t1 t2)) with (get "tmdbId" l) in Hun.
    rewrite (catalog_tails_unmatched M _ Hun) in Ht1. destruct Ht1 as [<-|[]].
    rewrite (output_row_catalog M); [| exact Hcat | apply keys_fill |
                                      apply catalog_columns_in; assumption].
    rewrite lookup_fill.
    replace (mem c (catalog_columns M)) with true; [reflexivity|].
    symmetry. apply mem_In. apply catalog_columns_in; assumption. }
  split; [|exact Hall].
  intros l Hl Hun.
  destruct (catalog_tails M (get "tmdbId" l)) as [|t1 ts] eqn:E1;
    [exfalso; revert E1; apply join_tails_nonempty|].
  destruct (rating_tails R (strip_cell (get "imdb_id" t1))) as [|t2 ts'] eqn:E2;
    [exfalso; revert E2; apply join_tails_nonempty|].
  assert (Ho : In (output_row l t1 t2) (rows (reconciled L M R))).
  { apply in_reconciled. exists l, t1, t2.
    rewrite E1, E2. simpl. tauto. }
  exists (output_row l t1 t2). split; [exact Ho|]. split; [reflexivity|].
  split; [reflexivity|]. apply Hall; [exact Ho | exact Hun].
Qed.

(** ** The first catalog row of a key *)

Lemma catalog_key_of (r : row) :
  ~ In "tmdbId" (map fst r) ->
  get "tmdbId" (rename_keys (rename_label catalog_key) r) = get "id" r.
Proof.
  intro H. unfold get.
  change "tmdbId" with (rename_label catalog_key "id") at 1.
  rewrite lookup_rename_keys; [reflexivity|].
  intros k Hk. rewrite catalog_label. change (rename_label catalog_key "id") with "tmdbId".
  destruct (String.eqb_spec k "id") as [->|_]; [reflexivity|].
  intros ->. contradiction.
Qed.

Lemma catalog_row_keys (M : DataFrame) (r : row) :
  wf M -> (forall c, In c reconciler_labels -> ~ In c (columns M)) ->
  In r (rows M) -> ~ In "tmdbId" (map fst r).
Proof.
  intros Hwf Hfresh Hr. unfold wf in Hwf. rewrite Forall_forall in Hwf.
  rewrite (Hwf r Hr). apply Hfresh. simpl. tauto.
Qed.

Lemma first_seen_app (key : row -> cell) (a x : list row) (seen : list cell) :
  first_seen key seen (a ++ x)
  = first_seen key seen a ++ first_seen key (rev (map key a) ++ seen) x.
Proof.
  revert seen. induction a as [|r a IH]; intro seen; simpl; [reflexivity|].
  rewrite <- app_assoc. simpl.
  destruct (existsb (cell_eqb (key r)) seen); rewrite IH; reflexivity.
Qed.

Lemma first_seen_filter_seen (key : row -> cell) (k : cell) (rs : list row)
    (s1 s2 : list cell) :
  same_seen s1 s2 ->
  (forall x, cell_eqb x k = true -> existsb (cell_eqb x) s2 = true) ->
  first_seen key s1 (filter (fun r => negb (cell_eqb (key r) k)) rs)
  = first_seen key s2 rs.
Proof.
  revert s1 s2. induction rs as [|r rs IH]; intros s1 s2 Hsame Hseen; simpl; [reflexivity|].
  assert (Hmono : forall y x, cell_eqb x k = true -> existsb (cell_eqb x) (y :: s2) = true).
  { intros y x Hx. simpl. rewrite (Hseen x Hx). apply orb_true_r. }
  destruct (cell_eqb (key r) k) eqn:E; simpl.
  - rewrite (Hseen _ E). apply IH; [|apply Hmono].
    intro x. rewrite (Hsame x). simpl.
    destruct (cell_eqb x (key r)) eqn:Ex; [|reflexivity]. simpl.
    apply Hseen. eapply cell_eqb_trans; eassumption.
  - rewrite (Hsame (key r)).
    assert (Hsame' : same_seen (key r :: s1) (key r :: s2)).
    { intro x. simpl. rewrite (Hsame x). reflexivity. }
    destruct (existsb (cell_eqb (key r)) s2); [|f_equal]; apply IH; auto.
Qed.

Lemma catalog_rows_split (M : DataFrame) (pre post : list row) (m : row) :
  wf M -> (forall c, In c reconciler_labels -> ~ In c (columns M)) ->
  rows M = pre ++ m :: post ->
  isna (get "id" m) = false ->
  exists pre' post',
    filter (fun r => negb (isna (get "tmdbId" r)))
      (map (rename_keys (rename_label catalog_key)) (rows M))
    = pre' ++ rename_keys (rename_label catalog_key) m :: post'
    /\ (forall p', In p' pre' ->
          exists p, In p pre /\ get "tmdbId" p' = get "id" p)
    /\ post' = filter (fun r => negb (isna (get "tmdbId" r)))
                 (map (rename_keys (rename_label catalog_key)) post).
Proof.
  intros Hwf Hfresh Hrows Hna.
  assert (Hkey : forall r, In r (rows M) ->
            get "tmdbId" (rename_keys (rename_label catalog_key) r) = get "id" r).
  { intros r Hr. apply catalog_key_of. apply (catalog_row_keys M); assumption. }
  rewrite Hrows in Hkey |- *. rewrite map_app, filter_app. simpl.
  rewrite (Hkey m) by (apply in_or_app; right; left; reflexivity).
  rewrite Hna. simpl.
  eexists. eexists. split; [reflexivity|]. split; [|reflexivity].
  intros p' Hp'. apply filter_In in Hp'. destruct Hp' as [Hp' _].
  apply in_map_iff in Hp'. destruct Hp' as [p [<- Hp]]. exists p. split; [exact Hp|].
  apply Hkey. apply in_or_app. left. exact Hp.
Qed.

Lemma catalog_tails_first (M : DataFrame) (pre post : list row) (m : row) (k : cell) :
  wf M -> (forall c, In c reconciler_labels -> ~ In c (columns M)) ->
  rows M = pre ++ m :: post ->
  isna (get "id" m) = false ->
  (forall p, In p pre -> cell_eqb (get "id" p) (get "id" m) = false) ->
  cell_eqb (get "id" m) k = true ->
  catalog_tails M k = [without_key "tmdbId" (rename_keys (rename_label catalog_key) m)].
Proof.
  intros Hwf Hfresh Hrows Hna Hpre Hk.
  destruct (catalog_rows_split M pre post m Hwf Hfresh Hrows Hna)
    as [pre' [post' [E [Hpre' _]]]].
  unfold catalog_tails, join_tails, catalog_rows. rewrite E.
  rewrite first_seen_first; [reflexivity | intros s [] | |].
  - intros p' Hp'. destruct (Hpre' p' Hp') as [p [Hp ->]].
    destruct (cell_eqb (get "id" p) k) eqn:Ep; [|reflexivity].
    rewrite <- (Hpre p Hp). symmetry.
    apply (cell_eqb_trans _ k); [exact Ep | rewrite cell_eqb_sym; exact Hk].
  - rewrite catalog_key_of; [exact Hk|]. apply (catalog_row_keys M); try assumption.
    rewrite Hrows. apply in_or_app. right. left. reflexivity.
Qed.

Lemma catalog_tail_field (M : DataFrame) (m : row) (c : string) :
  wf M -> (forall c, In c reconciler_labels -> ~ In c (columns M)) ->
  In m (rows M) -> In c (columns M) -> c <> "id" ->
  lookup c (without_key "tmdbId" (rename_keys (rename_label catalog_key) m)) = lookup c m.
Proof.
  intros Hwf Hfresh Hm Hc Hne.
  assert (Hc' : c <> "tmdbId").
  { intros ->. revert Hc. apply Hfresh. simpl. tauto. }
  unfold without_key.
  rewrite (lookup_filter (fun k => negb (String.eqb k "tmdbId"))).
  replace (String.eqb c "tmdbId") with false by (symmetry; apply String.eqb_neq; exact Hc').
  simpl.
  replace c with (rename_label catalog_key c) at 1.
  - apply lookup_rename_keys. intros k Hk. rewrite !catalog_label.
    destruct (String.eqb_spec k "id") as [->|_];
      destruct (String.eqb_spec c "id") as [->|_]; congruence.
  - rewrite catalog_label. destruct (String.eqb_spec c "id"); [contradiction | reflexivity].
Qed.

Lemma inputs_ok_catalog_subset (L M R : DataFrame) (rs : list row) :
  inputs_ok L M R -> (forall r, In r rs -> In r (rows M)) ->
  inputs_ok L {| columns := columns M; rows := rs |} R.
Proof.
  intros [HL HLwf HR HRwf Hid Himdb Hnd HMwf Hfresh] Hsub.
  constructor; try assumption.
  unfold wf in *. cbn [columns rows]. rewrite Forall_forall in *.
  intros r Hr. apply HMwf. apply Hsub. exact Hr.
Qed.

Lemma reconciled_same_catalog (L M M' R : DataFrame) :
  columns M' = columns M -> catalog_rows M' = catalog_rows M ->
  reconciled L M' R = reconciled L M R.
Proof.
  intros Hc Hr. unfold reconciled, catalog_tails, catalog_columns. rewrite Hc, Hr.
  reflexivity.
Qed.

Lemma catalog_filter_commute (k : cell) (rs : list row) :
  (forall r, In r rs ->
     get "tmdbId" (rename_keys (rename_label catalog_key) r) = get "id" r) ->
  filter (fun r => negb (isna (get "tmdbId" r)))
    (map (rename_keys (rename_label catalog_key))
       (filter (fun r => negb (cell_eqb (get "id" r) k)) rs))
  = filter (fun r => negb (cell_eqb (get "tmdbId" r) k))
      (filter (fun r => negb (isna (get "tmdbId" r)))
         (map (rename_keys (rename_label catalog_key)) rs)).
Proof.
  induction rs as [|r rs IH]; intro Hkey; simpl; [reflexivity|].
  assert (Hr := Hkey r (or_introl eq_refl)).
  assert (IH' := IH (fun x Hx => Hkey x (or_intror Hx))).
  destruct (cell_eqb (get "id" r) k) eqn:E; simpl; rewrite Hr.
  - destruct (isna (get "id" r)); simpl; [exact IH'|].
    rewrite Hr, E. simpl. exact IH'.
  - destruct (isna (get "id" r)); simpl; [exact IH'|].
    rewrite Hr, E. simpl. rewrite IH'. reflexivity.
Qed.

Lemma catalog_dropna_commute (rs : list row) :
  (forall r, In r rs ->
     get "tmdbId" (rename_keys (rename_label catalog_key) r) = get "id" r) ->
  filter (fun r => negb (isna (get "tmdbId" r)))
    (map (rename_keys (rename_label catalog_key))
       (filter (fun r => negb (isna (get "id" r))) rs))
  = filter (fun r => negb (isna (get "tmdbId" r)))
      (map (rename_keys (rename_label catalog_key)) rs).
Proof.
  induction rs as [|r rs IH]; intro Hkey; simpl; [reflexivity|].
  assert (Hr := Hkey r (or_introl eq_refl)).
  assert (IH' := IH (fun x Hx => Hkey x (or_intror Hx))).
  rewrite Hr. destruct (isna (get "id" r)) eqn:E; simpl; [exact IH'|].
  rewrite Hr, E. simpl. rewrite IH'. reflexivity.
Qed.

Lemma catalog_rows_without_later (M : DataFrame) (pre post : list row) (m : row) :
  wf M -> (forall c, In c reconciler_labels -> ~ In c (columns M)) ->
  rows M = pre ++ m :: post ->
  isna (get "id" m) = false ->
  catalog_rows
    {| columns := columns M;
       rows := pre ++ m :: filter (fun r => negb (cell_eqb (get "id" r) (get "id" m))) post |}
  = catalog_rows M.
Proof.
  intros Hwf Hfresh Hrows Hna.
  assert (Hkey : forall r, In r (rows M) ->
            get "tmdbId" (rename_keys (rename_label catalog_key) r) = get "id" r).
  { intros r Hr. apply catalog_key_of. apply (catalog_row_keys M); assumption. }
  unfold catalog_rows. cbn [rows]. rewrite Hrows in Hkey |- *.
  rewrite !map_app, !filter_app. simpl.
  rewrite (Hkey m) by (apply in_or_app; right; left; reflexivity).
  rewrite Hna. simpl.
  rewrite (catalog_filter_commute (get "id" m))
    by (intros r Hr; apply Hkey; apply in_or_app; right; right; exact Hr).
  rewrite !first_seen_app. f_equal. simpl.
  rewrite (Hkey m) by (apply in_or_app; right; left; reflexivity).
  set (seen := rev _ ++ []).
  assert (E : first_seen (get "tmdbId") (get "id" m :: seen)
                (filter (fun r => negb (cell_eqb (get "tmdbId" r) (get "id" m)))
                   (filter (fun r => negb (isna (get "tmdbId" r)))
                      (map (rename_keys (rename_label catalog_key)) post)))
              = first_seen (get "tmdbId") (get "id" m :: seen)
                  (filter (fun r => negb (isna (get "tmdbId" r)))
                     (map (rename_keys (rename_label catalog_key)) post))).
  { apply first_seen_filter_seen; [intro x; reflexivity|].
    intros x Hx. simpl. rewrite Hx. reflexivity. }
  rewrite E. reflexivity.
Qed.

Lemma catalog_rows_without_null (M : DataFrame) :
  wf M -> (forall c, In c reconciler_labels -> ~ In c (columns M)) ->
  catalog_rows
    {| columns := columns M; rows := filter (fun r => negb (isna (get "id" r))) (rows M) |}
  = catalog_rows M.
Proof.
  intros Hwf Hfresh. unfold catalog_rows. cbn [rows].
  rewrite catalog_dropna_commute; [reflexivity|].
  intros r Hr. apply catalog_key_of. apply (catalog_row_keys M); assumption.
Qed.

(** A returning run: [.str] accepted the two key columns. *)
Lemma reconcile_returned_strips (L M R out : DataFrame) :
  inputs_ok L M R -> returned (reconcile L M R) = Ok out ->
  exists ids keys,
    str_strip_of (catalog_ids M) (joined_ids L M) = Ok ids
    /\ str_strip (map (get "tconst") (rows R)) = Ok keys.
Proof.
  intros H Hout. destruct (reconcile_run L M R H) as [_ [_ E]].
  destruct (str_strip_of (catalog_ids M) (joined_ids L M)) as [ids|e];
    [|destruct E as [E _]; exfalso; exact (returned_raises _ e out E Hout)].
  destruct (str_strip (map (get "tconst") (rows R))) as [keys|e];
    [|destruct E as [E _]; exfalso; exact (returned_raises _ e out E Hout)].
  exists ids, keys. split; reflexivity.
Qed.

Lemma joined_ids_same_catalog (L M M' : DataFrame) :
  columns M' = columns M -> catalog_rows M' = catalog_rows M ->
  joined_ids L M' = joined_ids L M /\ catalog_ids M' = catalog_ids M.
Proof.
  intros Hc Hr. unfold joined_ids, catalog_ids, catalog_columns. rewrite Hc, Hr.
  split; reflexivity.
Qed.

(** A catalog with the same columns and the same deduplicated rows gives
    the same run. *)
Lemma reconcile_same_catalog (L M M' R out : DataFrame) :
  inputs_ok L M R -> inputs_ok L M' R ->
  columns M' = columns M -> catalog_rows M' = catalog_rows M ->
  returned (reconcile L M R) = Ok out ->
  returned (reconcile L M' R) = Ok out.
Proof.
  intros H H' Hc Hr Hout.
  destruct (reconcile_returned_strips L M R out H Hout) as [ids [keys [S4 S5]]].
  destruct (joined_ids_same_catalog L M M' Hc Hr) as [Ej Ec].
  rewrite <- Ej, <- Ec in S4.
  rewrite (reconcile_returns_when L M' R ids keys H' S4 S5).
  rewrite (reconcile_returns L M R out H Hout).
  f_equal. apply reconciled_same_catalog; assumption.
Qed.

(** Claim C7: when several catalog rows share an external id, then in every
    table the reconciler returns each link row with that id has an output
    row, and every output row with that id carries, in each catalog-derived
    column, the value of the first of them; removing all later rows with
    that id leaves the reconciled table as it is, and so does removing the
    rows whose id is missing. *)
Theorem first_catalog_row_wins (L M R : DataFrame) (pre post : list row) (m : row) :
  reconciler_inputs L M R = true ->
  rows M = pre ++ m :: post ->
  isna (get "id" m) = false ->
  (forall p, In p pre -> cell_eqb (get "id" p) (get "id" m) = false) ->
  forall out,
    returned (reconcile L M R) = Ok out ->
    (forall l, In l (rows L) ->
       cell_eqb (get "id" m) (get "tmdbId" l) = true ->
       exists o, In o (rows out)
                 /\ get "movieId" o = get "movieId" l
                 /\ get "tmdbId" o = get "tmdbId" l
                 /\ forall c, In c (columns M) -> c <> "id" ->
                      lookup (rename_label published c) o = lookup c m)
    /\ (forall o, In o (rows out) ->
          cell_eqb (get "id" m) (get "tmdbId" o) = true ->
          forall c, In c (columns M) -> c <> "id" ->
            lookup (rename_label published c) o = lookup c m)
    /\ returned
         (reconcile L
            {| columns := columns M;
               rows := pre ++ m :: filter (fun r => negb (cell_eqb (get "id" r) (get "id" m)))
                                     post |} R)
       = Ok out
    /\ returned
         (reconcile L
            {| columns := columns M;
               rows := filter (fun r => negb (isna (get "id" r))) (rows M) |} R)
       = Ok out.
Proof.
  intros Hin Hrows Hna Hpre out Hout. apply reconciler_inputs_ok in Hin.
  pose proof (catalog_fresh _ _ _ Hin) as Hfresh.
  pose proof (catalog_wf _ _ _ Hin) as Hwf.
  assert (Hall : forall o, In o (rows (reconciled L M R)) ->
            cell_eqb (get "id" m) (get "tmdbId" o) = true ->
            forall c, In c (columns M) -> c <> "id" ->
              lookup (rename_label published c) o = lookup c m).
  { intros o Ho Hk c Hc Hne. apply in_reconciled in Ho.
    destruct Ho as [l [t1 [t2 [Hl [Ht1 [Ht2 ->]]]]]].
    change (get "tmdbId" (output_row l t1 t2)) with (get "tmdbId" l) in Hk.
    pose proof (catalog_tails_keys M _ t1 Hwf Ht1) as Hk1.
    rewrite (catalog_tails_first M pre post m _ Hwf Hfresh Hrows Hna Hpre Hk) in Ht1.
    destruct Ht1 as [<-|[]].
    rewrite (output_row_catalog M); [| apply catalog_columns_fresh; exact Hfresh | exact Hk1 |
                                      apply catalog_columns_in; assumption].
    apply (catalog_tail_field M); try assumption.
    rewrite Hrows. apply in_or_app. right. left. reflexivity. }
  split; [|split; [|split]].
  - rewrite (reconcile_returns L M R out Hin Hout).
    intros l Hl Hk.
    destruct (catalog_tails M (get "tmdbId" l)) as [|t1 ts] eqn:E1;
      [exfalso; revert E1; apply join_tails_nonempty|].
    destruct (rating_tails R (strip_cell (get "imdb_id" t1))) as [|t2 ts'] eqn:E2;
      [exfalso; revert E2; apply join_tails_nonempty|].
    assert (Ho : In (output_row l t1 t2) (rows (reconciled L M R))).
    { apply in_reconciled. exists l, t1, t2. rewrite E1, E2. simpl. tauto. }
    exists (output_row l t1 t2). split; [exact Ho|]. split; [reflexivity|].
    split; [reflexivity|]. apply Hall; [exact Ho | exact Hk].
  - rewrite (reconcile_returns L M R out Hin Hout). exact Hall.
  - apply (reconcile_same_catalog L M _ R out Hin); [| reflexivity | | exact Hout].
    + apply inputs_ok_catalog_subset; [exact Hin|].
      intros r Hr. rewrite Hrows. apply in_app_or in Hr. apply in_or_app.
      destruct Hr as [Hr|[Hr|Hr]]; [left; exact Hr | right; left; exact Hr|].
      right. right. apply filter_In in Hr. tauto.
    + apply catalog_rows_without_later; assumption.
  - apply (reconcile_same_catalog L M _ R out Hin); [| reflexivity | | exact Hout].
    + apply inputs_ok_catalog_subset; [exact Hin|].
      intros r Hr. apply filter_In in Hr. tauto.
    + apply catalog_rows_without_null; assumption.
Qed.

(** ** Matching a joined row against the ratings *)


Lemma join_tails_cases (on : string) (rcols : list string) (right_rows : list row)
    (k : cell) (t : row) :
  In t (join_tails on rcols right_rows k) ->
  t = map (fun c => (c, NA)) rcols
  \/ exists r, In r right_rows /\ cell_eqb (get on r) k = true /\ t = without_key on r.
Proof.
  unfold join_tails.
  destruct (filter (fun r => cell_eqb (get on r) k) right_rows) as [|x xs] eqn:E.
  - intros [<-|[]]. left. reflexivity.
  - intro Hin. right. apply in_map_iff in Hin. destruct Hin as [r [<- Hr]].
    rewrite <- E in Hr. apply filter_In in Hr. exists r. tauto.
Qed.

Lemma rating_tail_field (r : row) (v : cell) (c : string) :
  c <> "tconst" ->
  lookup c (without_key "tconst" (set_cell "tconst" v r)) = lookup c r.
Proof.
  intro Hne. unfold without_key.
  rewrite (lookup_filter (fun k => negb (String.eqb k "tconst"))).
  rewrite lookup_set_cell.
  replace (String.eqb c "tconst") with false by (symmetry; apply String.eqb_neq; exact Hne).
  reflexivity.
Qed.


(** ** The link table's own [imdbId] *)

Lemma flat_map_set_rows {B : Type} (g : row -> list B) (c : string) (rs : list row)
    (s : Series) :
  (forall v r, g (set_cell c v r) = g r) ->
  flat_map g (set_rows c rs s) = flat_map g rs.
Proof.
  intro Hg. revert s. induction rs as [|r rs IH]; intro s; simpl; [reflexivity|].
  rewrite Hg, IH. reflexivity.
Qed.

Lemma in_set_rows (c : string) (rs : list row) (s : Series) (r' : row) :
  In r' (set_rows c rs s) -> exists r v, In r rs /\ r' = set_cell c v r.
Proof.
  revert s. induction rs as [|r rs IH]; intro s; simpl; [tauto|].
  intros [<-|H].
  - exists r, (hd NA s). split; [left|]; reflexivity.
  - destruct (IH _ H) as [r0 [v [Hr0 ->]]]. exists r0, v. split; [right; exact Hr0 | reflexivity].
Qed.

Lemma inputs_ok_links_imdbId (L M R : DataFrame) (s : Series) :
  inputs_ok L M R -> inputs_ok (setitem L "imdbId" s) M R.
Proof.
  intros [HL HLwf HR HRwf Hid Himdb Hnd HMwf Hfresh].
  assert (Hc : columns (setitem L "imdbId" s) = link_columns).
  { unfold setitem, has_column. cbn [columns]. rewrite HL. reflexivity. }
  constructor; try assumption.
  unfold wf in *. rewrite Forall_forall in *. rewrite Hc.
  intros r' Hr'. cbn [rows setitem] in Hr'. apply in_set_rows in Hr'.
  destruct Hr' as [r [v [Hr ->]]]. specialize (HLwf r Hr). rewrite HL in HLwf.
  rewrite keys_set_cell_present; [exact HLwf|]. rewrite HLwf. simpl. tauto.
Qed.

Lemma reconciled_ignores_link_imdbId (L M R : DataFrame) (s : Series) :
  columns L = link_columns ->
  reconciled (setitem L "imdbId" s) M R = reconciled L M R.
Proof.
  intro HL. unfold reconciled. f_equal.
  - unfold setitem, has_column. cbn [columns]. rewrite HL. reflexivity.
  - cbn [rows setitem]. apply flat_map_set_rows. intros v r.
    unfold output_row. rewrite !get_set_cell_other by discriminate. reflexivity.
Qed.

Lemma joined_ids_ignores_link_imdbId (L M : DataFrame) (s : Series) :
  joined_ids (setitem L "imdbId" s) M = joined_ids L M.
Proof.
  unfold joined_ids. cbn [rows setitem]. rewrite !map_flat_map.
  apply flat_map_set_rows. intros v r. unfold plain_join.
  rewrite get_set_cell_other by discriminate.
  destruct (filter (fun r0 => cell_eqb (get "tmdbId" r0) (get "tmdbId" r)) (catalog_rows M))
    as [|x xs].
  - cbn [map]. unfold get. rewrite !lookup_app, lookup_set_cell. reflexivity.
  - rewrite !map_map. apply map_ext. intro a. unfold get.
    rewrite !lookup_app, lookup_set_cell. reflexivity.
Qed.

Lemma find_split {A : Type} (f : A -> bool) (l : list A) (x : A) :
  find f l = Some x ->
  exists pre post, l = pre ++ x :: post /\ forall p, In p pre -> f p = false.
Proof.
  induction l as [|a l IH]; simpl; [discriminate|].
  destruct (f a) eqn:E.
  - intro H. injection H as <-. exists [], l. split; [reflexivity | intros p []].
  - intro H. destruct (IH H) as [pre [post [-> Hpre]]].
    exists (a :: pre), post. split; [reflexivity|].
    intros p [<-|Hp]; [exact E | apply Hpre; exact Hp].
Qed.

(** The catalog's part of the rows joined to the key [k]: the fields of
    the first catalog row with that id, or missing values. *)
Lemma catalog_tails_first_match (M : DataFrame) (k : cell) :
  wf M -> (forall c, In c reconciler_labels -> ~ In c (columns M)) ->
  catalog_tails M k
  = match first_match M k with
    | Some m => [without_key "tmdbId" (rename_keys (rename_label catalog_key) m)]
    | None => [map (fun c => (c, NA)) (catalog_columns M)]
    end.
Proof.
  intros Hwf Hfresh. unfold first_match.
  destruct (find _ (rows M)) as [m|] eqn:E.
  - pose proof (find_some _ _ E) as [Hm Hf]. apply andb_true_iff in Hf.
    destruct Hf as [Hna Hk]. apply negb_true_iff in Hna.
    destruct (find_split _ _ _ E) as [pre [post [Hrows Hpre]]].
    apply (catalog_tails_first M pre post m k Hwf Hfresh Hrows Hna); [|exact Hk].
    intros p Hp. specialize (Hpre p Hp). apply andb_false_iff in Hpre.
    destruct (cell_eqb (get "id" p) (get "id" m)) eqn:Epm; [exfalso | reflexivity].
    destruct Hpre as [Hp1|Hp1].
    + apply negb_false_iff in Hp1. apply cell_eqb_not_na in Epm. congruence.
    + rewrite (cell_eqb_trans _ _ _ Epm Hk) in Hp1. discriminate.
  - apply catalog_tails_unmatched. unfold catalog_match.
    destruct (existsb _ (catalog_rows M)) eqn:Ex; [exfalso | reflexivity].
    apply existsb_exists in Ex. destruct Ex as [m' [Hm' Hk]].
    apply catalog_rows_from in Hm'. destruct Hm' as [m [Hm [-> Hna]]].
    rewrite (catalog_key_of m) in Hk, Hna by (apply (catalog_row_keys M); assumption).
    pose proof (find_none _ _ E m Hm) as Hf. cbv beta in Hf.
    rewrite Hna, Hk in Hf. discriminate.
Qed.

(** Claim C10: in every table the reconciler returns, the published
    [imdbId] of an output row whose link matches no catalog row is missing,
    whatever [imdbId] the link row carried; the table does not depend on
    the link table's own [imdbId] column at all; and the published [imdbId]
    of every output row is the [imdb_id] of the catalog row its link is
    joined to, the first catalog row with the link's id, and missing when
    there is none. *)
Theorem published_imdbId_comes_from_catalog (L M R : DataFrame) :
  reconciler_inputs L M R = true ->
  forall out,
    returned (reconcile L M R) = Ok out ->
    (forall l, In l (rows L) -> catalog_match M (get "tmdbId" l) = false ->
       exists o, In o (rows out)
                 /\ get "movieId" o = get "movieId" l
                 /\ get "tmdbId" o = get "tmdbId" l
                 /\ lookup "imdbId" o = Some NA)
    /\ (forall o, In o (rows out) -> catalog_match M (get "tmdbId" o) = false ->
          lookup "imdbId" o = Some NA)
    /\ (forall s, returned (reconcile (setitem L "imdbId" s) M R) = Ok out)
    /\ (forall l, In l (rows L) ->
          exists o, In o (rows out)
                    /\ get "movieId" o = get "movieId" l
                    /\ get "tmdbId" o = get "tmdbId" l)
    /\ (forall o, In o (rows out) ->
          lookup "imdbId" o
          = match first_match M (get "tmdbId" o) with
            | Some m => lookup "imdb_id" m
            | None => Some NA
            end).
Proof.
  intros Hin out Hout. apply reconciler_inputs_ok in Hin.
  pose proof (catalog_fresh _ _ _ Hin) as Hfresh.
  pose proof (catalog_wf _ _ _ Hin) as Hwf.
  pose proof (catalog_columns_fresh M Hfresh) as Hcat.
  assert (Himdb : In "imdb_id" (catalog_columns M)).
  { apply catalog_columns_in; [exact Hfresh | apply (catalog_imdb_id _ _ _ Hin) | discriminate]. }
  assert (Hfield : forall l t1 t2, In t1 (catalog_tails M (get "tmdbId" l)) ->
            lookup "imdbId" (output_row l t1 t2) = lookup "imdb_id" t1).
  { intros l t1 t2 Ht1.
    change "imdbId" with (rename_label published "imdb_id").
    apply (output_row_catalog M); [exact Hcat | | exact Himdb].
    apply (catalog_tails_keys M _ t1 Hwf Ht1). }
  assert (Hfill : lookup "imdb_id" (map (fun c => (c, NA)) (catalog_columns M)) = Some NA).
  { rewrite lookup_fill. replace (mem "imdb_id" (catalog_columns M)) with true; [reflexivity|].
    symmetry. apply mem_In. exact Himdb. }
  assert (Hall : forall o, In o (rows (reconciled L M R)) ->
            catalog_match M (get "tmdbId" o) = false -> lookup "imdbId" o = Some NA).
  { intros o Ho Hun. apply in_reconciled in Ho.
    destruct Ho as [l [t1 [t2 [Hl [Ht1 [Ht2 ->]]]]]].
    change (get "tmdbId" (output_row l t1 t2)) with (get "tmdbId" l) in Hun.
    rewrite (Hfield l t1 t2 Ht1).
    rewrite (catalog_tails_unmatched M _ Hun) in Ht1. destruct Ht1 as [<-|[]].
    exact Hfill. }
  assert (Hrow : forall l, In l (rows L) ->
            exists o, In o (rows (reconciled L M R))
                      /\ get "movieId" o = get "movieId" l
                      /\ get "tmdbId" o = get "tmdbId" l).
  { intros l Hl.
    destruct (catalog_tails M (get "tmdbId" l)) as [|t1 ts] eqn:E1;
      [exfalso; revert E1; apply join_tails_nonempty|].
    destruct (rating_tails R (strip_cell (get "imdb_id" t1))) as [|t2 ts'] eqn:E2;
      [exfalso; revert E2; apply join_tails_nonempty|].
    exists (output_row l t1 t2). split; [|split; reflexivity].
    apply in_reconciled. exists l, t1, t2. rewrite E1, E2. simpl. tauto. }
  split; [|split; [|split; [|split]]].
  - rewrite (reconcile_returns L M R out Hin Hout).
    intros l Hl Hun. destruct (Hrow l Hl) as [o [Ho [H1 H2]]].
    exists o. split; [exact Ho|]. split; [exact H1|]. split; [exact H2|].
    apply Hall; [exact Ho | rewrite H2; exact Hun].
  - rewrite (reconcile_returns L M R out Hin Hout). exact Hall.
  - intro s.
    destruct (reconcile_returned_strips L M R out Hin Hout) as [ids [keys [S4 S5]]].
    rewrite <- (joined_ids_ignores_link_imdbId L M s) in S4.
    rewrite (reconcile_returns_when _ M R ids keys (inputs_ok_links_imdbId L M R s Hin) S4 S5).
    rewrite (reconcile_returns L M R out Hin Hout).
    f_equal. apply reconciled_ignores_link_imdbId. apply (links_columns _ _ _ Hin).
  - rewrite (reconcile_returns L M R out Hin Hout). exact Hrow.
  - rewrite (reconcile_returns L M R out Hin Hout).
    intros o Ho. apply in_reconciled in Ho.
    destruct Ho as [l [t1 [t2 [Hl [Ht1 [Ht2 ->]]]]]].
    rewrite (Hfield l t1 t2 Ht1).
    change (get "tmdbId" (output_row l t1 t2)) with (get "tmdbId" l).
    rewrite (catalog_tails_first_match M _ Hwf Hfresh) in Ht1.
    destruct (first_match M (get "tmdbId" l)) as [m|] eqn:E;
      destruct Ht1 as [<-|[]]; [|exact Hfill].
    unfold first_match in E. apply find_some in E. destruct E as [Hm _].
    apply (catalog_tail_field M m "imdb_id" Hwf Hfresh Hm (catalog_imdb_id _ _ _ Hin)).
    discriminate.
Qed.

(** ** [parse_genres] *)

Lemma dict_get_in (items : list (pyval * pyval)) (key : string) :
  truthy (dict_get items key PNone) = true ->
  exists v, In (PStr key, v) items /\ truthy v = true.
Proof.
  unfold dict_get.
  destruct (find (fun kv => match fst kv with PStr k => String.eqb k key | _ => false end) items)
    as [[k v]|] eqn:E; [|discriminate].
  apply find_some in E. destruct E as [Hin Hk]. simpl in Hk |- *.
  destruct k; try discriminate. apply String.eqb_eq in Hk. subst s.
  intro Hv. exists v. split; assumption.
Qed.

Lemma flat_map_nil {A B : Type} (f : A -> list B) (l : list A) :
  (forall a, In a l -> f a = []) -> flat_map f l = [].
Proof.
  induction l as [|a l IH]; simpl; intro H; [reflexivity|].
  rewrite (H a) by (left; reflexivity). apply IH. intros b Hb. apply H. right. exact Hb.
Qed.

Section ParserProperties.

Variable literal_eval : string -> option pyval.

Lemma parse_genres_returns (s : cell) : exists names, parse_genres literal_eval s = Ok names.
Proof.
  unfold parse_genres. destruct (as_str s) as [[|a text]|]; try (exists []; reflexivity).
  destruct (literal_eval (String a text)) as [v|]; simpl; [|exists []; reflexivity].
  destruct (iterate v) as [elements|e]; simpl; eexists; reflexivity.
Qed.

(** Claim C3: [parse_genres] returns for every input and never raises, and
    it returns the empty list when the input is no string, is the empty
    string, is a string [ast.literal_eval] rejects, or evaluates to a value
    that cannot be iterated or holds no dictionary with a non-empty "name"
    entry. *)
Theorem parse_genres_never_raises (s : cell) :
  (exists names, parse_genres literal_eval s = Ok names)
  /\ (as_str s = None -> parse_genres literal_eval s = Ok [])
  /\ (as_str s = Some "" -> parse_genres literal_eval s = Ok [])
  /\ (forall text, as_str s = Some text -> literal_eval text = None ->
        parse_genres literal_eval s = Ok [])
  /\ (forall text v, as_str s = Some text -> literal_eval text = Some v ->
        (forall elements, iterate v = Ok elements ->
           forall d, In d elements -> ~ has_name d) ->
        parse_genres literal_eval s = Ok []).
Proof.
  split; [apply parse_genres_returns|].
  unfold parse_genres. destruct (as_str s) as [[|a text]|].
  - split; [reflexivity|]. split; [reflexivity|]. split; reflexivity.
  - split; [discriminate | split; [discriminate | split]].
    + intros t E Hlit. injection E as <-. rewrite Hlit. reflexivity.
    + intros t v E Hlit Hnone. injection E as <-. rewrite Hlit. simpl.
      destruct (iterate v) as [elements|e]; simpl; [|reflexivity].
      rewrite flat_map_nil; [reflexivity|].
      intros d Hd. destruct d; try reflexivity.
      destruct (truthy (dict_get items "name" PNone)) eqn:T; [|reflexivity].
      exfalso. apply (Hnone elements eq_refl _ Hd).
      apply dict_get_in in T. destruct T as [w [Hw Tw]].
      exists items, w. auto.
  - split; [reflexivity|]. split; [discriminate|]. split; discriminate.
Qed.

End ParserProperties.

(** ** Running [filter_transform_metadata] *)

Lemma getitem_ok (d : DataFrame) (c : string) :
  has_column c d = true -> getitem d c = Ok (map (get c) (rows d)).
Proof. unfold getitem. intros ->. reflexivity. Qed.

Lemma map_result_total {A B : Type} (f : A -> result B) (g : A -> B) (l : list A) :
  (forall a, f a = Ok (g a)) -> map_result f l = Ok (map g l).
Proof.
  intro H. induction l as [|a l IH]; simpl; [reflexivity|].
  rewrite H, IH. reflexivity.
Qed.

Lemma map_result_length {A B : Type} (f : A -> result B) (l : list A) (bs : list B) :
  map_result f l = Ok bs -> List.length bs = List.length l.
Proof.
  revert bs. induction l as [|a l IH]; simpl; intros bs H.
  - injection H as <-. reflexivity.
  - destruct (f a) as [b|e]; simpl in H; [|discriminate].
    destruct (map_result f l) as [bs'|e]; simpl in H; [|discriminate].
    injection H as <-. simpl. rewrite (IH bs' eq_refl). reflexivity.
Qed.

Lemma map_result_Forall2 {A B : Type} (f : A -> result B) (l : list A) (bs : list B) :
  map_result f l = Ok bs -> Forall2 (fun a b => f a = Ok b) l bs.
Proof.
  revert bs. induction l as [|a l IH]; simpl; intros bs H.
  - injection H as <-. constructor.
  - destruct (f a) as [b|e] eqn:E; simpl in H; [|discriminate].
    destruct (map_result f l) as [bs'|e]; simpl in H; [|discriminate].
    injection H as <-. constructor; [exact E | apply IH; reflexivity].
Qed.

Lemma map_result_raises {A B : Type} (f : A -> result B) (l : list A) (e : exn) :
  map_result f l = Raise e -> exists a, In a l /\ f a = Raise e.
Proof.
  induction l as [|a l IH]; simpl; [discriminate|].
  destruct (f a) as [b|e'] eqn:E; simpl.
  - destruct (map_result f l) as [bs|e'']; simpl; [discriminate|].
    intro H. injection H as <-. destruct (IH eq_refl) as [x [Hx Ex]].
    exists x. split; [right; exact Hx | exact Ex].
  - intro H. injection H as <-. exists a. split; [left; reflexivity | exact E].
Qed.

Ltac cast_cases c :=
  destruct c as [|?z|[?q|?n]|?s|?t|?v]; cbn [astype_Int64_cell];
  try destruct (in_int64 _) eqn:?;
  try (destruct (as_integer _) eqn:?; try destruct (in_int64 _) eqn:?).

(** The errors of the cast of one entry; none of them is a KeyError. *)
Lemma astype_Int64_cell_raises (c : cell) (e : exn) :
  astype_Int64_cell c = Raise e -> e = TypeError \/ e = Unmodelled.
Proof. cast_cases c; intro H; try discriminate H; injection H as <-; tauto. Qed.

Lemma astype_Int64_cell_value (c v : cell) :
  astype_Int64_cell c = Ok v -> int_or_na v.
Proof.
  cast_cases c; intro H; try discriminate H; injection H as <-; simpl; try exact I;
    assumption.
Qed.

Lemma astype_Int64_cell_same (c : cell) : int_or_na c -> astype_Int64_cell c = Ok c.
Proof. destruct c; simpl; try contradiction; [reflexivity|]. intros ->. reflexivity. Qed.

(** An entry the cast accepts is a finite number or missing. *)
Lemma astype_Int64_cell_finite (c v : cell) :
  astype_Int64_cell c = Ok v -> finite_or_na c = true.
Proof.
  destruct c as [|z|[q|n]|s|t|v']; simpl; intro H; try reflexivity; discriminate H.
Qed.

(** On a finite number the cast raises nothing but TypeError. *)
Lemma finite_cast_raises (c : cell) (e : exn) :
  finite_or_na c = true -> astype_Int64_cell c = Raise e -> e = TypeError.
Proof.
  cast_cases c; intros Hf H; try discriminate Hf; try discriminate H;
    injection H as <-; reflexivity.
Qed.

Lemma finite_is_number (c : cell) : finite_or_na c = true -> isna c || is_number c = true.
Proof. destruct c as [| |[|]| | |]; simpl; intro H; try discriminate H; reflexivity. Qed.

Lemma finite_not_infinite (n : bool) (c : cell) :
  finite_or_na c = true -> is_infinite n c = false.
Proof. destruct c as [| |[|]| | |]; simpl; intro H; try discriminate H; reflexivity. Qed.

(** On a column of finite numbers the cast is the cast of its entries. *)
Lemma astype_Int64_finite (s : Series) :
  forallb finite_or_na s = true -> astype_Int64 s = map_result astype_Int64_cell s.
Proof.
  intro H. rewrite forallb_forall in H. unfold astype_Int64.
  replace (forallb (fun c => isna c || is_number c) s) with true.
  - replace (existsb (is_infinite false) s) with false.
    + replace (existsb (is_infinite true) s) with false; [reflexivity|].
      symmetry. apply not_true_iff_false. intro E. apply existsb_exists in E.
      destruct E as [c [Hc E]]. rewrite (finite_not_infinite true c (H c Hc)) in E.
      discriminate.
    + symmetry. apply not_true_iff_false. intro E. apply existsb_exists in E.
      destruct E as [c [Hc E]]. rewrite (finite_not_infinite false c (H c Hc)) in E.
      discriminate.
  - symmetry. apply forallb_forall. intros c Hc. apply finite_is_number, H. exact Hc.
Qed.

(** When the cast of the column returns, it is the cast of its entries. *)
Lemma astype_Int64_cells (s v : Series) :
  astype_Int64 s = Ok v -> map_result astype_Int64_cell s = Ok v.
Proof.
  unfold astype_Int64. destruct (forallb (fun c => isna c || is_number c) s); [|discriminate].
  destruct (existsb (is_infinite false) s
            || existsb (is_infinite true) s
               && forallb (fun c => isna c || is_infinite true c) s); [discriminate|].
  tauto.
Qed.

(** When it raises, some entry is one the cast of an entry refuses. *)
Lemma astype_Int64_raises (s : Series) (e : exn) :
  astype_Int64 s = Raise e ->
  (e = TypeError \/ e = OverflowError \/ e = Unmodelled)
  /\ exists c e', In c s /\ astype_Int64_cell c = Raise e'.
Proof.
  intro H.
  assert (Hcell : exists c e', In c s /\ astype_Int64_cell c = Raise e').
  { destruct (forallb finite_or_na s) eqn:Ef.
    - rewrite (astype_Int64_finite s Ef) in H.
      destruct (map_result_raises _ _ _ H) as [c [Hc Ec]]. exists c, e. tauto.
    - apply not_true_iff_false in Ef.
      destruct (existsb (fun c => negb (finite_or_na c)) s) eqn:Ex.
      + apply existsb_exists in Ex. destruct Ex as [c [Hc Ec]]. apply negb_true_iff in Ec.
        destruct (astype_Int64_cell c) as [v|e'] eqn:E.
        * rewrite (astype_Int64_cell_finite c v E) in Ec. discriminate.
        * exists c, e'. tauto.
      + exfalso. apply Ef. apply forallb_forall. intros c Hc.
        destruct (finite_or_na c) eqn:Ec; [reflexivity|].
        assert (existsb (fun c => negb (finite_or_na c)) s = true).
        { apply existsb_exists. exists c. rewrite Ec. tauto. }
        congruence. }
  split; [|exact Hcell].
  revert H. unfold astype_Int64.
  destruct (forallb (fun c => isna c || is_number c) s);
    [|intro H; injection H as <-; tauto].
  destruct (existsb (is_infinite false) s
            || existsb (is_infinite true) s
               && forallb (fun c => isna c || is_infinite true c) s);
    [intro H; injection H as <-; tauto|].
  intro H. destruct (map_result_raises _ _ _ H) as [c [_ Ec]].
  apply astype_Int64_cell_raises in Ec. tauto.
Qed.

(** On a column of finite numbers it raises nothing but TypeError. *)
Lemma astype_Int64_finite_raises (s : Series) (e : exn) :
  forallb finite_or_na s = true -> astype_Int64 s = Raise e -> e = TypeError.
Proof.
  intros Hf H. rewrite (astype_Int64_finite s Hf) in H.
  destruct (map_result_raises _ _ _ H) as [c [Hc Ec]].
  rewrite forallb_forall in Hf. apply (finite_cast_raises c e (Hf c Hc) Ec).
Qed.

(** A column of entries the cast accepts is accepted. *)
Lemma astype_Int64_accepts (s : Series) :
  (forall c, In c s -> exists v, astype_Int64_cell c = Ok v) ->
  astype_Int64 s = map_result astype_Int64_cell s.
Proof.
  intro H. apply astype_Int64_finite. apply forallb_forall. intros c Hc.
  destruct (H c Hc) as [v Ev]. apply (astype_Int64_cell_finite c v Ev).
Qed.

Lemma astype_Int64_values (s ids : Series) :
  astype_Int64 s = Ok ids -> Forall int_or_na ids.
Proof.
  intro H. apply astype_Int64_cells, map_result_Forall2 in H.
  induction H as [|c b s ids Hc _ IH]; constructor; [|exact IH].
  exact (astype_Int64_cell_value c b Hc).
Qed.

Lemma astype_Int64_same (s : Series) : Forall int_or_na s -> astype_Int64 s = Ok s.
Proof.
  intro H. rewrite astype_Int64_accepts.
  - induction H as [|c s Hc _ IH]; simpl; [reflexivity|].
    rewrite IH, (astype_Int64_cell_same c Hc). reflexivity.
  - rewrite Forall_forall in H. intros c Hc. exists c.
    apply astype_Int64_cell_same, H. exact Hc.
Qed.

Lemma to_numeric_integers (f : string -> option number) (s : Series) :
  Forall integer_or_na s -> to_numeric f s = s.
Proof.
  unfold to_numeric. induction 1 as [|c s Hc _ IH]; simpl; [reflexivity|].
  rewrite IH. destruct c; try contradiction; reflexivity.
Qed.

Lemma astype_Int64_fixed (f : string -> option number) (s : Series) :
  Forall int_or_na s -> astype_Int64 (to_numeric f s) = Ok s.
Proof.
  intro H. rewrite to_numeric_integers; [apply astype_Int64_same; exact H|].
  apply Forall_forall. intros c Hc. rewrite Forall_forall in H. specialize (H c Hc).
  destruct c; try contradiction; exact I.
Qed.

(** On integers the cast changes nothing when it returns. *)
Lemma astype_Int64_integers (f : string -> option number) (s v : Series) :
  Forall integer_or_na s -> astype_Int64 (to_numeric f s) = Ok v -> v = s.
Proof.
  intros H Hv. rewrite (to_numeric_integers f s H) in Hv.
  apply astype_Int64_cells in Hv. revert v Hv.
  induction H as [|c s Hc _ IH]; simpl; intros v Hv; [injection Hv as <-; reflexivity|].
  destruct (astype_Int64_cell c) as [b|e] eqn:E; simpl in Hv; [|discriminate].
  destruct (map_result astype_Int64_cell s) as [bs|e]; simpl in Hv; [|discriminate].
  injection Hv as <-. rewrite (IH bs eq_refl). f_equal.
  destruct c; try contradiction; simpl in E.
  - injection E as <-. reflexivity.
  - destruct (in_int64 z); [injection E as <-; reflexivity | discriminate].
Qed.


Lemma get_set_rows_same (c : string) (rs : list row) (s : Series) :
  List.length s = List.length rs -> map (get c) (set_rows c rs s) = s.
Proof.
  revert s. induction rs as [|r rs IH]; intros [|v s]; simpl; intro H;
    try reflexivity; try discriminate.
  rewrite IH by (injection H as H; exact H).
  unfold get. rewrite lookup_set_cell, String.eqb_refl. reflexivity.
Qed.

Lemma get_set_rows_Forall (P : cell -> Prop) (c : string) (rs : list row) (s : Series) :
  P NA -> Forall P s -> Forall P (map (get c) (set_rows c rs s)).
Proof.
  intros Hna. revert s. induction rs as [|r rs IH]; intros s Hs; simpl; [constructor|].
  constructor.
  - unfold get. rewrite lookup_set_cell, String.eqb_refl.
    destruct Hs; simpl; assumption.
  - apply IH. destruct Hs; simpl; [constructor | assumption].
Qed.

Lemma dt_year_of_values (s : Series) : Forall integer_or_na (dt_year_of s).
Proof.
  unfold dt_year_of. induction s as [|c s IH]; simpl; constructor; [|exact IH].
  destruct c; exact I.
Qed.

Lemma mask_rows_filter (f : row -> bool) (rs : list row) :
  mask_rows rs (map f rs) = filter f rs.
Proof.
  induction rs as [|r rs IH]; simpl; [reflexivity|].
  rewrite IH. reflexivity.
Qed.

Lemma insert_row_perm (key : row -> cell) (r : row) (l : list row) :
  Permutation (insert_row key r l) (r :: l).
Proof.
  induction l as [|s l IH]; simpl; [reflexivity|].
  destruct (sort_leb (key r) (key s)); [reflexivity|].
  rewrite IH. apply perm_swap.
Qed.

Lemma sort_rows_perm (key : row -> cell) (l : list row) :
  Permutation (fold_right (insert_row key) [] l) l.
Proof.
  induction l as [|r l IH]; simpl; [reflexivity|].
  rewrite insert_row_perm. constructor. exact IH.
Qed.

Lemma drop_ok (d : DataFrame) (c : string) :
  has_column c d = true ->
  drop [c] d
  = Ok {| columns := filter (fun k => negb (mem k [c])) (columns d);
          rows := map (filter (fun p => negb (mem (fst p) [c]))) (rows d) |}.
Proof. unfold drop, missing_labels. simpl. intros ->. reflexivity. Qed.

Lemma sort_values_ok (d : DataFrame) (c : string) :
  has_column c d = true ->
  sort_values c d
  = Ok {| columns := columns d; rows := fold_right (insert_row (get c)) [] (rows d) |}.
Proof. unfold sort_values. intros ->. reflexivity. Qed.

Lemma get_drop_other (c c' : string) (rs : list row) :
  c' <> c ->
  map (get c') (map (filter (fun p => negb (mem (fst p) [c]))) rs) = map (get c') rs.
Proof.
  intro Hne. rewrite map_map. apply map_ext. intro r. unfold get.
  rewrite (lookup_filter (fun k => negb (mem k [c]))). simpl.
  replace (String.eqb c' c) with false by (symmetry; apply String.eqb_neq; exact Hne).
  reflexivity.
Qed.


Lemma missing_labels_In (labels : list string) (df : DataFrame) (c : string) :
  In c (missing_labels labels df) <-> In c labels /\ ~ In c (columns df).
Proof.
  unfold missing_labels, has_column. rewrite filter_In, negb_true_iff, mem_false. tauto.
Qed.

Lemma insert_label_In (c d : string) (l : list string) :
  In c (insert_label d l) <-> c = d \/ In c l.
Proof.
  induction l as [|e l IH]; simpl; [intuition congruence|].
  destruct (String.leb d e); simpl; [intuition congruence|].
  rewrite IH. intuition congruence.
Qed.

Lemma sorted_In (c : string) (l : list string) : In c (sorted l) <-> In c l.
Proof.
  unfold sorted. induction l as [|d l IH]; simpl; [tauto|].
  rewrite insert_label_In, IH. intuition congruence.
Qed.

Lemma in_target_In (movie_ids : list Z) (c : cell) :
  in_target movie_ids c = true -> exists z, c = Int z /\ In z movie_ids.
Proof.
  destruct c; simpl; try discriminate. intro H. apply existsb_exists in H.
  destruct H as [y [Hy E]]. apply Z.eqb_eq in E. subst y. exists z. split; [reflexivity | exact Hy].
Qed.

Section NormalizerProperties.

Variable literal_eval : string -> option pyval.
Variable str_to_number : string -> option number.
Variable to_datetime : Series -> Series.

Local Abbreviation genre_names := (genre_names literal_eval).
Local Abbreviation normalize := (normalize literal_eval str_to_number to_datetime).

Lemma parse_genres_total (s : cell) : parse_genres literal_eval s = Ok (genre_names s).
Proof.
  unfold genre_names.
  destruct (parse_genres_returns literal_eval s) as [names ->]. reflexivity.
Qed.

Lemma normalize_missing (df : DataFrame) (movie_ids : list Z) :
  missing_labels required df <> [] ->
  normalize df movie_ids = (Raise (KeyError (sorted (missing_labels required df))), [df]).
Proof.
  intro H. unfold normalize.
  cbv beta zeta delta [filter_transform_metadata bind deref]. cbn [nth_error].
  destruct (missing_labels required df); [contradiction | reflexivity].
Qed.

End NormalizerProperties.

(** ** [one_hot_encode_genres] *)

Lemma insert_label_perm (c : string) (l : list string) :
  Permutation (insert_label c l) (c :: l).
Proof.
  induction l as [|d l IH]; simpl; [reflexivity|].
  destruct (String.leb c d); [reflexivity|]. rewrite IH. apply perm_swap.
Qed.

Lemma sorted_perm (l : list string) : Permutation (sorted l) l.
Proof.
  unfold sorted. induction l as [|c l IH]; simpl; [reflexivity|].
  rewrite insert_label_perm. constructor. exact IH.
Qed.

Lemma insert_label_sorted (c : string) (l : list string) :
  Sorted label_order l -> Sorted label_order (insert_label c l).
Proof.
  induction 1 as [|d l Hl IH Hd]; simpl; [repeat constructor|].
  destruct (String.leb c d) eqn:E.
  - constructor; [constructor; assumption | constructor; exact E].
  - constructor; [exact IH|].
    assert (Hdc : label_order d c).
    { destruct (String.leb_total c d) as [H|H]; [congruence | exact H]. }
    destruct l as [|e l]; simpl; [constructor; exact Hdc|].
    destruct (String.leb c e); constructor; [exact Hdc|].
    inversion Hd; assumption.
Qed.

Lemma sorted_sorted (l : list string) : Sorted label_order (sorted l).
Proof.
  unfold sorted. induction l as [|c l IH]; simpl; [constructor|].
  apply insert_label_sorted. exact IH.
Qed.

Lemma distinct_In (c : string) (l : list string) : In c (distinct l) <-> In c l.
Proof.
  induction l as [|d l IH]; simpl; [tauto|].
  destruct (mem d l) eqn:E; simpl; rewrite IH; [|tauto].
  apply mem_In in E. split; [tauto|]. intros [<-|H]; assumption.
Qed.

Lemma distinct_NoDup (l : list string) : NoDup (distinct l).
Proof.
  induction l as [|d l IH]; simpl; [constructor|].
  destruct (mem d l) eqn:E; [exact IH|].
  constructor; [|exact IH]. rewrite distinct_In. apply mem_false. exact E.
Qed.

Lemma classes_In (y : list (list string)) (g : string) :
  In g (classes_ y) <-> exists labels, In labels y /\ In g labels.
Proof.
  unfold classes_. rewrite sorted_In, distinct_In, in_concat. split.
  - intros [labels [H1 H2]]. exists labels. tauto.
  - intros [labels [H1 H2]]. exists labels. tauto.
Qed.

Lemma classes_NoDup (y : list (list string)) : NoDup (classes_ y).
Proof.
  unfold classes_. eapply Permutation_NoDup; [symmetry; apply sorted_perm|].
  apply distinct_NoDup.
Qed.

Lemma combine_map {A B : Type} (f : A -> B) (l : list A) :
  combine l (map f l) = map (fun a => (a, f a)) l.
Proof. induction l as [|a l IH]; simpl; [reflexivity|]. rewrite IH. reflexivity. Qed.

Lemma nth_error_zip_rows (a b : list row) (i : nat) (r s : row) :
  nth_error a i = Some r -> nth_error b i = Some s ->
  nth_error (zip_rows a b) i = Some (r ++ s).
Proof.
  revert b i. induction a as [|x a IH]; intros [|y b] [|i]; simpl; try discriminate.
  - intros H1 H2. injection H1 as <-. injection H2 as <-. reflexivity.
  - apply IH.
Qed.

Lemma zip_rows_length (a b : list row) :
  List.length a = List.length b -> List.length (zip_rows a b) = List.length a.
Proof.
  revert b. induction a as [|x a IH]; intros [|y b]; simpl; intro H;
    try reflexivity; try discriminate.
  rewrite IH; [reflexivity | injection H as H; exact H].
Qed.

Lemma map_result_nth {A B : Type} (f : A -> result B) (l : list A) (bs : list B)
    (i : nat) (a : A) :
  map_result f l = Ok bs -> nth_error l i = Some a ->
  exists b, nth_error bs i = Some b /\ f a = Ok b.
Proof.
  revert bs i. induction l as [|x l IH]; simpl; intros bs i H Hi.
  - destruct i; discriminate.
  - destruct (f x) as [b|e] eqn:E; simpl in H; [|discriminate].
    destruct (map_result f l) as [bs'|e]; simpl in H; [|discriminate].
    injection H as <-. destruct i as [|i]; simpl in Hi |- *.
    + injection Hi as <-. exists b. split; [reflexivity | exact E].
    + apply (IH bs' i eq_refl Hi).
Qed.

Lemma expand_run (df : DataFrame) (y : list (list string)) :
  has_column "genre_lst" df = true ->
  map_result labels_of (map (get "genre_lst") (rows df)) = Ok y ->
  expand df
  = (Ok 4,
     [df;
      frame_of_matrix (fit_transform y) (classes_ y);
      frame_of_matrix (fit_transform y) (classes_ y);
      {| columns := filter (fun k => negb (mem k ["genre_lst"])) (columns df);
         rows := map (filter (fun p => negb (mem (fst p) ["genre_lst"]))) (rows df) |};
      {| columns := filter (fun k => negb (mem k ["genre_lst"])) (columns df) ++ classes_ y;
         rows := zip_rows
                   (map (filter (fun p => negb (mem (fst p) ["genre_lst"]))) (rows df))
                   (map (indicators (classes_ y)) y) |}]).
Proof.
  intros Hc Hy. unfold expand.
  cbv beta zeta delta [one_hot_encode_genres method astype_int8 column pd_concat
                       bind deref lift new].
  cbn [nth_error List.length app]. rewrite (getitem_ok df) by exact Hc.
  cbn [nth_error List.length app]. rewrite Hy.
  cbn [nth_error List.length app]. rewrite (drop_ok df) by exact Hc.
  cbn [nth_error List.length app]. do 6 f_equal.
  unfold concat_columns, frame_of_matrix, fit_transform. cbn [columns rows]. f_equal.
  rewrite map_map. f_equal. apply map_ext. intro labels.
  rewrite map_map. apply combine_map.
Qed.

Lemma map_result_In {A B : Type} (f : A -> result B) (l : list A) (bs : list B) (b : B) :
  map_result f l = Ok bs -> (In b bs <-> exists a, In a l /\ f a = Ok b).
Proof.
  revert bs. induction l as [|x l IH]; simpl; intros bs H.
  - injection H as <-. simpl. split; [tauto | intros [a [[] _]]].
  - destruct (f x) as [b0|e] eqn:E; simpl in H; [|discriminate].
    destruct (map_result f l) as [bs'|e]; simpl in H; [|discriminate].
    injection H as <-. simpl. rewrite (IH bs' eq_refl). split.
    + intros [<-|[a [Ha Hf]]]; [exists x; tauto | exists a; tauto].
    + intros [a [[<-|Ha] Hf]]; [left; congruence | right; exists a; tauto].
Qed.

(** Claim C9: on a batch whose [genre_lst] entries are lists of strings the
    expander returns a table with the rows of its input in their order,
    none dropped; the indicator columns are the genre names that occur in
    the batch, each once, in ascending order; every indicator is 0 or 1, and
    a record whose [genre_lst] is empty has 0 in every indicator column. *)
Theorem empty_genre_list_gets_zero_indicators (df : DataFrame) (y : list (list string)) :
  has_column "genre_lst" df = true ->
  map_result labels_of (map (get "genre_lst") (rows df)) = Ok y ->
  exists out,
    returned (expand df) = Ok out
    /\ columns out
       = filter (fun k => negb (mem k ["genre_lst"])) (columns df) ++ classes_ y
    /\ (forall g, In g (classes_ y)
                  <-> exists r labels, In r (rows df)
                        /\ labels_of (get "genre_lst" r) = Ok labels /\ In g labels)
    /\ Sorted label_order (classes_ y)
    /\ NoDup (classes_ y)
    /\ List.length (rows out) = List.length (rows df)
    /\ (forall i r, nth_error (rows df) i = Some r ->
          exists labels,
            labels_of (get "genre_lst" r) = Ok labels
            /\ nth_error (rows out) i
               = Some (filter (fun p => negb (mem (fst p) ["genre_lst"])) r
                         ++ indicators (classes_ y) labels))
    /\ (forall i r, nth_error (rows df) i = Some r ->
          get "genre_lst" r = Obj (PList []) ->
          nth_error (rows out) i
          = Some (filter (fun p => negb (mem (fst p) ["genre_lst"])) r
                    ++ map (fun g => (g, Int 0)) (classes_ y))).
Proof.
  intros Hc Hy. eexists. split.
  { unfold returned. rewrite (expand_run df y Hc Hy). cbn [fst snd nth_error]. reflexivity. }
  cbn [columns rows].
  assert (Hrow : forall i r, nth_error (rows df) i = Some r ->
            exists labels,
              labels_of (get "genre_lst" r) = Ok labels
              /\ nth_error
                   (zip_rows
                      (map (filter (fun p => negb (mem (fst p) ["genre_lst"]))) (rows df))
                      (map (indicators (classes_ y)) y)) i
                 = Some (filter (fun p => negb (mem (fst p) ["genre_lst"])) r
                           ++ indicators (classes_ y) labels)).
  { intros i r Hr.
    destruct (map_result_nth labels_of _ y i (get "genre_lst" r) Hy) as [labels [Hl Hf]].
    { apply map_nth_error. exact Hr. }
    exists labels. split; [exact Hf|].
    apply nth_error_zip_rows; apply map_nth_error; assumption. }
  split; [reflexivity|]. split; [|split; [apply sorted_sorted | split; [apply classes_NoDup|]]].
  - intro g. rewrite classes_In. split.
    + intros [labels [Hl Hg]]. apply (map_result_In _ _ _ labels Hy) in Hl.
      destruct Hl as [c [Hc' Hf]]. apply in_map_iff in Hc'. destruct Hc' as [r [<- Hr]].
      exists r, labels. tauto.
    + intros [r [labels [Hr [Hf Hg]]]]. exists labels. split; [|exact Hg].
      apply (map_result_In _ _ _ labels Hy). exists (get "genre_lst" r).
      split; [apply in_map; exact Hr | exact Hf].
  - split; [|split; [exact Hrow|]].
    + rewrite zip_rows_length; rewrite !length_map; [reflexivity|].
      rewrite (map_result_length _ _ _ Hy), length_map. reflexivity.
    + intros i r Hr Hempty. destruct (Hrow i r Hr) as [labels [Hf ->]].
      rewrite Hempty in Hf. simpl in Hf. injection Hf as <-. reflexivity.
Qed.

(** ** How many rows the reconciled table has *)

Lemma nunique_le (s : Series) : nunique s <= List.length s.
Proof.
  induction s as [|c s IH]; simpl; [lia|].
  destruct (existsb (cell_eqb c) s); lia.
Qed.

Lemma nunique_all_at_most_one (s : Series) (k : cell) :
  nunique s = List.length s ->
  List.length (filter (fun c => cell_eqb c k) s) <= 1.
Proof.
  induction s as [|c s IH]; simpl; [lia|].
  pose proof (nunique_le s) as Hle.
  destruct (existsb (cell_eqb c) s) eqn:E; [lia|].
  intro H. injection H as H. specialize (IH H).
  destruct (cell_eqb c k) eqn:Ec; [|exact IH]. simpl.
  rewrite filter_none; [simpl; lia|].
  destruct (existsb (fun c0 => cell_eqb c0 k) s) eqn:E'; [|reflexivity].
  apply existsb_exists in E'. destruct E' as [x [Hx Exk]].
  assert (existsb (cell_eqb c) s = true) as E''.
  { apply existsb_exists. exists x. split; [exact Hx|].
    apply (cell_eqb_trans c k x); [exact Ec | rewrite cell_eqb_sym; exact Exk]. }
  congruence.
Qed.

Lemma filter_key_length (on : string) (k : cell) (rs : list row) :
  List.length (filter (fun r => cell_eqb (get on r) k) rs)
  = List.length (filter (fun c => cell_eqb c k) (map (get on) rs)).
Proof.
  induction rs as [|r rs IH]; simpl; [reflexivity|].
  destruct (cell_eqb (get on r) k); simpl; rewrite IH; reflexivity.
Qed.

Lemma join_tails_one (on : string) (rcols : list string) (right_rows : list row) (k : cell) :
  List.length (filter (fun r => cell_eqb (get on r) k) right_rows) <= 1 ->
  List.length (join_tails on rcols right_rows k) = 1.
Proof.
  unfold join_tails.
  destruct (filter (fun r => cell_eqb (get on r) k) right_rows) as [|x [|x' xs]]; simpl;
    intro H; try reflexivity. lia.
Qed.

Lemma flat_map_length_one {A B : Type} (f : A -> list B) (l : list A) :
  (forall a, In a l -> List.length (f a) = 1) ->
  List.length (flat_map f l) = List.length l.
Proof.
  induction l as [|a l IH]; simpl; intro H; [reflexivity|].
  rewrite length_app, (H a) by (left; reflexivity).
  rewrite IH; [reflexivity|]. intros b Hb. apply H. right. exact Hb.
Qed.

(** With rating keys that are pairwise distinct once [str.strip] has
    trimmed them, every table the reconciler returns has one row for every
    row of the link table; duplicates in the catalog never add rows. *)
Theorem one_row_per_link_row (L M R : DataFrame) :
  reconciler_inputs L M R = true ->
  nunique (map (get "tconst") (rating_rows R)) = List.length (rows R) ->
  forall out,
    returned (reconcile L M R) = Ok out ->
    List.length (rows out) = List.length (rows L)
    /\ (nunique (map (get "movieId") (rows L)) = List.length (rows L) ->
        List.length (rows out) = nunique (map (get "movieId") (rows L))).
Proof.
  intros Hin Hkeys out Hout. apply reconciler_inputs_ok in Hin.
  rewrite (reconcile_returns L M R out Hin Hout). clear out Hout.
  assert (Hlen : List.length (rows (reconciled L M R)) = List.length (rows L)).
  { unfold reconciled. cbn [rows]. apply flat_map_length_one. intros l _.
    rewrite flat_map_length_one.
    - apply join_tails_one. apply first_seen_at_most_one.
    - intros t1 _. rewrite length_map. apply join_tails_one.
      rewrite filter_key_length. apply nunique_all_at_most_one.
      rewrite Hkeys, length_map. unfold rating_rows. rewrite set_rows_length. reflexivity. }
  split; [exact Hlen|]. intro H. rewrite H. exact Hlen.
Qed.

(** ** Which arguments a stage leaves as they were *)

(** On the pipeline's tables the reconciler leaves the link table and the
    catalog as they were, whether it returns or raises; the rating table it
    leaves with its keys trimmed when it returns, and as it was when [.str]
    refuses one of the two key columns (the error comes before the
    assignment). *)
Theorem reconciler_keeps_links_and_catalog (L M R : DataFrame) :
  reconciler_inputs L M R = true ->
  object_after (reconcile L M R) 0 = Some L
  /\ object_after (reconcile L M R) 1 = Some M
  /\ (forall out, returned (reconcile L M R) = Ok out ->
        object_after (reconcile L M R) 2
        = Some {| columns := columns R; rows := rating_rows R |})
  /\ (forall e, fst (reconcile L M R) = Raise e ->
        object_after (reconcile L M R) 2 = Some R).
Proof.
  intro Hin. apply reconciler_inputs_ok in Hin.
  destruct (reconcile_run L M R Hin) as [H0 [H1 H]].
  split; [exact H0|]. split; [exact H1|].
  destruct (str_strip_of (catalog_ids M) (joined_ids L M)) as [ids|e].
  - destruct (str_strip (map (get "tconst") (rows R))) as [keys|e].
    + destruct H as [Hret H2]. split; [intros; exact H2|].
      intros e He. exfalso. exact (returned_raises _ e _ He Hret).
    + destruct H as [He H2]. split; [|intros; exact H2].
      intros out Hout. exfalso. exact (returned_raises _ e out He Hout).
  - destruct H as [He H2]. split; [|intros; exact H2].
    intros out Hout. exfalso. exact (returned_raises _ e out He Hout).
Qed.

(** The expander leaves the frame it was given as it was, whatever the
    outcome. *)
Theorem expander_keeps_its_input (df : DataFrame) :
  object_after (expand df) 0 = Some df.
Proof.
  unfold object_after, expand.
  cbv beta zeta delta [one_hot_encode_genres method astype_int8 column pd_concat
                       bind deref lift new].
  cbn [nth_error List.length app].
  destruct (getitem df "genre_lst") as [s|e]; [|reflexivity].
  destruct (map_result labels_of s) as [y|e]; [|reflexivity].
  cbn [nth_error List.length app].
  destruct (drop ["genre_lst"] df) as [d|e]; reflexivity.
Qed.

(** ** More on the reconciled table *)

Lemma catalog_columns_without_id (M : DataFrame) :
  ~ In "tmdbId" (columns M) ->
  catalog_columns M = filter (fun c => negb (String.eqb c "id")) (columns M).
Proof.
  unfold catalog_columns. induction (columns M) as [|c cols IH]; simpl; intro H;
    [reflexivity|].
  rewrite catalog_label.
  destruct (String.eqb_spec c "id") as [->|Hne]; simpl.
  - apply IH. intro Hin. apply H. right. exact Hin.
  - destruct (String.eqb_spec c "tmdbId") as [->|_]; simpl.
    + exfalso. apply H. left. reflexivity.
    + f_equal. apply IH. intro Hin. apply H. right. exact Hin.
Qed.

Lemma filter_all {A : Type} (f : A -> bool) (l : list A) :
  (forall a, In a l -> f a = true) -> filter f l = l.
Proof.
  induction l as [|a l IH]; simpl; intro H; [reflexivity|].
  rewrite (H a) by (left; reflexivity). f_equal. apply IH.
  intros b Hb. apply H. right. exact Hb.
Qed.

Lemma published_catalog_label (M : DataFrame) (c : string) :
  (forall c, In c reconciler_labels -> ~ In c (catalog_columns M)) ->
  In c (catalog_columns M) ->
  rename_label published c = if String.eqb c "imdb_id" then "imdbId" else c.
Proof.
  intros Hcat Hc. rewrite published_label.
  destruct (String.eqb c "imdb_id"); [reflexivity|].
  destruct (String.eqb_spec c "numVotes") as [->|_];
    [exfalso; revert Hc; apply Hcat; simpl; tauto|].
  destruct (String.eqb_spec c "averageRating") as [->|_];
    [exfalso; revert Hc; apply Hcat; simpl; tauto|].
  reflexivity.
Qed.

Lemma NoDup_map_in {A B : Type} (f : A -> B) (l : list A) :
  (forall a b, In a l -> In b l -> f a = f b -> a = b) -> NoDup l -> NoDup (map f l).
Proof.
  intros Hinj Hnd. induction Hnd as [|a l Ha Hnd IH]; simpl; constructor.
  - intro Hi. apply in_map_iff in Hi. destruct Hi as [b [E Hb]].
    apply Ha. rewrite (Hinj a b); [exact Hb | left; reflexivity | right; exact Hb | congruence].
  - apply IH. intros x y Hx Hy. apply Hinj; right; assumption.
Qed.

(** On the pipeline's tables every table the reconciler returns has the
    link's [movieId] and [tmdbId], then the catalog's columns but [id] in
    the catalog's order, [imdb_id] published as [imdbId], then
    [imdb_averageRating] and [imdb_numVotes]; the labels are pairwise
    distinct and every row carries exactly them.  The link's own [imdbId]
    and the join key [tconst] are gone. *)
Theorem reconciled_table_schema (L M R : DataFrame) :
  reconciler_inputs L M R = true ->
  forall out,
    returned (reconcile L M R) = Ok out ->
    columns out = reconciled_labels M
    /\ wf out
    /\ NoDup (columns out).
Proof.
  intros Hin out Hout. apply reconciler_inputs_ok in Hin.
  pose proof (catalog_fresh _ _ _ Hin) as Hfresh.
  pose proof (catalog_columns_fresh M Hfresh) as Hcat.
  assert (Hcc : catalog_columns M = filter (fun c => negb (String.eqb c "id")) (columns M)).
  { apply catalog_columns_without_id. apply Hfresh. simpl. tauto. }
  assert (Hcols : columns (reconciled L M R) = reconciled_labels M).
  { unfold reconciled, reconciled_labels. cbn [columns].
    rewrite (links_columns _ _ _ Hin), <- Hcc.
    rewrite !filter_app, !map_app.
    rewrite (filter_all _ (catalog_columns M)).
    - change (filter (fun c => negb (mem c ["imdbId"; "tconst"])) ["tconst"]) with (@nil string).
      cbn [map]. rewrite app_nil_r, <- app_assoc. reflexivity.
    - intros c Hc. apply negb_true_iff, mem_false. simpl.
      intros [<-|[<-|[]]]; revert Hc; apply Hcat; simpl; tauto. }
  rewrite (reconcile_returns L M R out Hin Hout). clear out Hout.
  split; [exact Hcols|]. split.
  - unfold wf. rewrite Forall_forall. intros o Ho. rewrite Hcols.
    apply in_reconciled in Ho. destruct Ho as [l [t1 [t2 [Hl [Ht1 [Ht2 ->]]]]]].
    unfold output_row, reconciled_labels. rewrite !map_app, !keys_rename_keys.
    rewrite (catalog_tails_keys M _ t1 (catalog_wf _ _ _ Hin) Ht1).
    rewrite (rating_tails_keys R _ t2 (ratings_columns _ _ _ Hin) (ratings_wf _ _ _ Hin) Ht2).
    rewrite Hcc. reflexivity.
  - rewrite Hcols. unfold reconciled_labels. rewrite <- Hcc.
    assert (Hnd : NoDup (map (rename_label published) (catalog_columns M))).
    { rewrite Hcc. apply NoDup_map_in.
      - intros a b Ha Hb. rewrite <- Hcc in Ha, Hb.
        rewrite (published_catalog_label M a Hcat Ha), (published_catalog_label M b Hcat Hb).
        destruct (String.eqb_spec a "imdb_id") as [->|Ha'];
          destruct (String.eqb_spec b "imdb_id") as [->|Hb']; try congruence.
        + intros <-. exfalso. revert Hb. apply Hcat. simpl. tauto.
        + intros ->. exfalso. revert Ha. apply Hcat. simpl. tauto.
      - apply NoDup_filter. apply (catalog_nodup _ _ _ Hin). }
    assert (Hout : forall lab, In lab reconciler_labels -> lab <> "imdbId" ->
              ~ In lab (map (rename_label published) (catalog_columns M))).
    { intros lab Hlab Hne Hi. apply in_map_iff in Hi. destruct Hi as [c [Ec Hc]].
      rewrite (published_catalog_label M c Hcat Hc) in Ec.
      destruct (String.eqb c "imdb_id"); [congruence|]. subst lab.
      revert Hc. apply Hcat. exact Hlab. }
    simpl. constructor.
    { simpl. intros [E|Hi]; [discriminate|]. apply in_app_or in Hi.
      destruct Hi as [Hi|Hi]; [|simpl in Hi; intuition discriminate].
      revert Hi. apply Hout; [simpl; tauto | discriminate]. }
    constructor.
    { intro Hi. apply in_app_or in Hi.
      destruct Hi as [Hi|Hi]; [|simpl in Hi; intuition discriminate].
      revert Hi. apply Hout; [simpl; tauto | discriminate]. }
    apply NoDup_app; [exact Hnd | | ].
    + repeat constructor; simpl; intuition discriminate.
    + intros lab Hi Hlab. simpl in Hlab.
      destruct Hlab as [<-|[<-|[]]]; revert Hi; apply Hout; simpl; try tauto; discriminate.
Qed.

(** ** Link rows in the reconciled table *)

Lemma map_flat_map_one {A B C : Type} (f : A -> list B) (g : B -> C) (h : A -> C)
    (l : list A) :
  (forall a, In a l -> List.length (f a) = 1) ->
  (forall a b, In a l -> In b (f a) -> g b = h a) ->
  map g (flat_map f l) = map h l.
Proof.
  induction l as [|a l IH]; simpl; intros Hone Hg; [reflexivity|].
  rewrite map_app, IH.
  - f_equal. pose proof (Hone a (or_introl eq_refl)) as H1.
    pose proof (Hg a) as H2.
    destruct (f a) as [|b [|b' bs]]; simpl in H1; try discriminate.
    simpl. rewrite (H2 b); [reflexivity | left; reflexivity | left; reflexivity].
  - intros x Hx. apply Hone. right. exact Hx.
  - intros x b Hx Hb. apply (Hg x b); [right; exact Hx | exact Hb].
Qed.

Lemma rating_tails_one (R : DataFrame) (k : cell) :
  nunique (map (get "tconst") (rating_rows R)) = List.length (rows R) ->
  List.length (rating_tails R k) = 1.
Proof.
  intro Hkeys. apply join_tails_one.
  rewrite filter_key_length. apply nunique_all_at_most_one.
  rewrite Hkeys, length_map. unfold rating_rows. rewrite set_rows_length. reflexivity.
Qed.

Lemma catalog_tails_one (M : DataFrame) (k : cell) :
  List.length (catalog_tails M k) = 1.
Proof. apply join_tails_one. apply first_seen_at_most_one. Qed.

(** With rating keys that are pairwise distinct once [str.strip] has
    trimmed them, every table the reconciler returns lists the links in the
    order of the link table: its [movieId] column and its [tmdbId] column
    are those of the link table. *)
Theorem link_order_is_kept (L M R : DataFrame) :
  reconciler_inputs L M R = true ->
  nunique (map (get "tconst") (rating_rows R)) = List.length (rows R) ->
  forall out,
    returned (reconcile L M R) = Ok out ->
    map (get "movieId") (rows out) = map (get "movieId") (rows L)
    /\ map (get "tmdbId") (rows out) = map (get "tmdbId") (rows L).
Proof.
  intros Hin Hkeys out Hout. apply reconciler_inputs_ok in Hin.
  rewrite (reconcile_returns L M R out Hin Hout). clear out Hout.
  assert (Hone : forall l, In l (rows L) ->
            List.length
              (flat_map (fun t1 => map (output_row l t1)
                                     (rating_tails R (strip_cell (get "imdb_id" t1))))
                 (catalog_tails M (get "tmdbId" l))) = 1).
  { intros l _. rewrite flat_map_length_one; [apply catalog_tails_one|].
    intros t1 _. rewrite length_map. apply rating_tails_one. exact Hkeys. }
  unfold reconciled. cbn [rows].
  split; apply map_flat_map_one; try exact Hone;
    intros l o _ Ho; apply in_flat_map in Ho; destruct Ho as [t1 [_ Ho]];
    apply in_map_iff in Ho; destruct Ho as [t2 [<- _]]; reflexivity.
Qed.

(** The join is a left join on the link table: in every table the
    reconciler returns, every link row has an output row with its [movieId]
    and [tmdbId], and every output row has them from some link row. *)
Theorem link_rows_are_never_lost (L M R : DataFrame) :
  reconciler_inputs L M R = true ->
  forall out,
    returned (reconcile L M R) = Ok out ->
    (forall l, In l (rows L) ->
          exists o, In o (rows out)
                    /\ get "movieId" o = get "movieId" l
                    /\ get "tmdbId" o = get "tmdbId" l)
    /\ (forall o, In o (rows out) ->
          exists l, In l (rows L)
                    /\ get "movieId" o = get "movieId" l
                    /\ get "tmdbId" o = get "tmdbId" l)
    /\ List.length (rows L) <= List.length (rows out).
Proof.
  intros Hin out Hout. apply reconciler_inputs_ok in Hin.
  rewrite (reconcile_returns L M R out Hin Hout). clear out Hout.
  split; [|split].
  - intros l Hl.
    destruct (catalog_tails M (get "tmdbId" l)) as [|t1 ts] eqn:E1;
      [exfalso; revert E1; apply join_tails_nonempty|].
    destruct (rating_tails R (strip_cell (get "imdb_id" t1))) as [|t2 ts'] eqn:E2;
      [exfalso; revert E2; apply join_tails_nonempty|].
    exists (output_row l t1 t2). split; [|split; reflexivity].
    apply in_reconciled. exists l, t1, t2. rewrite E1, E2. simpl. tauto.
  - intros o Ho. apply in_reconciled in Ho.
    destruct Ho as [l [t1 [t2 [Hl [_ [_ ->]]]]]]. exists l. split; [exact Hl|].
    split; reflexivity.
  - unfold reconciled. cbn [rows]. induction (rows L) as [|l ls IH]; simpl; [lia|].
    rewrite length_app.
    destruct (catalog_tails M (get "tmdbId" l)) as [|t1 ts] eqn:E1;
      [exfalso; revert E1; apply join_tails_nonempty|].
    destruct (rating_tails R (strip_cell (get "imdb_id" t1))) as [|t2 ts'] eqn:E2;
      [exfalso; revert E2; apply join_tails_nonempty|].
    simpl. rewrite E2. simpl. lia.
Qed.

(** ** Where the rating fields of an output row come from *)

Lemma rating_rows_key (R : DataFrame) (k : cell) :
  existsb (fun r => cell_eqb (get "tconst" r) k) (rating_rows R) = rating_match R k.
Proof.
  rewrite rating_rows_map. unfold rating_match.
  induction (rows R) as [|r rs IH]; simpl; [reflexivity|].
  rewrite IH. f_equal.
  rewrite (get_lookup "tconst" _ (strip_cell (get "tconst" r))); [reflexivity|].
  rewrite lookup_set_cell, String.eqb_refl. reflexivity.
Qed.

Lemma existsb_filter {A : Type} (f : A -> bool) (l : list A) :
  existsb f l = match filter f l with [] => false | _ :: _ => true end.
Proof.
  induction l as [|a l IH]; simpl; [reflexivity|].
  destruct (f a); simpl; [reflexivity | exact IH].
Qed.

(** In every table the reconciler returns, the rating and the vote count of
    an output row are those of a rating row whose key, trimmed by
    [str.strip], equals the trimmed cross-reference the row publishes as
    [imdbId]; when no rating row has that key, both are missing.  A rating
    is never taken from a row with another key. *)
Theorem ratings_come_from_the_matching_key (L M R : DataFrame) :
  reconciler_inputs L M R = true ->
  forall out,
    returned (reconcile L M R) = Ok out ->
    (forall o, In o (rows out) ->
        if rating_match R (strip_cell (get "imdbId" o))
        then exists r, In r (rows R)
               /\ cell_eqb (strip_cell (get "tconst" r)) (strip_cell (get "imdbId" o)) = true
               /\ lookup "imdb_averageRating" o = lookup "averageRating" r
               /\ lookup "imdb_numVotes" o = lookup "numVotes" r
        else lookup "imdb_averageRating" o = Some NA
             /\ lookup "imdb_numVotes" o = Some NA).
Proof.
  intros Hin out Hout. apply reconciler_inputs_ok in Hin.
  rewrite (reconcile_returns L M R out Hin Hout). clear out Hout.
  intros o Ho. apply in_reconciled in Ho.
  destruct Ho as [l [t1 [t2 [Hl [Ht1 [Ht2 ->]]]]]].
  pose proof (catalog_fresh _ _ _ Hin) as Hfresh.
  pose proof (catalog_columns_fresh M Hfresh) as Hcat.
  pose proof (catalog_tails_keys M _ t1 (catalog_wf _ _ _ Hin) Ht1) as Hk1.
  pose proof (rating_tails_keys R _ t2 (ratings_columns _ _ _ Hin) (ratings_wf _ _ _ Hin) Ht2)
    as Hk2.
  assert (Hid : get "imdbId" (output_row l t1 t2) = get "imdb_id" t1).
  { unfold get.
    rewrite <- (output_row_catalog M l t1 t2 "imdb_id" Hcat Hk1); [reflexivity|].
    apply catalog_columns_in; [exact Hfresh | apply (catalog_imdb_id _ _ _ Hin) | discriminate]. }
  rewrite Hid.
  destruct (output_row_rating M l t1 t2 Hcat Hk1 Hk2) as [E1 E2]. rewrite E1, E2.
  clear E1 E2 Hid Hk2.
  rewrite <- rating_rows_key, existsb_filter.
  unfold rating_tails, join_tails in Ht2.
  destruct (filter (fun r => cell_eqb (get "tconst" r) (strip_cell (get "imdb_id" t1)))
              (rating_rows R)) as [|x xs] eqn:E.
  - destruct Ht2 as [<-|[]]. split; reflexivity.
  - apply in_map_iff in Ht2. destruct Ht2 as [r' [<- Hr']].
    rewrite <- E in Hr'. apply filter_In in Hr'. destruct Hr' as [Hr' Hk].
    rewrite rating_rows_map in Hr'. apply in_map_iff in Hr'.
    destruct Hr' as [r [<- Hr]]. exists r. split; [exact Hr|].
    split.
    + rewrite (get_lookup "tconst" _ (strip_cell (get "tconst" r))) in Hk; [exact Hk|].
      rewrite lookup_set_cell, String.eqb_refl. reflexivity.
    + rewrite !rating_tail_field by discriminate. split; reflexivity.
Qed.

(** ** A catalog without a key column *)

Lemma catalog_key_absent (cols : list string) :
  mem "id" cols = false -> mem "tmdbId" cols = false ->
  mem "tmdbId" (map (rename_label catalog_key) cols) = false.
Proof.
  unfold mem. induction cols as [|c cols IH]; cbn [existsb map]; [reflexivity|].
  intros H1 H2. apply orb_false_iff in H1, H2.
  destruct H1 as [H1 H1'], H2 as [H2 H2'].
  rewrite (IH H1' H2'), orb_false_r, catalog_label.
  destruct (String.eqb_spec c "id") as [->|_]; [discriminate H1 | exact H2].
Qed.

(** A catalog with neither an [id] nor a [tmdbId] column makes the
    reconciler raise [KeyError] for [tmdbId], the key its first step renames
    [id] to; it raises before it touches the rating table, so the three
    arguments are as they were. *)
Theorem catalog_without_id_raises_KeyError (L M R : DataFrame) :
  has_column "id" M = false ->
  has_column "tmdbId" M = false ->
  fst (reconcile L M R) = Raise (KeyError ["tmdbId"])
  /\ object_after (reconcile L M R) 0 = Some L
  /\ object_after (reconcile L M R) 1 = Some M
  /\ object_after (reconcile L M R) 2 = Some R.
Proof.
  intros H1 H2.
  assert (E : dropna "tmdbId" (rename catalog_key M) = Raise (KeyError ["tmdbId"])).
  { unfold dropna, has_column. cbn [columns rename].
    rewrite (catalog_key_absent _ H1 H2). reflexivity. }
  unfold reconcile, object_after.
  cbv beta zeta delta [merge_datasets method copy bind deref lift new].
  cbn [nth_error List.length app].
  change [("id", "tmdbId")] with catalog_key. rewrite E.
  repeat split.
Qed.

(** ** [str.strip()] twice *)

Lemma trim_step (backwards : bool) (s : list ascii) :
  trim backwards s
  = match ws_head backwards s with
    | Some rest => trim backwards rest
    | None => s
    end.
Proof.
  destruct s as [|a [|b [|c s3]]]; [reflexivity | | |]; unfold ws_head.
  - cbn [trim]. destruct (is_space a); reflexivity.
  - change (trim backwards [a; b])
      with (if is_space a then trim backwards [b]
            else if (if backwards then is_space2 b a else is_space2 a b)
                 then trim backwards [] else [a; b]).
    destruct (is_space a); [reflexivity|].
    destruct (if backwards then is_space2 b a else is_space2 a b); reflexivity.
  - change (trim backwards (a :: b :: c :: s3))
      with (if is_space a then trim backwards (b :: c :: s3)
            else if (if backwards then is_space2 b a else is_space2 a b)
                 then trim backwards (c :: s3)
                 else if (if backwards then is_space3 c b a else is_space3 a b c)
                      then trim backwards s3 else a :: b :: c :: s3).
    destruct (is_space a); [reflexivity|].
    destruct (if backwards then is_space2 b a else is_space2 a b); [reflexivity|].
    destruct (if backwards then is_space3 c b a else is_space3 a b c); reflexivity.
Qed.

Lemma ws_head_rest (backwards : bool) (s rest : list ascii) :
  ws_head backwards s = Some rest -> exists p, s = p ++ rest /\ p <> [].
Proof.
  unfold ws_head. destruct s as [|a s1]; [discriminate|].
  destruct (is_space a).
  { intro H. injection H as <-. exists [a]. split; [reflexivity | discriminate]. }
  destruct s1 as [|b s2]; [discriminate|].
  destruct (if backwards then is_space2 b a else is_space2 a b).
  { intro H. injection H as <-. exists [a; b]. split; [reflexivity | discriminate]. }
  destruct s2 as [|c s3]; [discriminate|].
  destruct (if backwards then is_space3 c b a else is_space3 a b c); [|discriminate].
  intro H. injection H as <-. exists [a; b; c]. split; [reflexivity | discriminate].
Qed.

Lemma ws_head_prefix (backwards : bool) (p q : list ascii) :
  ws_head backwards (p ++ q) = None -> p <> [] -> ws_head backwards p = None.
Proof.
  unfold ws_head. destruct p as [|a [|b [|c p3]]]; [contradiction | | |]; cbn [app]; intros H _.
  - destruct (is_space a); [discriminate | reflexivity].
  - destruct (is_space a); [discriminate|].
    destruct (if backwards then is_space2 b a else is_space2 a b); [discriminate | reflexivity].
  - destruct (is_space a); [discriminate|].
    destruct (if backwards then is_space2 b a else is_space2 a b); [discriminate|].
    destruct (if backwards then is_space3 c b a else is_space3 a b c);
      [discriminate | reflexivity].
Qed.

Lemma trim_tail (backwards : bool) (s : list ascii) :
  exists p, s = p ++ trim backwards s.
Proof.
  assert (H : forall n s, (List.length s <= n)%nat -> exists p, s = p ++ trim backwards s).
  { clear s. induction n as [|n IH]; intros s Hn.
    - destruct s; [exists []; reflexivity | simpl in Hn; lia].
    - rewrite trim_step. destruct (ws_head backwards s) as [rest|] eqn:E;
        [|exists []; reflexivity].
      destruct (ws_head_rest backwards s rest E) as [p [-> Hp]].
      destruct (IH rest) as [p' Hp'].
      { rewrite length_app in Hn. destruct p; [contradiction | simpl in Hn; lia]. }
      exists (p ++ p'). rewrite <- app_assoc, <- Hp'. reflexivity. }
  apply (H (List.length s)). lia.
Qed.

(** What [trim] returns has no whitespace character at its head. *)
Lemma trim_head (backwards : bool) (s : list ascii) :
  ws_head backwards (trim backwards s) = None.
Proof.
  assert (H : forall n s, (List.length s <= n)%nat ->
                ws_head backwards (trim backwards s) = None).
  { clear s. induction n as [|n IH]; intros s Hn.
    - destruct s; [reflexivity | simpl in Hn; lia].
    - rewrite trim_step. destruct (ws_head backwards s) as [rest|] eqn:E; [|exact E].
      destruct (ws_head_rest backwards s rest E) as [p [-> Hp]].
      apply IH. rewrite length_app in Hn. destruct p; [contradiction | simpl in Hn; lia]. }
  apply (H (List.length s)). lia.
Qed.

Lemma trim_fixed (backwards : bool) (s : list ascii) :
  ws_head backwards s = None -> trim backwards s = s.
Proof. intro H. rewrite trim_step, H. reflexivity. Qed.

Lemma strip_strip (s : string) : strip (strip s) = strip s.
Proof.
  unfold strip, rstrip, lstrip. rewrite !list_ascii_of_string_of_list_ascii.
  set (t := trim false (list_ascii_of_string s)).
  set (u := rev (trim true (rev t))).
  assert (Hu : trim false u = u).
  { destruct u as [|a u'] eqn:Eu; [reflexivity|]. rewrite <- Eu.
    destruct (trim_tail true (rev t)) as [p Hp].
    assert (Ht : t = u ++ rev p).
    { rewrite <- (rev_involutive t), Hp, rev_app_distr. reflexivity. }
    apply trim_fixed. apply (ws_head_prefix false u (rev p)); [|rewrite Eu; discriminate].
    rewrite <- Ht. apply trim_head. }
  rewrite Hu. unfold u. rewrite rev_involutive.
  rewrite (trim_fixed true (trim true (rev t))) by apply trim_head. reflexivity.
Qed.

Lemma strip_cell_trimmed (c : cell) : trimmed (strip_cell c).
Proof.
  unfold strip_cell. destruct (as_str c) as [s|]; simpl; [apply strip_strip | exact I].
Qed.

Lemma strip_cell_fixed (c : cell) : trimmed c -> strip_cell c = c.
Proof.
  destruct c; simpl; try tauto. intro H. unfold strip_cell. simpl. rewrite H. reflexivity.
Qed.

Lemma strip_cell_strip_cell (c : cell) : strip_cell (strip_cell c) = strip_cell c.
Proof. apply strip_cell_fixed, strip_cell_trimmed. Qed.

(** ** Running [load_imdb_ratings] *)

Lemma set_cell_same (c : string) (v : cell) (r : row) :
  lookup c r = Some v -> set_cell c v r = r.
Proof.
  induction r as [|[k w] r IH]; simpl; [discriminate|].
  destruct (String.eqb c k); [intro H; injection H as ->; reflexivity|].
  intro H. rewrite (IH H). reflexivity.
Qed.

Lemma load_imdb_ratings_run (R0 : DataFrame) :
  has_column "tconst" R0 = true ->
  load_imdb_ratings 0 [R0]
  = match str_strip (map (get "tconst") (rows R0)) with
    | Ok _ => (Ok 0, [{| columns := columns R0; rows := rating_rows R0 |}])
    | Raise e => (Raise e, [R0])
    end.
Proof.
  intro H. unfold load_imdb_ratings.
  cbv beta zeta delta [column assign_column inplace bind deref lift assign ret].
  cbn [nth_error update]. rewrite (getitem_ok R0 "tconst" H).
  destruct (str_strip (map (get "tconst") (rows R0))) as [keys|e] eqn:E; [|reflexivity].
  apply str_strip_ok in E. subst keys.
  unfold setitem. rewrite H. reflexivity.
Qed.

(** Whenever the loader returns, the frame had a [tconst] column [.str]
    accepts, and the loader returns the frame with its keys trimmed. *)
Lemma load_imdb_ratings_returns (R0 R : DataFrame) :
  returned (load_imdb_ratings 0 [R0]) = Ok R ->
  has_column "tconst" R0 = true
  /\ (exists keys, str_strip (map (get "tconst") (rows R0)) = Ok keys)
  /\ R = {| columns := columns R0; rows := rating_rows R0 |}
  /\ load_imdb_ratings 0 [R0] = (Ok 0, [R]).
Proof.
  intro Hout. destruct (has_column "tconst" R0) eqn:H.
  - rewrite (load_imdb_ratings_run R0 H) in Hout |- *.
    destruct (str_strip (map (get "tconst") (rows R0))) as [keys|e]; [|discriminate].
    unfold returned in Hout. cbn [fst snd nth_error] in Hout. injection Hout as <-.
    split; [reflexivity|]. split; [exists keys; reflexivity|]. split; reflexivity.
  - exfalso. revert Hout. unfold load_imdb_ratings.
    cbv beta zeta delta [column assign_column inplace bind deref lift assign ret].
    cbn [nth_error update]. unfold getitem. rewrite H. discriminate.
Qed.

(** A column [.str] accepts as it stands holds a string and no object. *)
Lemma str_strip_accepts (s v : Series) :
  str_strip s = Ok v -> existsb is_object s = false /\ existsb is_str s = true.
Proof.
  unfold str_strip, str_strip_of. destruct (existsb is_object s); [discriminate|].
  destruct (existsb is_str s); [tauto|].
  destruct (existsb is_number s && forallb (fun c => isna c || is_number c) s);
    [discriminate | simpl; discriminate].
Qed.

(** A column [.str] accepted is accepted again once trimmed. *)
Lemma str_strip_again (s v : Series) :
  str_strip s = Ok v -> str_strip v = Ok (map strip_cell v).
Proof.
  intro H. destruct (str_strip_accepts s v H) as [Eo Es].
  pose proof (str_strip_ok s v H) as ->. unfold str_strip, str_strip_of.
  replace (existsb is_object (map strip_cell s)) with false.
  - replace (existsb is_str (map strip_cell s)) with true; [reflexivity|].
    symmetry. clear Eo H. induction s as [|c s IH]; [discriminate|].
    cbn [existsb map] in *. destruct (is_str c) eqn:Ec.
    + destruct c; try discriminate. reflexivity.
    + rewrite (IH Es). apply orb_true_r.
  - symmetry. clear. induction s as [|c s IH]; simpl; [reflexivity|].
    rewrite IH, orb_false_r. unfold strip_cell. destruct (as_str c); reflexivity.
Qed.

Lemma rating_rows_trimmed (R : DataFrame) (r : row) :
  In r (rating_rows R) ->
  exists r0, In r0 (rows R)
    /\ lookup "tconst" r = Some (strip_cell (get "tconst" r0))
    /\ forall c, c <> "tconst" -> lookup c r = lookup c r0.
Proof.
  rewrite rating_rows_map. intro H. apply in_map_iff in H. destruct H as [r0 [<- Hr0]].
  exists r0. split; [exact Hr0|]. split.
  - rewrite lookup_set_cell, String.eqb_refl. reflexivity.
  - intros c Hc. rewrite lookup_set_cell.
    replace (String.eqb c "tconst") with false by (symmetry; apply String.eqb_neq; exact Hc).
    reflexivity.
Qed.

Lemma rating_rows_fixed (rs : list row) :
  (forall r, In r rs -> exists v, lookup "tconst" r = Some v /\ trimmed v) ->
  map (fun r => set_cell "tconst" (strip_cell (get "tconst" r)) r) rs = rs.
Proof.
  intro H. rewrite <- (map_id rs) at 2. apply map_ext_in. intros r Hr.
  destruct (H r Hr) as [v [Ev Hv]].
  rewrite (get_lookup _ _ _ Ev), (strip_cell_fixed v Hv). apply set_cell_same. exact Ev.
Qed.

(** Whenever the loader returns, it has trimmed the rating keys in the
    frame it read and returns that frame: every key of the result is missing
    or a string without whitespace around it, every other field is as it
    was read, and no row is added, dropped or moved. *)
Theorem imdb_loader_trims_keys (R0 : DataFrame) :
  forall R,
    returned (load_imdb_ratings 0 [R0]) = Ok R ->
    object_after (load_imdb_ratings 0 [R0]) 0 = Some R
    /\ columns R = columns R0
    /\ Forall2 (fun r0 r =>
                  lookup "tconst" r = Some (strip_cell (get "tconst" r0))
                  /\ forall c, c <> "tconst" -> lookup c r = lookup c r0)
         (rows R0) (rows R)
    /\ Forall (fun r => trimmed (get "tconst" r)) (rows R).
Proof.
  intros R Hout. destruct (load_imdb_ratings_returns R0 R Hout) as [_ [_ [-> Hrun]]].
  rewrite Hrun. split; [reflexivity|]. split; [reflexivity|].
  cbn [rows]. rewrite rating_rows_map. split.
  - induction (rows R0) as [|r rs IH]; simpl; constructor; [|exact IH].
    split.
    + rewrite lookup_set_cell, String.eqb_refl. reflexivity.
    + intros c Hc. rewrite lookup_set_cell.
      replace (String.eqb c "tconst") with false by (symmetry; apply String.eqb_neq; exact Hc).
      reflexivity.
  - apply Forall_forall. intros r Hr. apply in_map_iff in Hr. destruct Hr as [r0 [<- _]].
    rewrite (get_lookup "tconst" _ (strip_cell (get "tconst" r0))).
    + apply strip_cell_trimmed.
    + rewrite lookup_set_cell, String.eqb_refl. reflexivity.
Qed.

(** A file without a [tconst] column makes the loader raise [KeyError] for
    it. *)
Theorem imdb_loader_needs_tconst (R0 : DataFrame) :
  has_column "tconst" R0 = false ->
  load_imdb_ratings 0 [R0] = (Raise (KeyError ["tconst"]), [R0]).
Proof.
  intro H. unfold load_imdb_ratings.
  cbv beta zeta delta [column assign_column inplace bind deref lift assign ret].
  cbn [nth_error update]. unfold getitem. rewrite H. reflexivity.
Qed.

Lemma rating_rows_again (R0 : DataFrame) :
  rating_rows {| columns := columns R0; rows := rating_rows R0 |} = rating_rows R0.
Proof.
  rewrite (rating_rows_map (mkDataFrame _ _)). cbn [rows].
  apply rating_rows_fixed. intros r Hr.
  destruct (rating_rows_trimmed R0 r Hr) as [r0 [_ [E _]]].
  eexists. split; [exact E | apply strip_cell_trimmed].
Qed.

Lemma rating_keys_trimmed (R0 : DataFrame) :
  has_column "tconst" R0 = true ->
  map (get "tconst") (rating_rows R0) = map strip_cell (map (get "tconst") (rows R0)).
Proof.
  intros _. unfold rating_rows. apply get_set_rows_same. rewrite !length_map. reflexivity.
Qed.

(** Loading twice is loading once: on a frame the loader returned, the
    loader returns again and changes nothing. *)
Theorem imdb_loader_is_idempotent (R0 : DataFrame) :
  forall R,
    returned (load_imdb_ratings 0 [R0]) = Ok R ->
    load_imdb_ratings 0 [R] = (Ok 0, [R]).
Proof.
  intros R Hout.
  destruct (load_imdb_ratings_returns R0 R Hout) as [H [[keys S] [-> _]]].
  rewrite load_imdb_ratings_run by exact H. cbn [columns rows].
  rewrite (rating_keys_trimmed R0 H).
  pose proof (str_strip_ok _ _ S) as Ek. rewrite <- Ek.
  rewrite (str_strip_again _ _ S). rewrite rating_rows_again. reflexivity.
Qed.

(** The pipeline's ratings come from the loader, and on those the
    reconciler's assignment to the rating table's keys writes back what is
    there: the table the loader returned is unchanged by [merge_datasets],
    whether [merge_datasets] returns or raises. *)
Theorem loaded_ratings_survive_the_reconciler (L M R0 : DataFrame) :
  reconciler_inputs L M R0 = true ->
  forall R,
    returned (load_imdb_ratings 0 [R0]) = Ok R ->
    object_after (reconcile L M R) 2 = Some R.
Proof.
  intros Hin R Hout. apply reconciler_inputs_ok in Hin.
  destruct (load_imdb_ratings_returns R0 R Hout) as [H [_ [-> _]]].
  set (R := {| columns := columns R0; rows := rating_rows R0 |}).
  assert (Hok : inputs_ok L M R).
  { pose proof (ratings_wf _ _ _ Hin) as Hwf.
    pose proof (ratings_columns _ _ _ Hin) as Hcols.
    destruct Hin. constructor; try assumption.
    unfold wf, R in *. cbn [rows columns]. rewrite rating_rows_map.
    rewrite Forall_forall in *. intros r Hr. apply in_map_iff in Hr.
    destruct Hr as [r0 [<- Hr0]]. specialize (Hwf r0 Hr0).
    rewrite keys_set_cell_present; [exact Hwf|].
    rewrite Hwf, Hcols. simpl. tauto. }
  destruct (reconcile_run L M R Hok) as [_ [_ E]].
  assert (Er : {| columns := columns R; rows := rating_rows R |} = R).
  { unfold R at 3. cbn [columns]. f_equal. apply rating_rows_again. }
  destruct (str_strip_of (catalog_ids M) (joined_ids L M)) as [ids|e]; [|destruct E as [_ E]; exact E].
  destruct (str_strip (map (get "tconst") (rows R))) as [keys|e];
    destruct E as [_ E]; rewrite E; [|reflexivity].
  rewrite Er. reflexivity.
Qed.

(** ** Running [load_movielens_links] *)

Lemma load_movielens_links_loop (links : ref) :
  load_movielens_links links
  = (d <- deref links ;;
     for_each (columns d) (coerce_column links) ;;
     method (fun d => Ok (drop_duplicates_all d)) links).
Proof. reflexivity. Qed.

Lemma astype_Int64_cell_cases (c : cell) :
  (exists v, astype_Int64_cell c = Ok v /\ int_or_na v /\ astype_Int64_cell v = Ok v)
  \/ exists e, astype_Int64_cell c = Raise e.
Proof.
  destruct (astype_Int64_cell c) as [v|e] eqn:E; [left | right; exists e; reflexivity].
  exists v. split; [reflexivity|].
  pose proof (astype_Int64_cell_value c v E) as Hv.
  split; [exact Hv | apply astype_Int64_cell_same; exact Hv].
Qed.

Lemma astype_Int64_cell_twice (a b c : cell) :
  astype_Int64_cell a = Ok b -> astype_Int64_cell b = Ok c -> astype_Int64_cell a = Ok c.
Proof.
  intros Ha Hb.
  destruct (astype_Int64_cell_cases a) as [[w [Ew [_ Eww]]]|[e Ew]]; rewrite Ew in Ha;
    [|discriminate].
  injection Ha as <-. congruence.
Qed.

Lemma astype_Int64_all (s : Series) :
  (exists v, astype_Int64 s = Ok v
             /\ Forall2 (fun c w => astype_Int64_cell c = Ok w) s v)
  \/ exists e, astype_Int64 s = Raise e
               /\ exists c e', In c s /\ astype_Int64_cell c = Raise e'.
Proof.
  destruct (astype_Int64 s) as [v|e] eqn:E.
  - left. exists v. split; [reflexivity|]. apply map_result_Forall2.
    apply astype_Int64_cells. exact E.
  - right. exists e. split; [reflexivity|]. apply (astype_Int64_raises s e E).
Qed.

Lemma coerce_column_run (d : DataFrame) (c : string) :
  has_column c d = true ->
  coerce_column 0 c [d]
  = match astype_Int64 (map (get c) (rows d)) with
    | Ok v => (Ok tt, [{| columns := columns d; rows := set_rows c (rows d) v |}])
    | Raise e => (Raise e, [d])
    end.
Proof.
  intro H. unfold coerce_column.
  cbv beta zeta delta [column assign_column inplace bind deref lift assign ret].
  cbn [nth_error]. rewrite (getitem_ok d c H).
  destruct (astype_Int64 (map (get c) (rows d))) as [v|e]; [|reflexivity].
  cbn [nth_error update]. unfold setitem. rewrite H. reflexivity.
Qed.

Lemma set_rows_Forall2 (c : string) (rs : list row) (s v : Series) (f : cell -> result cell) :
  s = map (get c) rs ->
  Forall2 (fun a w => f a = Ok w) s v ->
  Forall2 (fun r r' => f (get c r) = Ok (get c r')
                       /\ forall c', c' <> c -> get c' r' = get c' r)
    rs (set_rows c rs v).
Proof.
  intros -> H. revert v H. induction rs as [|r rs IH]; intros v H; simpl; [constructor|].
  inversion H as [|a w s' v' Ha Hs]; subst. simpl. constructor.
  - split.
    + rewrite (get_lookup c (set_cell c w r) w); [exact Ha|].
      rewrite lookup_set_cell, String.eqb_refl. reflexivity.
    + intros c' Hne. apply get_set_cell_other. exact Hne.
  - apply IH. exact Hs.
Qed.

Lemma Forall2_In_l {A B : Type} (P : A -> B -> Prop) (l : list A) (l' : list B) (a : A) :
  Forall2 P l l' -> In a l -> exists b, In b l' /\ P a b.
Proof.
  induction 1 as [|x y l l' Hxy _ IH]; simpl; [tauto|].
  intros [<-|Hin]; [exists y; tauto|].
  destruct (IH Hin) as [b [Hb Pb]]. exists b. tauto.
Qed.

Lemma Forall2_In_r {A B : Type} (P : A -> B -> Prop) (l : list A) (l' : list B) (b : B) :
  Forall2 P l l' -> In b l' -> exists a, In a l /\ P a b.
Proof.
  induction 1 as [|x y l l' Hxy _ IH]; simpl; [tauto|].
  intros [<-|Hin]; [exists x; tauto|].
  destruct (IH Hin) as [a [Ha Pa]]. exists a. tauto.
Qed.

Lemma Forall2_same {A : Type} (P : A -> A -> Prop) (l : list A) :
  (forall a, P a a) -> Forall2 P l l.
Proof. intro H. induction l; constructor; auto. Qed.

Lemma Forall2_compose {A : Type} (P Q S : A -> A -> Prop) (l1 l2 l3 : list A) :
  (forall a b c, P a b -> Q b c -> S a c) ->
  Forall2 P l1 l2 -> Forall2 Q l2 l3 -> Forall2 S l1 l3.
Proof.
  intros HS H. revert l3. induction H as [|a b l1 l2 Hab _ IH]; intros l3 H3;
    inversion H3; subst; constructor; eauto.
Qed.

Lemma coerce_columns_step (c : string) (cols : list string) (d : DataFrame) :
  has_column c d = true ->
  for_each (c :: cols) (coerce_column 0) [d]
  = match astype_Int64 (map (get c) (rows d)) with
    | Ok v => for_each cols (coerce_column 0)
                [{| columns := columns d; rows := set_rows c (rows d) v |}]
    | Raise e => (Raise e, [d])
    end.
Proof.
  intro H. cbn [for_each]. unfold bind. rewrite (coerce_column_run d c H).
  destruct (astype_Int64 (map (get c) (rows d))); reflexivity.
Qed.

(** The loop over the columns: it coerces every entry under the labels it
    runs through and leaves every other entry alone, or it raises, and then
    some entry is one [astype("Int64")] refuses. *)
Lemma coerce_columns_run (cols : list string) (d : DataFrame) :
  (forall c, In c cols -> has_column c d = true) ->
  (exists rs',
      for_each cols (coerce_column 0) [d]
      = (Ok tt, [{| columns := columns d; rows := rs' |}])
      /\ Forall2 (fun r r' => coerced cols r r'
                              /\ forall c, ~ In c cols -> get c r' = get c r)
           (rows d) rs')
  \/ exists e,
       (exists h, for_each cols (coerce_column 0) [d] = (Raise e, h))
       /\ exists c r e', In c cols /\ In r (rows d)
                         /\ astype_Int64_cell (get c r) = Raise e'.
Proof.
  revert d. induction cols as [|c cols IH]; intros d Hcols.
  - left. exists (rows d). split; [destruct d; reflexivity|].
    apply Forall2_same. intro r. split; [intros c []| reflexivity].
  - rewrite (coerce_columns_step c cols d) by (apply Hcols; left; reflexivity).
    destruct (astype_Int64_all (map (get c) (rows d)))
      as [[v [-> Hv]]|[e [-> [x [e' [Hx Ex]]]]]].
    + pose proof (set_rows_Forall2 c (rows d) _ v astype_Int64_cell eq_refl Hv) as Hstep.
      set (d1 := {| columns := columns d; rows := set_rows c (rows d) v |}).
      destruct (IH d1) as [[rs' [E Hrel]]|[e [[h E] [c' [r1 [e' [Hc' [Hr1 Ec']]]]]]]].
      * intros c' Hc'. apply (Hcols c'). right. exact Hc'.
      * left. exists rs'. split; [exact E|].
        refine (Forall2_compose _ _ _ _ _ _ _ Hstep Hrel).
        intros r r1 r' [H1 H1'] [H2 H2']. split.
        -- intros c' [<-|Hc'].
           ++ destruct (in_dec string_dec c cols) as [Hin|Hnot].
              ** apply (astype_Int64_cell_twice _ _ _ H1 (H2 c Hin)).
              ** rewrite (H2' c Hnot). exact H1.
           ++ destruct (string_dec c' c) as [->|Hne].
              ** apply (astype_Int64_cell_twice _ _ _ H1 (H2 c Hc')).
              ** rewrite <- (H1' c' Hne). apply H2. exact Hc'.
        -- intros c' Hnot. rewrite H2'; [|intro Hin; apply Hnot; right; exact Hin].
           apply H1'. intros ->. apply Hnot. left. reflexivity.
      * right. exists e. split; [exists h; exact E|].
        destruct (Forall2_In_r _ _ _ r1 Hstep Hr1) as [r [Hr [H1 H1']]].
        exists c', r, e'. split; [right; exact Hc'|]. split; [exact Hr|].
        destruct (string_dec c' c) as [->|Hne].
        -- exfalso.
           destruct (astype_Int64_cell_cases (get c r)) as [[w [Ew [_ Eww]]]|[e'' Ew]];
             rewrite Ew in H1; [|discriminate].
           injection H1 as H1. rewrite <- H1 in Ec'. congruence.
        -- rewrite <- (H1' c' Hne). exact Ec'.
    + right. exists e. split; [exists [d]; reflexivity|].
      apply in_map_iff in Hx. destruct Hx as [r [<- Hr]].
      exists c, r, e'. split; [left; reflexivity|]. tauto.
Qed.

(** On a frame of finite numbers the loop raises nothing but TypeError. *)
Lemma coerce_columns_finite (cols : list string) (d : DataFrame) (e : exn) (h : heap) :
  (forall c, In c cols -> has_column c d = true) ->
  (forall r c, In r (rows d) -> In c cols -> finite_or_na (get c r) = true) ->
  for_each cols (coerce_column 0) [d] = (Raise e, h) ->
  e = TypeError.
Proof.
  revert d. induction cols as [|c cols IH]; intros d Hcols Hfin; [discriminate|].
  rewrite (coerce_columns_step c cols d) by (apply Hcols; left; reflexivity).
  destruct (astype_Int64 (map (get c) (rows d))) as [v|e'] eqn:E.
  - apply IH.
    + intros c' Hc'. apply (Hcols c'). right. exact Hc'.
    + cbn [rows]. intros r' c' Hr' Hc'.
      pose proof (set_rows_Forall2 c (rows d) _ v astype_Int64_cell eq_refl
                    (map_result_Forall2 _ _ _ (astype_Int64_cells _ _ E))) as Hstep.
      destruct (Forall2_In_r _ _ _ r' Hstep Hr') as [r [Hr [H1 H1']]].
      destruct (string_dec c' c) as [->|Hne].
      * pose proof (astype_Int64_cell_value _ _ H1) as Hv.
        destruct (get c r'); try contradiction; reflexivity.
      * rewrite (H1' c' Hne). apply Hfin; [exact Hr | right; exact Hc'].
  - intro H. injection H as <- _.
    apply (astype_Int64_finite_raises (map (get c) (rows d)) e'); [|exact E].
    apply forallb_forall. intros x Hx. apply in_map_iff in Hx.
    destruct Hx as [r [<- Hr]]. apply Hfin; [exact Hr | left; reflexivity].
Qed.

(** ** [drop_duplicates()]: rows seen before are dropped, others kept *)

Lemma first_seen_rows_In (labels : list string) (rs seen : list row) (r : row) :
  In r (first_seen_rows labels seen rs) ->
  In r rs /\ existsb (row_eqb labels r) seen = false.
Proof.
  revert seen. induction rs as [|x rs IH]; intros seen; simpl; [tauto|].
  destruct (existsb (row_eqb labels x) seen) eqn:E.
  - intro H. destruct (IH seen H) as [H1 H2]. tauto.
  - intros [<-|H]; [tauto|]. destruct (IH (x :: seen) H) as [H1 H2].
    simpl in H2. apply orb_false_iff in H2. tauto.
Qed.

Lemma first_seen_rows_apart (labels : list string) (rs seen : list row) :
  ForallOrdPairs (fun a b => row_eqb labels b a = false) (first_seen_rows labels seen rs).
Proof.
  revert seen. induction rs as [|x rs IH]; intros seen; simpl; [constructor|].
  destruct (existsb (row_eqb labels x) seen); [apply IH|].
  constructor; [|apply IH].
  apply Forall_forall. intros b Hb. apply first_seen_rows_In in Hb.
  destruct Hb as [_ Hb]. simpl in Hb. apply orb_false_iff in Hb. tauto.
Qed.

Lemma first_seen_rows_cover (labels : list string) (rs seen : list row) (r : row) :
  In r rs ->
  (exists s, In s seen /\ row_eqb labels r s = true)
  \/ In r (first_seen_rows labels seen rs)
  \/ exists r', In r' (first_seen_rows labels seen rs) /\ row_eqb labels r r' = true.
Proof.
  revert seen. induction rs as [|x rs IH]; intros seen; simpl; [tauto|].
  intros [<-|Hr].
  - destruct (existsb (row_eqb labels x) seen) eqn:E; [|right; left; left; reflexivity].
    left. apply existsb_exists in E. exact E.
  - destruct (existsb (row_eqb labels x) seen) eqn:E; [apply IH; exact Hr|].
    destruct (IH (x :: seen) Hr) as [[s [[<-|Hs] Es]]|[H|[r' [Hr' Er']]]].
    + right. right. exists x. split; [left; reflexivity | exact Es].
    + left. exists s. tauto.
    + right. left. right. exact H.
    + right. right. exists r'. split; [right; exact Hr' | exact Er'].
Qed.

Lemma cell_eqb_Int64 (a b : cell) :
  int_or_na a -> int_or_na b -> (cell_eqb a b = true <-> a = b).
Proof.
  destruct a, b; simpl; try tauto; intros _ _; cbn [cell_eqb as_number number_eqb];
    split; try discriminate; try reflexivity.
  - intro H. apply Qeq_bool_iff in H. unfold Qeq in H. simpl in H. f_equal. lia.
  - intro H. injection H as <-. apply Qeq_bool_iff. reflexivity.
Qed.

Lemma coerced_Int64 (cols : list string) (r r' : row) (c : string) :
  coerced cols r r' -> In c cols -> int_or_na (get c r').
Proof.
  intros H Hc. specialize (H c Hc).
  destruct (astype_Int64_cell_cases (get c r)) as [[w [Ew [Hw _]]]|[e Ew]]; rewrite Ew in H;
    [|discriminate].
  injection H as <-. exact Hw.
Qed.

Lemma all_fit_spec (d : DataFrame) :
  all_fit d = true
  <-> forall r c, In r (rows d) -> In c (columns d) ->
        forall e, astype_Int64_cell (get c r) <> Raise e.
Proof.
  unfold all_fit. rewrite forallb_forall. split.
  - intros H r c Hr Hc e. specialize (H r Hr). rewrite forallb_forall in H.
    specialize (H c Hc). unfold fits_Int64 in H.
    destruct (astype_Int64_cell (get c r)); [discriminate | discriminate H].
  - intros H r Hr. apply forallb_forall. intros c Hc. specialize (H r c Hr Hc).
    unfold fits_Int64.
    destruct (astype_Int64_cell (get c r)) as [v|e]; [reflexivity|].
    exfalso. exact (H e eq_refl).
Qed.

Lemma columns_have (d : DataFrame) (c : string) : In c (columns d) -> has_column c d = true.
Proof. intro H. apply mem_In. exact H. Qed.

(** The links loader coerces every column to [Int64] and drops repeated
    rows.  When every entry fits, it returns a table with the file's
    columns in which every row is the coerced form of a row read, every row
    read has its coerced form in the table, and no two rows agree in every
    column. *)
Theorem links_loader_coerces_and_deduplicates (d : DataFrame) :
  all_fit d = true ->
  exists out,
    returned (load_movielens_links 0 [d]) = Ok out
    /\ columns out = columns d
    /\ (forall r', In r' (rows out) -> exists r, In r (rows d) /\ coerced (columns d) r r')
    /\ (forall r, In r (rows d) -> exists r', In r' (rows out) /\ coerced (columns d) r r')
    /\ ForallOrdPairs (fun a b => exists c, In c (columns d) /\ get c a <> get c b)
         (rows out).
Proof.
  intro Hfit. rewrite all_fit_spec in Hfit.
  destruct (coerce_columns_run (columns d) d (columns_have d))
    as [[rs' [E Hrel]]|[e [_ [c [r [e' [Hc [Hr Ec]]]]]]]];
    [|exfalso; apply (Hfit r c Hr Hc e' Ec)].
  assert (Erun : load_movielens_links 0 [d]
                 = (Ok 1, [{| columns := columns d; rows := rs' |};
                           drop_duplicates_all {| columns := columns d; rows := rs' |}])).
  { rewrite load_movielens_links_loop. unfold bind at 1. unfold deref at 1. cbn [nth_error].
    unfold bind at 1. rewrite E.
    cbv beta zeta delta [method bind deref lift new]. reflexivity. }
  rewrite Erun. unfold returned. cbn [fst snd nth_error].
  eexists. split; [reflexivity|]. split; [reflexivity|].
  unfold drop_duplicates_all. cbn [columns rows].
  assert (Hints : forall r' c, In r' rs' -> In c (columns d) -> int_or_na (get c r')).
  { intros r' c Hr' Hc. destruct (Forall2_In_r _ _ _ r' Hrel Hr') as [r [_ [Hco _]]].
    apply (coerced_Int64 (columns d) r r' c Hco Hc). }
  assert (Heq : forall a b, In a rs' -> In b rs' -> row_eqb (columns d) a b = true ->
                  forall c, In c (columns d) -> get c a = get c b).
  { intros a b Ha Hb Hab c Hc. unfold row_eqb in Hab. rewrite forallb_forall in Hab.
    apply cell_eqb_Int64; auto. }
  split; [|split].
  - intros r' Hr'. apply first_seen_rows_In in Hr'. destruct Hr' as [Hr' _].
    destruct (Forall2_In_r _ _ _ r' Hrel Hr') as [r [Hr [Hco _]]]. exists r. tauto.
  - intros r Hr. destruct (Forall2_In_l _ _ _ r Hrel Hr) as [r1 [Hr1 [Hco _]]].
    destruct (first_seen_rows_cover (columns d) rs' [] r1 Hr1)
      as [[s [[] _]]|[H|[r' [Hr' Er']]]].
    + exists r1. tauto.
    + exists r'. split; [exact Hr'|]. intros c Hc.
      rewrite <- (Heq r1 r'); [apply Hco; exact Hc | exact Hr1 | | exact Er' | exact Hc].
      apply first_seen_rows_In in Hr'. tauto.
  - pose proof (first_seen_rows_apart (columns d) rs' []) as Hap.
    assert (Hsub : forall x, In x (first_seen_rows (columns d) [] rs') -> In x rs').
    { intros x Hx. apply first_seen_rows_In in Hx. tauto. }
    revert Hap Hsub. generalize (first_seen_rows (columns d) [] rs'). intros l Hap.
    induction Hap as [|a l Ha _ IH]; intro Hsub; constructor.
    + apply Forall_forall. intros b Hb. rewrite Forall_forall in Ha. specialize (Ha b Hb).
      unfold row_eqb in Ha.
      destruct (forallb (fun c => cell_eqb (get c b) (get c a)) (columns d)) eqn:Ef;
        [discriminate|].
      apply not_true_iff_false in Ef. 
      destruct (existsb (fun c => negb (cell_eqb (get c b) (get c a))) (columns d)) eqn:Ex.
      * apply existsb_exists in Ex. destruct Ex as [c [Hc Ec]]. exists c. split; [exact Hc|].
        intro Eab. rewrite Eab in Ec. apply negb_true_iff in Ec.
        assert (cell_eqb (get c b) (get c b) = true) as Hrefl.
        { apply cell_eqb_Int64; auto; apply Hints; auto; apply Hsub; right; exact Hb. }
        congruence.
      * exfalso. apply Ef. apply forallb_forall. intros c Hc.
        destruct (cell_eqb (get c b) (get c a)) eqn:Ec; [reflexivity|].
        assert (existsb (fun c => negb (cell_eqb (get c b) (get c a))) (columns d) = true).
        { apply existsb_exists. exists c. rewrite Ec. tauto. }
        congruence.
    + apply IH. intros x Hx. apply Hsub. right. exact Hx.
Qed.

(** In a links file of finite numbers, an entry that is no integer of the
    64-bit range makes the links loader raise [TypeError]: it returns no
    table. *)
Theorem links_loader_refuses_fractions (d : DataFrame) :
  all_finite d = true ->
  all_fit d = false ->
  fst (load_movielens_links 0 [d]) = Raise TypeError.
Proof.
  intros Hnum Hfit.
  destruct (coerce_columns_run (columns d) d (columns_have d))
    as [[rs' [E Hrel]]|[e [[h E] _]]].
  - exfalso. apply not_true_iff_false in Hfit. apply Hfit. apply all_fit_spec.
    intros r c Hr Hc e Ec. destruct (Forall2_In_l _ _ _ r Hrel Hr) as [r1 [_ [Hco _]]].
    rewrite (Hco c Hc) in Ec. discriminate.
  - assert (He : e = TypeError).
    { apply (coerce_columns_finite (columns d) d e h (columns_have d)); [|exact E].
      intros r c Hr Hc. unfold all_finite in Hnum. rewrite forallb_forall in Hnum.
      specialize (Hnum r Hr). rewrite forallb_forall in Hnum. apply Hnum. exact Hc. }
    subst e.
    rewrite load_movielens_links_loop. unfold bind at 1. unfold deref at 1. cbn [nth_error].
    unfold bind at 1. rewrite E. reflexivity.
Qed.

Lemma set_rows_column {A : Type} (c : string) (f : A -> cell) (g : row -> A) (rs : list row) :
  set_rows c rs (map f (map g rs)) = map (fun r => set_cell c (f (g r)) r) rs.
Proof. rewrite map_map. apply (set_rows_map c (fun r => f (g r))). Qed.

Section NormalizerRun.

Variable literal_eval : string -> option pyval.
Variable str_to_number : string -> option number.
Variable to_datetime : Series -> Series.

Local Abbreviation genre_names := (genre_names literal_eval).
Local Abbreviation normalize := (normalize literal_eval str_to_number to_datetime).

Ltac step_in H := cbn [nth_error List.length app update] in H.

(** One run of the normalizer on a frame with the required columns: the
    frame it was given stays as it was; a cast of the ids that raises ends
    the run with that error; otherwise the run returns the table
    [normalized], with years that fit [Int64], unless the cast of the years
    or [.str] on one of the three text columns raises. *)
Lemma normalize_exec (df : DataFrame) (movie_ids : list Z) (res : result ref) (h : heap) :
  missing_labels required df = [] ->
  normalize df movie_ids = (res, h) ->
  nth_error h 0 = Some df
  /\ match astype_Int64 (to_numeric str_to_number (map (get "id") (rows df))) with
     | Raise e => res = Raise e
     | Ok ids =>
         (res = Ok 6
          /\ nth_error h 6
             = Some (normalized literal_eval str_to_number to_datetime df movie_ids ids)
          /\ Forall int_or_na
               (dt_year_of (map (get "release_date")
                              (dated_rows to_datetime df movie_ids ids))))
         \/ exists e, res = Raise e
                      /\ (e = TypeError \/ e = OverflowError
                          \/ e = AttributeError \/ e = Unmodelled)
     end.
Proof.
  intros Hm Hrun. unfold normalize in Hrun.
  cbv beta zeta delta [filter_transform_metadata method copy reset_index column assign_column
                       inplace origin bind deref lift new assign ret raise for_each] in Hrun.
  step_in Hrun. rewrite Hm in Hrun. step_in Hrun.
  unfold select at 1 in Hrun. rewrite Hm in Hrun. step_in Hrun.
  rewrite getitem_ok in Hrun by reflexivity. cbn [rows] in Hrun. rewrite map_map in Hrun.
  cbn [map required get lookup String.eqb Ascii.eqb Bool.eqb] in Hrun.
  change (map (fun x : row => get "id" x) (rows df)) with (map (get "id") (rows df)) in Hrun.
  destruct (astype_Int64 (to_numeric str_to_number (map (get "id") (rows df))))
    as [ids|e] eqn:Hids;
    [|injection Hrun as <- <-; split; reflexivity].
  step_in Hrun.
  set (A := {| columns := required; rows := _ |}) in Hrun.
  rewrite (getitem_ok (setitem A "id" ids)) in Hrun by reflexivity. step_in Hrun.
  set (B := setitem A "id" ids) in Hrun.
  set (kept := boolean_index B (isin (map (get "id") (rows B)) movie_ids)) in Hrun.
  rewrite (getitem_ok kept) in Hrun by reflexivity. step_in Hrun.
  set (D1 := setitem kept "release_date" _) in Hrun.
  rewrite (getitem_ok D1) in Hrun by reflexivity. step_in Hrun.
  set (D2 := setitem D1 "year" _) in Hrun.
  rewrite (getitem_ok D2) in Hrun by reflexivity. step_in Hrun.
  assert (Hfail : forall e (h' : heap),
            e = TypeError \/ e = OverflowError \/ e = AttributeError \/ e = Unmodelled ->
            (@Raise ref e, df :: h') = (res, h) ->
            nth_error h 0 = Some df
            /\ exists e, res = Raise e
                         /\ (e = TypeError \/ e = OverflowError
                             \/ e = AttributeError \/ e = Unmodelled)).
  { intros e h' He H. injection H as <- <-. split; [reflexivity|]. exists e.
    split; [reflexivity | exact He]. }
  destruct (astype_Int64 (to_numeric str_to_number (map (get "year") (rows D2))))
    as [years|e] eqn:Ey.
  2:{ assert (He : e = TypeError \/ e = OverflowError \/ e = AttributeError \/ e = Unmodelled).
      { destruct (astype_Int64_raises _ _ Ey) as [Hc _]. tauto. }
      destruct (Hfail e _ He Hrun) as [H0 Hr]. split; [exact H0 | right; exact Hr]. }
  pose proof (astype_Int64_integers str_to_number _ years
                (get_set_rows_Forall integer_or_na "year" (rows D1) _ I (dt_year_of_values _))
                Ey) as Eyears.
  pose proof (astype_Int64_values _ _ Ey) as Hyears.
  assert (Hy2 : map (get "year") (rows D2)
                = dt_year_of (map (get "release_date") (rows D1))).
  { unfold D2. cbn [rows setitem]. apply get_set_rows_same.
    unfold dt_year_of. rewrite !length_map. reflexivity. }
  subst years. clear Ey.
  change (Forall int_or_na (map (get "year") (rows D2))) in Hyears.
  rewrite Hy2 in Hyears. clear Hy2. step_in Hrun.
  set (D3 := setitem D2 "year" _) in Hrun.
  rewrite (getitem_ok D3) in Hrun by reflexivity. step_in Hrun.
  set (D4 := setitem D3 "runtime" _) in Hrun.
  rewrite (getitem_ok D4) in Hrun by reflexivity. step_in Hrun.
  set (D5 := setitem D4 "budget" _) in Hrun.
  rewrite (getitem_ok D5) in Hrun by reflexivity. step_in Hrun.
  set (D6 := setitem D5 "revenue" _) in Hrun.
  rewrite (getitem_ok D6) in Hrun by reflexivity. step_in Hrun.
  rewrite (getitem_ok A "imdb_id") in Hrun by reflexivity. step_in Hrun.
  destruct (str_strip_of (map (get "imdb_id") (rows A)) (map (get "imdb_id") (rows D6)))
    as [v7|e] eqn:S7.
  2:{ assert (He : e = TypeError \/ e = OverflowError \/ e = AttributeError \/ e = Unmodelled)
        by (destruct (str_strip_of_raises _ _ _ S7) as [->| ->]; tauto).
      destruct (Hfail e _ He Hrun) as [H0 Hr]. split; [exact H0 | right; exact Hr]. }
  apply str_strip_of_ok in S7. subst v7. step_in Hrun.
  set (D7 := setitem D6 "imdb_id" _) in Hrun.
  rewrite (getitem_ok D7) in Hrun by reflexivity. step_in Hrun.
  rewrite (getitem_ok A "title") in Hrun by reflexivity. step_in Hrun.
  destruct (str_strip_of (map (get "title") (rows A)) (map (get "title") (rows D7)))
    as [v8|e] eqn:S8.
  2:{ assert (He : e = TypeError \/ e = OverflowError \/ e = AttributeError \/ e = Unmodelled)
        by (destruct (str_strip_of_raises _ _ _ S8) as [->| ->]; tauto).
      destruct (Hfail e _ He Hrun) as [H0 Hr]. split; [exact H0 | right; exact Hr]. }
  apply str_strip_of_ok in S8. subst v8. step_in Hrun.
  set (D8 := setitem D7 "title" _) in Hrun.
  rewrite (getitem_ok D8) in Hrun by reflexivity. step_in Hrun.
  rewrite (getitem_ok A "original_language") in Hrun by reflexivity. step_in Hrun.
  destruct (str_strip_of (map (get "original_language") (rows A)) (map (get "original_language") (rows D8)))
    as [v9|e] eqn:S9.
  2:{ assert (He : e = TypeError \/ e = OverflowError \/ e = AttributeError \/ e = Unmodelled)
        by (destruct (str_strip_of_raises _ _ _ S9) as [->| ->]; tauto).
      destruct (Hfail e _ He Hrun) as [H0 Hr]. split; [exact H0 | right; exact Hr]. }
  apply str_strip_of_ok in S9. subst v9. step_in Hrun.
  set (D9 := setitem D8 "original_language" _) in Hrun.
  rewrite (getitem_ok D9) in Hrun by reflexivity. step_in Hrun.
  rewrite (map_result_total _ genre_names) in Hrun by (apply parse_genres_total).
  step_in Hrun.
  set (D10 := setitem D9 "genre_lst" _) in Hrun.
  rewrite (drop_ok D10) in Hrun by reflexivity. step_in Hrun.
  set (D11 := {| columns := filter _ (columns D10); rows := _ |}) in Hrun.
  rewrite (sort_values_ok D11) in Hrun by reflexivity. step_in Hrun.
  apply pair_equal_spec in Hrun. destruct Hrun as [<- <-].
  assert (Hkept : rows kept = kept_rows df movie_ids ids).
  { unfold kept, boolean_index, isin, kept_rows. cbn [rows]. rewrite map_map.
    apply (mask_rows_filter (fun r => in_target movie_ids (get "id" r))). }
  assert (H1 : rows D1 = dated_rows to_datetime df movie_ids ids).
  { unfold D1, dated_rows. cbn [rows setitem]. rewrite Hkept. reflexivity. }
  split; [reflexivity|]. left. split; [reflexivity|].
  split; [|rewrite <- H1; exact Hyears].
  cbn [nth_error]. unfold normalized. do 2 f_equal.
  rewrite <- H1. f_equal.
  assert (E2 : rows D2
               = map (fun r => set_cell "year" (year_of (get "release_date" r)) r) (rows D1))
    by apply (set_rows_column "year" year_of (get "release_date")).
  assert (E3 : rows D3 = map (fun r => set_cell "year" (get "year" r) r) (rows D2))
    by apply (set_rows_map "year" (get "year")).
  assert (E4 : rows D4
               = map (fun r => set_cell "runtime"
                                 (to_numeric_cell str_to_number (get "runtime" r)) r) (rows D3))
    by apply (set_rows_column "runtime" (to_numeric_cell str_to_number) (get "runtime")).
  assert (E5 : rows D5
               = map (fun r => set_cell "budget"
                                 (to_numeric_cell str_to_number (get "budget" r)) r) (rows D4))
    by apply (set_rows_column "budget" (to_numeric_cell str_to_number) (get "budget")).
  assert (E6 : rows D6
               = map (fun r => set_cell "revenue"
                                 (to_numeric_cell str_to_number (get "revenue" r)) r) (rows D5))
    by apply (set_rows_column "revenue" (to_numeric_cell str_to_number) (get "revenue")).
  assert (E7 : rows D7
               = map (fun r => set_cell "imdb_id" (strip_cell (get "imdb_id" r)) r) (rows D6))
    by apply (set_rows_column "imdb_id" strip_cell (get "imdb_id")).
  assert (E8 : rows D8
               = map (fun r => set_cell "title" (strip_cell (get "title" r)) r) (rows D7))
    by apply (set_rows_column "title" strip_cell (get "title")).
  assert (E9 : rows D9
               = map (fun r => set_cell "original_language"
                                 (strip_cell (get "original_language" r)) r) (rows D8))
    by apply (set_rows_column "original_language" strip_cell (get "original_language")).
  assert (E10 : rows D10
                = map (fun r => set_cell "genre_lst"
                                  (Obj (PList (genre_names (get "genres" r)))) r) (rows D9)).
  { unfold D10. cbn [rows setitem]. rewrite (map_map (get "genres") genre_names).
    apply (set_rows_column "genre_lst" (fun l => Obj (PList l))
             (fun r => genre_names (get "genres" r))). }
  unfold D11. cbn [rows]. rewrite E10, E9, E8, E7, E6, E5, E4, E3, E2, !map_map.
  reflexivity.
Qed.

(** The errors of a run on a frame with the required columns. *)
Lemma normalize_raises (df : DataFrame) (movie_ids : list Z) (e : exn) :
  missing_labels required df = [] ->
  fst (normalize df movie_ids) = Raise e ->
  e = TypeError \/ e = OverflowError \/ e = AttributeError \/ e = Unmodelled.
Proof.
  intros Hm He. destruct (normalize df movie_ids) as [res h] eqn:Hrun. cbn [fst] in He.
  destruct (normalize_exec df movie_ids res h Hm Hrun) as [_ H].
  destruct (astype_Int64 (to_numeric str_to_number (map (get "id") (rows df))))
    as [ids|e'] eqn:E.
  - destruct H as [[H _]|[e' [H He']]]; rewrite H in He; [discriminate|].
    injection He as <-. exact He'.
  - rewrite H in He. injection He as <-.
    destruct (astype_Int64_raises _ _ E) as [Hc _]. tauto.
Qed.

(** A cast of the ids that raises ends the run with that error. *)
Lemma normalize_stops_at_cast (df : DataFrame) (movie_ids : list Z) (e : exn) :
  missing_labels required df = [] ->
  astype_Int64 (to_numeric str_to_number (map (get "id") (rows df))) = Raise e ->
  fst (normalize df movie_ids) = Raise e.
Proof.
  intros Hm E. destruct (normalize df movie_ids) as [res h] eqn:Hrun.
  destruct (normalize_exec df movie_ids res h Hm Hrun) as [_ H].
  rewrite E in H. exact H.
Qed.

(** Whenever the normalizer returns, the ids were cast and it returns the
    table [normalized]. *)
Lemma normalize_returns_frame (df : DataFrame) (movie_ids : list Z) (out : DataFrame) :
  returned (normalize df movie_ids) = Ok out ->
  missing_labels required df = []
  /\ exists ids,
       astype_Int64 (to_numeric str_to_number (map (get "id") (rows df))) = Ok ids
       /\ out = normalized literal_eval str_to_number to_datetime df movie_ids ids
       /\ Forall int_or_na
            (dt_year_of (map (get "release_date")
                           (dated_rows to_datetime df movie_ids ids))).
Proof.
  intro Hout.
  destruct (missing_labels required df) as [|c l] eqn:Hm.
  2:{ exfalso. rewrite (normalize_missing literal_eval str_to_number to_datetime) in Hout
        by (rewrite Hm; discriminate).
      discriminate. }
  split; [reflexivity|].
  destruct (normalize df movie_ids) as [res h] eqn:Hrun.
  destruct (normalize_exec df movie_ids res h Hm Hrun) as [_ H].
  unfold returned in Hout. cbn [fst snd] in Hout.
  destruct (astype_Int64 (to_numeric str_to_number (map (get "id") (rows df))))
    as [ids|e] eqn:E.
  - destruct H as [[-> [H6 Hy]]|[e [-> _]]]; [|discriminate].
    rewrite H6 in Hout. injection Hout as <-. exists ids.
    split; [reflexivity|]. split; [reflexivity | exact Hy].
  - subst res. discriminate.
Qed.

(** Claim C4: [filter_transform_metadata] raises its KeyError exactly when
    one of the nine required columns is absent from the frame; the error
    then names the absent required columns and no others, in sorted order,
    and the store is as it was before the call: nothing else was done. *)
Theorem missing_columns_raise_KeyError (df : DataFrame) (movie_ids : list Z) :
  ((exists c, In c required /\ ~ In c (columns df))
   <-> exists labels, fst (normalize df movie_ids) = Raise (KeyError labels))
  /\ forall labels,
       fst (normalize df movie_ids) = Raise (KeyError labels) ->
       (forall c, In c labels <-> In c required /\ ~ In c (columns df))
       /\ labels = sorted (missing_labels required df)
       /\ snd (normalize df movie_ids) = [df].
Proof.
  assert (Hno : missing_labels required df = [] ->
                forall labels, fst (normalize df movie_ids) <> Raise (KeyError labels)).
  { intros Hm labels He.
    destruct (normalize_raises df movie_ids _ Hm He) as [H|[H|[H|H]]]; discriminate H. }
  split.
  - split.
    + intros [c Hc]. exists (sorted (missing_labels required df)).
      rewrite (normalize_missing literal_eval str_to_number to_datetime); [reflexivity|].
      intro Hm. apply missing_labels_In in Hc. rewrite Hm in Hc. exact Hc.
    + intros [labels Hl].
      destruct (missing_labels required df) as [|c l] eqn:Hm;
        [exfalso; exact (Hno eq_refl labels Hl)|].
      exists c. apply missing_labels_In. rewrite Hm. left. reflexivity.
  - intros labels Hl.
    destruct (missing_labels required df) as [|c l] eqn:Hm;
      [exfalso; exact (Hno eq_refl labels Hl)|].
    assert (Hne : missing_labels required df <> []) by (rewrite Hm; discriminate).
    rewrite (normalize_missing literal_eval str_to_number to_datetime df movie_ids Hne)
      in Hl |- *.
    cbn [fst snd] in Hl |- *.
    injection Hl as <-. rewrite <- Hm. split; [|split; reflexivity].
    intro c'. rewrite sorted_In. exact (missing_labels_In required df c').
Qed.

(** The normalizer leaves the frame it was given as it was, whatever the
    outcome. *)
Theorem normalizer_keeps_its_input (df : DataFrame) (movie_ids : list Z) :
  object_after (normalize df movie_ids) 0 = Some df.
Proof.
  unfold object_after.
  destruct (missing_labels required df) as [|c l] eqn:Hm.
  - destruct (normalize df movie_ids) as [res h] eqn:Hrun.
    destruct (normalize_exec df movie_ids res h Hm Hrun) as [H _]. exact H.
  - rewrite (normalize_missing literal_eval str_to_number to_datetime)
      by (rewrite Hm; discriminate).
    reflexivity.
Qed.

End NormalizerRun.

(** ** Rows on their way through the normalizer *)

Lemma get_set_cell (c c' : string) (v : cell) (r : row) :
  get c' (set_cell c v r) = if String.eqb c' c then v else get c' r.
Proof. unfold get. rewrite lookup_set_cell. destruct (String.eqb c' c); reflexivity. Qed.

Lemma get_filter (P : string -> bool) (c : string) (r : row) :
  get c (filter (fun p => P (fst p)) r) = if P c then get c r else NA.
Proof. unfold get. rewrite lookup_filter. destruct (P c); reflexivity. Qed.

Lemma keys_set_cell (c : string) (v : cell) (r : row) :
  map fst (set_cell c v r) = if mem c (map fst r) then map fst r else map fst r ++ [c].
Proof.
  destruct (mem c (map fst r)) eqn:E.
  - apply keys_set_cell_present. apply mem_In. exact E.
  - rewrite set_cell_absent by (apply mem_false; exact E). rewrite map_app. reflexivity.
Qed.

Lemma get_set_by_same (c : string) (f : row -> cell) (r : row) :
  get c (set_by c f r) = f r.
Proof. unfold set_by. rewrite get_set_cell, String.eqb_refl. reflexivity. Qed.

Lemma get_set_by_other (c c' : string) (f : row -> cell) (r : row) :
  c' <> c -> get c' (set_by c f r) = get c' r.
Proof. intro H. apply get_set_cell_other. exact H. Qed.

Lemma keys_set_by (c : string) (f : row -> cell) (r : row) (keys : list string) :
  map fst r = keys ->
  map fst (set_by c f r) = if mem c keys then keys else keys ++ [c].
Proof. intros <-. apply keys_set_cell. Qed.

Lemma keys_filter (P : string -> bool) (r : row) :
  map fst (filter (fun p => P (fst p)) r) = filter P (map fst r).
Proof.
  induction r as [|[k v] r IH]; simpl; [reflexivity|].
  destruct (P k); simpl; rewrite IH; reflexivity.
Qed.

Lemma keys_set_rows (c : string) (rs : list row) (s : Series) (cols : list string) :
  In c cols -> Forall (fun r => map fst r = cols) rs ->
  Forall (fun r => map fst r = cols) (set_rows c rs s).
Proof.
  intros Hc H. revert s. induction H as [|r rs Hr _ IH]; intro s; simpl; constructor.
  - rewrite keys_set_cell_present; [exact Hr | rewrite Hr; exact Hc].
  - apply IH.
Qed.

Lemma in_set_rows_other (c : string) (rs : list row) (s : Series) (r' : row) :
  In r' (set_rows c rs s) ->
  exists r, In r rs /\ forall c', c' <> c -> get c' r' = get c' r.
Proof.
  intro H. apply in_set_rows in H. destruct H as [r [v [Hr ->]]].
  exists r. split; [exact Hr|]. intros c' Hne. apply get_set_cell_other. exact Hne.
Qed.

Lemma in_set_rows_Forall2 (c : string) (P : row -> cell -> Prop) (rs : list row)
    (s : Series) (r' : row) :
  Forall2 P rs s -> In r' (set_rows c rs s) ->
  exists r v, In r rs /\ P r v /\ r' = set_cell c v r.
Proof.
  intro H. induction H as [|r v rs s Hrv _ IH]; simpl; [tauto|].
  intros [<-|Hin].
  - exists r, v. tauto.
  - destruct (IH Hin) as [r0 [v0 [H0 [P0 E0]]]]. exists r0, v0. tauto.
Qed.

Lemma Forall2_map_left {A B C : Type} (f : A -> B) (P : B -> C -> Prop) (l : list A)
    (s : list C) :
  Forall2 P (map f l) s -> Forall2 (fun a c => P (f a) c) l s.
Proof.
  revert s. induction l as [|a l IH]; intros s H; inversion H; subst; constructor; auto.
Qed.

Lemma Forall2_map_origin {A B C : Type} (f : A -> B) (Q : A -> C -> Prop) (l : list A)
    (s : list C) :
  Forall2 Q l s ->
  Forall2 (fun b c => exists a, In a l /\ b = f a /\ Q a c) (map f l) s.
Proof.
  induction 1 as [|a c l s Hac _ IH]; simpl; constructor.
  - exists a. split; [left; reflexivity|]. split; [reflexivity | exact Hac].
  - revert IH. apply Forall2_impl. intros b c' [a' [Ha' [E Q']]].
    exists a'. split; [right; exact Ha'|]. split; assumption.
Qed.

(** ** Sorting rows with integer keys *)

Lemma sort_leb_Int (x y : Z) : sort_leb (Int x) (Int y) = (x <=? y)%Z.
Proof.
  unfold sort_leb. cbn [as_number number_leb].
  destruct (Z.leb_spec x y) as [H|H].
  - apply Qle_bool_iff. unfold Qle. simpl. lia.
  - destruct (Qle_bool (inject_Z x) (inject_Z y)) eqn:E; [|reflexivity].
    apply Qle_bool_iff in E. unfold Qle in E. simpl in E. lia.
Qed.

Lemma insert_row_sorted (key : row -> cell) (r : row) (l : list row) :
  (exists z, key r = Int z) ->
  Forall (fun s => exists z, key s = Int z) l ->
  StronglySorted (fun a b => id_le (key a) (key b)) l ->
  StronglySorted (fun a b => id_le (key a) (key b)) (insert_row key r l).
Proof.
  intros [z Hz] Hint Hs. induction Hs as [|s l Hs IH Hall]; simpl.
  - constructor; [constructor | constructor].
  - inversion Hint as [|s' l' [y Hy] Hint']; subst.
    rewrite Hz, Hy, sort_leb_Int. destruct (Z.leb_spec z y) as [Hle|Hlt].
    + constructor; [constructor; assumption|].
      constructor.
      * rewrite Hz, Hy. exact Hle.
      * rewrite Forall_forall in Hall |- *. intros b Hb. specialize (Hall b Hb).
        rewrite Hy in Hall. rewrite Hz. destruct (key b); try contradiction.
        simpl in *. lia.
    + constructor; [apply IH; exact Hint'|].
      apply Forall_forall. intros b Hb.
      apply (Permutation_in _ (insert_row_perm key r l)) in Hb.
      destruct Hb as [<-|Hb].
      * rewrite Hy, Hz. simpl. lia.
      * rewrite Forall_forall in Hall. apply Hall. exact Hb.
Qed.

Lemma sort_rows_sorted (key : row -> cell) (l : list row) :
  Forall (fun s => exists z, key s = Int z) l ->
  StronglySorted (fun a b => id_le (key a) (key b)) (fold_right (insert_row key) [] l).
Proof.
  induction 1 as [|r l Hr Hl IH]; simpl; [constructor|].
  apply insert_row_sorted; [exact Hr | | exact IH].
  apply Forall_forall. intros s Hs.
  apply (Permutation_in _ (sort_rows_perm key l)) in Hs.
  rewrite Forall_forall in Hl. apply Hl. exact Hs.
Qed.

Section NormalizedTable.

Variable literal_eval : string -> option pyval.
Variable str_to_number : string -> option number.
Variable to_datetime : Series -> Series.

Local Abbreviation genre_names := (genre_names literal_eval).
Local Abbreviation normalize := (normalize literal_eval str_to_number to_datetime).

Lemma finish_row_keys (r : row) :
  map fst r = required ->
  map fst (finish_row literal_eval str_to_number r) = normalized_columns.
Proof.
  intro Hk. unfold finish_row.
  rewrite (keys_filter (fun k => negb (mem k ["genres"]))).
  rewrite (keys_set_by "genre_lst" _ _ (required ++ ["year"])); [reflexivity|].
  do 7 (rewrite (keys_set_by _ _ _ (required ++ ["year"])); [reflexivity|]).
  rewrite (keys_set_by "year" _ _ required); [reflexivity | exact Hk].
Qed.

Lemma finish_row_fields (r : row) :
  let r' := finish_row literal_eval str_to_number r in
  get "id" r' = get "id" r
  /\ get "release_date" r' = get "release_date" r
  /\ get "year" r' = year_of (get "release_date" r)
  /\ get "runtime" r' = to_numeric_cell str_to_number (get "runtime" r)
  /\ get "budget" r' = to_numeric_cell str_to_number (get "budget" r)
  /\ get "revenue" r' = to_numeric_cell str_to_number (get "revenue" r)
  /\ get "imdb_id" r' = strip_cell (get "imdb_id" r)
  /\ get "title" r' = strip_cell (get "title" r)
  /\ get "original_language" r' = strip_cell (get "original_language" r)
  /\ get "genre_lst" r' = Obj (PList (genre_names (get "genres" r))).
Proof.
  cbv zeta. unfold finish_row.
  repeat split; rewrite (get_filter (fun k => negb (mem k ["genres"])));
    cbn [negb mem existsb orb String.eqb Ascii.eqb Bool.eqb];
    repeat (first [ rewrite get_set_by_same | rewrite get_set_by_other by discriminate ];
            cbv beta);
    reflexivity.
Qed.

Lemma dated_rows_keys (df : DataFrame) (movie_ids : list Z) (ids : Series) :
  Forall (fun r => map fst r = required) (dated_rows to_datetime df movie_ids ids).
Proof.
  unfold dated_rows, kept_rows.
  apply keys_set_rows; [simpl; tauto|].
  apply Forall_forall. intros r Hr. apply filter_In in Hr. destruct Hr as [Hr _].
  revert r Hr. apply Forall_forall.
  apply keys_set_rows; [simpl; tauto|].
  apply Forall_forall. intros r Hr. apply in_map_iff in Hr. destruct Hr as [r0 [<- _]].
  reflexivity.
Qed.

(** A row on its way to the later steps comes from a row of the input
    whose coerced id lies among the target ids; its other fields, the
    release date apart, are as they were read. *)
Lemma dated_rows_from (df : DataFrame) (movie_ids : list Z) (ids : Series) (r : row) :
  astype_Int64 (to_numeric str_to_number (map (get "id") (rows df))) = Ok ids ->
  In r (dated_rows to_datetime df movie_ids ids) ->
  exists r0 z,
    In r0 (rows df)
    /\ astype_Int64_cell (to_numeric_cell str_to_number (get "id" r0)) = Ok (Int z)
    /\ In z movie_ids
    /\ get "id" r = Int z
    /\ forall c, In c required -> c <> "id" -> c <> "release_date" -> get c r = get c r0.
Proof.
  intros Hids Hr. unfold dated_rows in Hr.
  apply in_set_rows_other in Hr. destruct Hr as [rk [Hrk Hother]].
  unfold kept_rows in Hrk. apply filter_In in Hrk. destruct Hrk as [Hrk Htarget].
  assert (HF : Forall2 (fun (ra : row) (v : cell) =>
                          exists r0, In r0 (rows df)
                            /\ ra = map (fun c => (c, get c r0)) required
                            /\ astype_Int64_cell (to_numeric_cell str_to_number (get "id" r0))
                               = Ok v)
                 (map (fun r => map (fun c => (c, get c r)) required) (rows df)) ids).
  { apply astype_Int64_cells, map_result_Forall2 in Hids.
    unfold to_numeric in Hids. rewrite map_map in Hids.
    apply Forall2_map_left in Hids.
    apply (Forall2_map_origin (fun r => map (fun c => (c, get c r)) required)) in Hids.
    exact Hids. }
  destruct (in_set_rows_Forall2 "id" _ _ _ rk HF Hrk) as [ra [v [_ [[r0 [Hr0 [-> Hv]]] ->]]]].
  rewrite get_set_cell in Htarget. cbn [String.eqb Ascii.eqb Bool.eqb] in Htarget.
  apply in_target_In in Htarget. destruct Htarget as [z [-> Hz]].
  exists r0, z. split; [exact Hr0|]. split; [exact Hv|]. split; [exact Hz|]. split.
  - rewrite Hother by discriminate. rewrite get_set_cell. reflexivity.
  - intros c Hc Hid Hdate. rewrite (Hother c Hdate), get_set_cell_other by exact Hid.
    unfold get. clear -Hc. simpl in Hc.
    repeat (destruct Hc as [<-|Hc]; [reflexivity|]). destruct Hc.
Qed.


(** The rows of the table come from the rows on their way. *)
Lemma in_normalized (df : DataFrame) (movie_ids : list Z) (ids : Series) (r : row) :
  In r (rows (normalized literal_eval str_to_number to_datetime df movie_ids ids)) ->
  exists rd, In rd (dated_rows to_datetime df movie_ids ids)
             /\ r = finish_row literal_eval str_to_number rd.
Proof.
  unfold normalized. cbn [rows]. intro Hr.
  apply (Permutation_in _ (sort_rows_perm _ _)) in Hr.
  apply in_map_iff in Hr. destruct Hr as [rd [<- Hrd]]. exists rd. tauto.
Qed.


(** Every table the normalizer returns has ten columns, the nine it
    requires with [genres] replaced by [year] and [genre_lst] at the end,
    and every row carries exactly these. *)
Theorem normalized_table_schema (df : DataFrame) (movie_ids : list Z) :
  forall out,
    returned (normalize df movie_ids) = Ok out ->
    columns out = normalized_columns
    /\ wf out.
Proof.
  intros out Hout.
  destruct (normalize_returns_frame _ _ _ df movie_ids out Hout) as [_ [ids [Hids [-> _]]]].
  split; [reflexivity|].
  unfold wf. apply Forall_forall. intros r Hr.
  apply in_normalized in Hr. destruct Hr as [rd [Hrd ->]].
  apply finish_row_keys.
  pose proof (dated_rows_keys df movie_ids ids) as Hk. rewrite Forall_forall in Hk.
  apply Hk. exact Hrd.
Qed.

(** The rows of every table the normalizer returns are in ascending order
    of their id. *)
Theorem normalized_rows_are_sorted_by_id (df : DataFrame) (movie_ids : list Z) :
  forall out,
    returned (normalize df movie_ids) = Ok out ->
    StronglySorted (fun a b => id_le (get "id" a) (get "id" b)) (rows out).
Proof.
  intros out Hout.
  destruct (normalize_returns_frame _ _ _ df movie_ids out Hout) as [_ [ids [Hids [-> _]]]].
  unfold normalized. cbn [rows].
  apply sort_rows_sorted. apply Forall_forall. intros r Hr.
  apply in_map_iff in Hr. destruct Hr as [rd [<- Hrd]].
  destruct (dated_rows_from df movie_ids ids rd Hids Hrd) as [r0 [z [_ [_ [_ [Hz _]]]]]].
  exists z. destruct (finish_row_fields rd) as [E _]. rewrite E. exact Hz.
Qed.

(** In every row of every table the normalizer returns, [year] is the year
    of the row's parsed release date, an integer of [Int64], and missing
    when the date is. *)
Theorem year_is_the_year_of_the_release_date (df : DataFrame) (movie_ids : list Z) :
  forall out,
    returned (normalize df movie_ids) = Ok out ->
    forall r, In r (rows out) ->
      get "year" r = year_of (get "release_date" r)
      /\ int_or_na (get "year" r).
Proof.
  intros out Hout r Hr.
  destruct (normalize_returns_frame _ _ _ df movie_ids out Hout) as [_ [ids [Hids [-> Hy]]]].
  apply in_normalized in Hr. destruct Hr as [rd [Hrd ->]].
  destruct (finish_row_fields rd) as [_ [E1 [E2 _]]]. rewrite E1, E2.
  split; [reflexivity|].
  rewrite Forall_forall in Hy. apply Hy. unfold dt_year_of.
  apply (in_map (fun c => match c with Timestamp t => Int (dt_year t) | _ => NA end)
           _ (get "release_date" rd)).
  apply in_map. exact Hrd.
Qed.

(** Every row of every table the normalizer returns comes from a row of the
    input whose id coerces to an integer among the target ids: it carries
    that integer as its id, the input's text fields trimmed, its numeric
    fields coerced, and the names [parse_genres] reads in its [genres] as
    [genre_lst]. *)
Theorem normalized_rows_come_from_the_catalog (df : DataFrame) (movie_ids : list Z) :
  forall out,
    returned (normalize df movie_ids) = Ok out ->
    forall r, In r (rows out) ->
      exists r0 z,
        In r0 (rows df)
        /\ astype_Int64_cell (to_numeric_cell str_to_number (get "id" r0)) = Ok (Int z)
        /\ In z movie_ids
        /\ get "id" r = Int z
        /\ (forall c, In c ["imdb_id"; "title"; "original_language"] ->
              get c r = strip_cell (get c r0))
        /\ (forall c, In c ["runtime"; "budget"; "revenue"] ->
              get c r = to_numeric_cell str_to_number (get c r0))
        /\ get "genre_lst" r = Obj (PList (genre_names (get "genres" r0))).
Proof.
  intros out Hout r Hr.
  destruct (normalize_returns_frame _ _ _ df movie_ids out Hout) as [_ [ids [Hids [-> _]]]].
  apply in_normalized in Hr. destruct Hr as [rd [Hrd ->]].
  destruct (dated_rows_from df movie_ids ids rd Hids Hrd)
    as [r0 [z [Hr0 [Hv [Hz [Hid Hother]]]]]].
  destruct (finish_row_fields rd) as [E0 [_ [_ [E1 [E2 [E3 [E4 [E5 [E6 E7]]]]]]]]].
  exists r0, z. split; [exact Hr0|]. split; [exact Hv|]. split; [exact Hz|].
  split; [rewrite E0; exact Hid|]. split; [|split].
  - intros c [<-|[<-|[<-|[]]]].
    + rewrite E4, Hother; [reflexivity | simpl; tauto | discriminate | discriminate].
    + rewrite E5, Hother; [reflexivity | simpl; tauto | discriminate | discriminate].
    + rewrite E6, Hother; [reflexivity | simpl; tauto | discriminate | discriminate].
  - intros c [<-|[<-|[<-|[]]]].
    + rewrite E1, Hother; [reflexivity | simpl; tauto | discriminate | discriminate].
    + rewrite E2, Hother; [reflexivity | simpl; tauto | discriminate | discriminate].
    + rewrite E3, Hother; [reflexivity | simpl; tauto | discriminate | discriminate].
  - rewrite E7, Hother; [reflexivity | simpl; tauto | discriminate | discriminate].
Qed.

(** In a catalog whose ids are finite numbers once coerced, one id that is
    no integer of the 64-bit range, anywhere in the catalog, makes the
    normalizer raise [TypeError]: the cast comes before the filter, so it
    does not matter whether the id is a target id. *)
Theorem fractional_id_raises_TypeError (df : DataFrame) (movie_ids : list Z) (r : row) :
  missing_labels required df = [] ->
  forallb (fun r' => finite_or_na (to_numeric_cell str_to_number (get "id" r'))) (rows df)
  = true ->
  In r (rows df) ->
  fits_Int64 (to_numeric_cell str_to_number (get "id" r)) = false ->
  fst (normalize df movie_ids) = Raise TypeError.
Proof.
  intros Hm Hnum Hr Hfit.
  destruct (astype_Int64 (to_numeric str_to_number (map (get "id") (rows df))))
    as [ids|e] eqn:E.
  - exfalso. apply astype_Int64_cells, map_result_Forall2 in E.
    unfold to_numeric in E. rewrite map_map in E.
    apply Forall2_map_left in E.
    destruct (Forall2_In_l _ _ _ r E Hr) as [v [_ Hv]].
    unfold fits_Int64 in Hfit. rewrite Hv in Hfit. discriminate.
  - rewrite (normalize_stops_at_cast _ _ _ df movie_ids e Hm E). f_equal.
    refine (astype_Int64_finite_raises _ e _ E).
    unfold to_numeric. rewrite map_map. rewrite forallb_forall in Hnum |- *.
    intros c Hc. apply in_map_iff in Hc. destruct Hc as [r' [<- Hr']].
    apply Hnum. exact Hr'.
Qed.

End NormalizedTable.

(** ** More on the expanded table *)

(** A frame without a [genre_lst] column makes the expander raise
    [KeyError] for it, and nothing is allocated. *)
Theorem expander_needs_genre_lst (df : DataFrame) :
  has_column "genre_lst" df = false ->
  expand df = (Raise (KeyError ["genre_lst"]), [df]).
Proof.
  intro H. unfold expand.
  cbv beta zeta delta [one_hot_encode_genres column bind deref lift].
  cbn [nth_error]. unfold getitem. rewrite H. reflexivity.
Qed.

Lemma lookup_indicators (vocabulary labels : list string) (g : string) :
  lookup g (indicators vocabulary labels)
  = if mem g vocabulary then Some (Int (if mem g labels then 1 else 0)%Z) else None.
Proof.
  unfold indicators. induction vocabulary as [|v vs IH]; simpl; [reflexivity|].
  destruct (String.eqb_spec g v) as [->|Hne]; [reflexivity | exact IH].
Qed.

Lemma keys_indicators (vocabulary labels : list string) :
  map fst (indicators vocabulary labels) = vocabulary.
Proof. unfold indicators. rewrite map_map. simpl. apply map_id. Qed.

Lemma in_zip_rows (a b : list row) (o : row) :
  In o (zip_rows a b) -> exists r s, In r a /\ In s b /\ o = r ++ s.
Proof.
  revert b. induction a as [|x a IH]; intros [|y b]; simpl; try tauto.
  intros [<-|H].
  - exists x, y. tauto.
  - destruct (IH b H) as [r [s [Hr [Hs ->]]]]. exists r, s. tauto.
Qed.

(** In the expanded table the indicator of a genre, looked up by the
    genre's name, is 1 for the records that list the genre, however often,
    and 0 for the others, and every field of the input but [genre_lst] is
    where it was; this for a frame whose rows carry its columns and no
    genre is named like a column. *)
Theorem indicator_is_one_for_the_listed_genres (df : DataFrame) (y : list (list string)) :
  has_column "genre_lst" df = true ->
  map_result labels_of (map (get "genre_lst") (rows df)) = Ok y ->
  wf df ->
  (forall g, In g (classes_ y) -> ~ In g (columns df)) ->
  exists out,
    returned (expand df) = Ok out
    /\ forall i r, nth_error (rows df) i = Some r ->
         exists o labels,
           nth_error (rows out) i = Some o
           /\ labels_of (get "genre_lst" r) = Ok labels
           /\ (forall g, In g (classes_ y) ->
                 lookup g o = Some (Int (if mem g labels then 1 else 0)%Z))
           /\ (forall c, c <> "genre_lst" -> In c (columns df) -> lookup c o = lookup c r)
           /\ lookup "genre_lst" o = None.
Proof.
  intros Hc Hy Hwf Hfresh. eexists. split.
  { unfold returned. rewrite (expand_run df y Hc Hy). cbn [fst snd nth_error]. reflexivity. }
  cbn [rows]. intros i r Hr.
  destruct (map_result_nth labels_of _ y i (get "genre_lst" r) Hy) as [labels [Hl Hf]].
  { apply map_nth_error. exact Hr. }
  exists (filter (fun p => negb (mem (fst p) ["genre_lst"])) r ++ indicators (classes_ y) labels),
    labels.
  split; [apply nth_error_zip_rows; apply map_nth_error; assumption|].
  split; [exact Hf|].
  assert (Hk : map fst r = columns df).
  { unfold wf in Hwf. rewrite Forall_forall in Hwf. apply Hwf.
    apply (nth_error_In _ _ Hr). }
  split; [|split].
  - intros g Hg. rewrite lookup_app, (lookup_filter (fun k => negb (mem k ["genre_lst"]))).
    replace (lookup g r) with (@None cell)
      by (symmetry; apply lookup_None; rewrite Hk; apply Hfresh; exact Hg).
    destruct (negb (mem g ["genre_lst"])); rewrite lookup_indicators;
      replace (mem g (classes_ y)) with true by (symmetry; apply mem_In; exact Hg);
      reflexivity.
  - intros c Hne Hcol.
    rewrite lookup_app, (lookup_filter (fun k => negb (mem k ["genre_lst"]))).
    replace (mem c ["genre_lst"]) with false
      by (symmetry; apply mem_false; simpl; intros [E|[]]; apply Hne; symmetry; exact E).
    cbn [negb].
    destruct (lookup_in_keys c r) as [v Ev]; [rewrite Hk; exact Hcol|].
    rewrite Ev. reflexivity.
  - rewrite lookup_app, (lookup_filter (fun k => negb (mem k ["genre_lst"]))).
    cbn [mem existsb String.eqb Ascii.eqb Bool.eqb orb negb].
    rewrite lookup_indicators.
    replace (mem "genre_lst" (classes_ y)) with false; [reflexivity|].
    symmetry. apply mem_false. intro Hin. apply (Hfresh _ Hin). apply mem_In. exact Hc.
Qed.

(** On a frame whose rows carry its columns, the columns being pairwise
    distinct and no genre named like one of them, the expanded table is of
    the same kind: its labels are pairwise distinct and every row carries
    exactly them. *)
Theorem expanded_table_is_well_formed (df : DataFrame) (y : list (list string)) :
  has_column "genre_lst" df = true ->
  map_result labels_of (map (get "genre_lst") (rows df)) = Ok y ->
  wf df ->
  NoDup (columns df) ->
  (forall g, In g (classes_ y) -> ~ In g (columns df)) ->
  exists out,
    returned (expand df) = Ok out
    /\ wf out
    /\ NoDup (columns out)
    /\ forall c, In c (columns out) <-> (In c (columns df) /\ c <> "genre_lst") \/ In c (classes_ y).
Proof.
  intros Hc Hy Hwf Hnd Hfresh. eexists. split.
  { unfold returned. rewrite (expand_run df y Hc Hy). cbn [fst snd nth_error]. reflexivity. }
  cbn [rows columns]. split; [|split].
  - unfold wf. cbn [rows columns]. apply Forall_forall. intros o Ho.
    apply in_zip_rows in Ho. destruct Ho as [r [s [Hr [Hs ->]]]].
    apply in_map_iff in Hr. destruct Hr as [r0 [<- Hr0]].
    apply in_map_iff in Hs. destruct Hs as [labels [<- _]].
    rewrite map_app, keys_indicators, (keys_filter (fun k => negb (mem k ["genre_lst"]))).
    unfold wf in Hwf. rewrite Forall_forall in Hwf. rewrite (Hwf r0 Hr0). reflexivity.
  - apply NoDup_app; [apply NoDup_filter; exact Hnd | apply classes_NoDup|].
    intros c Hin Hcl. apply filter_In in Hin. apply (Hfresh c Hcl). tauto.
  - intro c. rewrite in_app_iff, filter_In, negb_true_iff, mem_false. simpl.
    split; intros [[H1 H2]|H]; try (right; exact H); left; split; try exact H1.
    + intro E. apply H2. left. symmetry. exact E.
    + intros [E|[]]. apply H2. symmetry. exact E.
Qed.

Lemma unique_from_In (seen : list cell) (s : Series) (c : cell) :
  Forall int_or_na s -> Forall int_or_na seen ->
  (In c (unique_from seen s) <-> In c s /\ ~ In c seen).
Proof.
  intro Hs. revert seen. induction Hs as [|x s Hx Hs IH]; intros seen Hseen; simpl; [tauto|].
  assert (Hex : existsb (cell_eqb x) seen = true <-> In x seen).
  { rewrite existsb_exists. split.
    - intros [k [Hk E]]. rewrite Forall_forall in Hseen.
      apply cell_eqb_Int64 in E; [subst; exact Hk | exact Hx | apply Hseen; exact Hk].
    - intro H. exists x. split; [exact H|]. apply cell_eqb_Int64; auto. }
  destruct (existsb (cell_eqb x) seen) eqn:E.
  - rewrite (IH seen Hseen). destruct Hex as [Hex _]. specialize (Hex eq_refl).
    split; [tauto|]. intros [[<-|H] Hn]; [contradiction | tauto].
  - simpl. rewrite (IH (x :: seen)) by (constructor; assumption). simpl.
    assert (~ In x seen) by (intro H; apply Hex in H; discriminate).
    split.
    + intros [<-|[H1 H2]]; [tauto|]. split; [tauto|]. intro H3. apply H2. tauto.
    + intros [[<-|H1] H2]; [tauto|].
      destruct (cell_eqb x c) eqn:Exc.
      * left. rewrite Forall_forall in Hs.
        apply cell_eqb_Int64 in Exc; [exact Exc | exact Hx | apply Hs; exact H1].
      * right. split; [exact H1|]. intros [<-|H3]; [|tauto].
        assert (cell_eqb x x = true) by (apply cell_eqb_Int64; auto). congruence.
Qed.

Lemma unique_from_NoDup (seen : list cell) (s : Series) :
  Forall int_or_na s -> Forall int_or_na seen -> NoDup (unique_from seen s).
Proof.
  intro Hs. revert seen. induction Hs as [|x s Hx Hs IH]; intros seen Hseen; simpl;
    [constructor|].
  destruct (existsb (cell_eqb x) seen); [apply IH; exact Hseen|].
  constructor; [|apply IH; constructor; assumption].
  rewrite unique_from_In by (try constructor; assumption). simpl. tauto.
Qed.

Lemma integers_In (s : Series) (z : Z) : In z (integers s) <-> In (Int z) s.
Proof.
  unfold integers. rewrite in_flat_map. split.
  - intros [c [Hc Hz]]. destruct c; simpl in Hz; try tauto.
    destruct Hz as [<-|[]]. exact Hc.
  - intro H. exists (Int z). split; [exact H | left; reflexivity].
Qed.

Lemma integers_NoDup (s : Series) : NoDup s -> NoDup (integers s).
Proof.
  unfold integers. induction 1 as [|c s Hc _ IH]; simpl; [constructor|].
  destruct c; simpl; try exact IH. constructor; [|exact IH].
  intro H. apply Hc. apply integers_In. exact H.
Qed.

Lemma dropna_Int64 (s : Series) :
  Forall int_or_na s -> Forall int_or_na (filter (fun c => negb (isna c)) s).
Proof.
  intro H. apply Forall_forall. intros c Hin. apply filter_In in Hin.
  rewrite Forall_forall in H. apply H. tauto.
Qed.

Lemma movie_ids_value (L : DataFrame) :
  has_column "tmdbId" L = true ->
  Forall int_or_na (map (get "tmdbId") (rows L)) ->
  movie_ids L
  = Ok (integers (unique (filter (fun c => negb (isna c)) (map (get "tmdbId") (rows L))))).
Proof.
  intros Hc Hint. unfold movie_ids. rewrite (getitem_ok L "tmdbId" Hc). cbn [bind_result].
  rewrite (astype_Int64_same _ (dropna_Int64 _ Hint)). reflexivity.
Qed.

Lemma movie_ids_In (L : DataFrame) (z : Z) :
  Forall int_or_na (map (get "tmdbId") (rows L)) ->
  In z (integers (unique (filter (fun c => negb (isna c)) (map (get "tmdbId") (rows L)))))
  <-> exists l, In l (rows L) /\ get "tmdbId" l = Int z.
Proof.
  intro Hint. rewrite integers_In. unfold unique.
  rewrite unique_from_In by (try apply dropna_Int64; try constructor; assumption).
  rewrite filter_In, in_map_iff. simpl. split.
  - intros [[[l [El Hl]] _] _]. exists l. tauto.
  - intros [l [Hl El]]. split; [|tauto]. split; [exists l; tauto | reflexivity].
Qed.

(** The target ids [main] computes are the link table's external catalog
    ids: each integer that some link row carries as [tmdbId], once; a
    missing [tmdbId] gives no target. *)
Theorem movie_ids_are_the_links_tmdbIds (L : DataFrame) :
  has_column "tmdbId" L = true ->
  Forall int_or_na (map (get "tmdbId") (rows L)) ->
  exists ids,
    movie_ids L = Ok ids
    /\ NoDup ids
    /\ forall z, In z ids <-> exists l, In l (rows L) /\ get "tmdbId" l = Int z.
Proof.
  intros Hc Hint. rewrite (movie_ids_value L Hc Hint). eexists. split; [reflexivity|]. split.
  - apply integers_NoDup. apply unique_from_NoDup; [apply dropna_Int64; exact Hint | constructor].
  - intro z. apply movie_ids_In. exact Hint.
Qed.

(** ** What [parse_genres] reads *)

Lemma dict_get_found (items : list (pyval * pyval)) (key : string) (d : pyval) :
  truthy (dict_get items key PNone) = true ->
  dict_get items key d = dict_get items key PNone.
Proof.
  unfold dict_get.
  destruct (find (fun kv => match fst kv with PStr k => String.eqb k key | _ => false end) items);
    [reflexivity | discriminate].
Qed.

Section ParserReads.

Variable literal_eval : string -> option pyval.

(** On a text that evaluates to something iterable, [parse_genres] returns
    the names of the elements that count, dictionaries with a non-empty
    "name", in the order of the elements, a repeated name as often as it
    occurs; every other element is passed over. *)
Theorem parse_genres_keeps_order_and_repeats (text : string) (v : pyval)
    (ds names : list pyval) :
  text <> EmptyString ->
  literal_eval text = Some v ->
  iterate v = Ok ds ->
  reads ds names ->
  parse_genres literal_eval (Str text) = Ok names.
Proof.
  intros Hne Hev Hit Hds. unfold parse_genres. cbn [as_str].
  destruct text as [|a text]; [contradiction|].
  rewrite Hev. cbn [bind_result]. rewrite Hit. cbn [bind_result try_except]. f_equal.
  clear Hev Hne Hit.
  induction Hds as [|items x ds names Hx Ht _ IH|d ds names Hskip _ IH]; simpl.
  - reflexivity.
  - rewrite (dict_get_found items "name" (PStr "")) by (rewrite Hx; exact Ht).
    rewrite Hx, Ht, IH. reflexivity.
  - rewrite IH. destruct d; try reflexivity. rewrite (Hskip _ eq_refl). reflexivity.
Qed.

End ParserReads.

(** ** From the normalizer to the expander *)

Lemma map_result_all {A B : Type} (f : A -> result B) (l : list A) :
  (forall a, In a l -> exists b, f a = Ok b) -> exists bs, map_result f l = Ok bs.
Proof.
  induction l as [|a l IH]; simpl; intro H; [exists []; reflexivity|].
  destruct (H a (or_introl eq_refl)) as [b ->].
  destruct IH as [bs ->]; [intros x Hx; apply H; right; exact Hx|].
  exists (b :: bs). reflexivity.
Qed.

Lemma label_of_strings (l : list pyval) :
  (forall v, In v l -> exists s, v = PStr s) -> exists labels, map_result label_of l = Ok labels.
Proof.
  intro H. apply map_result_all. intros v Hv. destruct (H v Hv) as [s ->].
  exists s. reflexivity.
Qed.

Section Stages.

Variable literal_eval : string -> option pyval.
Variable str_to_number : string -> option number.
Variable to_datetime : Series -> Series.

Local Abbreviation genre_names := (genre_names literal_eval).
Local Abbreviation normalize := (normalize literal_eval str_to_number to_datetime).

(** The expander accepts what the normalizer returns: when every genre
    name read in the catalog is a string, the expander returns on every
    table the normalizer returns, with as many rows and the ids in the same
    order. *)
Theorem expander_accepts_the_normalized_table (df : DataFrame) (targets : list Z) :
  (forall r v, In r (rows df) -> In v (genre_names (get "genres" r)) -> exists s, v = PStr s) ->
  forall A,
    returned (normalize df targets) = Ok A ->
    exists B,
      returned (expand A) = Ok B
      /\ List.length (rows B) = List.length (rows A)
      /\ map (get "id") (rows B) = map (get "id") (rows A).
Proof.
  intros Hstr A0 Hout.
  destruct (normalize_returns_frame literal_eval str_to_number to_datetime df targets A0 Hout)
    as [Hm [ids [Hids [-> _]]]].
  unfold normalized.
  set (A := {| columns := normalized_columns; rows := _ |}).
  assert (Hrows : forall r, In r (rows A) ->
            map fst r = normalized_columns
            /\ exists labels, labels_of (get "genre_lst" r) = Ok labels).
  { intros r Hr. unfold A in Hr. cbn [rows] in Hr.
    apply (Permutation_in _ (sort_rows_perm _ _)) in Hr.
    apply in_map_iff in Hr. destruct Hr as [rd [<- Hrd]]. split.
    - apply finish_row_keys.
      pose proof (dated_rows_keys to_datetime df targets ids) as Hk.
      rewrite Forall_forall in Hk. apply Hk. exact Hrd.
    - destruct (dated_rows_from str_to_number to_datetime df targets ids rd Hids Hrd)
        as [r0 [z [Hr0 [_ [_ [_ Hother]]]]]].
      destruct (finish_row_fields literal_eval str_to_number rd)
        as [_ [_ [_ [_ [_ [_ [_ [_ [_ E]]]]]]]]].
      rewrite E, Hother; [| simpl; tauto | discriminate | discriminate].
      cbn [labels_of]. apply label_of_strings. intros v Hv. apply (Hstr r0 v Hr0 Hv). }
  destruct (map_result_all labels_of (map (get "genre_lst") (rows A))) as [y Hy].
  { intros c Hc. apply in_map_iff in Hc. destruct Hc as [r [<- Hr]].
    apply (Hrows r Hr). }
  eexists. split.
  { unfold returned. rewrite (expand_run A y eq_refl Hy). cbn [fst snd nth_error]. reflexivity. }
  cbn [rows].
  assert (Hlen : List.length (map (filter (fun p => negb (mem (fst p) ["genre_lst"]))) (rows A))
                 = List.length (map (indicators (classes_ y)) y)).
  { rewrite !length_map. rewrite (map_result_length _ _ _ Hy), length_map. reflexivity. }
  split.
  - rewrite zip_rows_length by exact Hlen. rewrite length_map. reflexivity.
  - revert Hlen Hrows. generalize (map (indicators (classes_ y)) y). generalize (rows A).
    induction l as [|r rs IH]; intros [|s ss] Hlen Hrows; simpl in *; try discriminate;
      [reflexivity|].
    f_equal.
    + unfold get. rewrite lookup_app, (lookup_filter (fun k => negb (mem k ["genre_lst"]))).
      cbn [mem existsb String.eqb Ascii.eqb Bool.eqb orb negb].
      destruct (lookup_in_keys "id" r) as [v ->]; [|reflexivity].
      destruct (Hrows r (or_introl eq_refl)) as [-> _]. simpl. tauto.
    + apply IH; [injection Hlen as Hlen; exact Hlen|].
      intros x Hx. apply Hrows. right. exact Hx.
Qed.

(** [main] hands the normalizer the link table's ids as targets, so every
    row of every catalog the normalizer then returns carries the [tmdbId]
    of some link row as its id. *)
Theorem normalized_ids_are_link_ids (L df : DataFrame) :
  has_column "tmdbId" L = true ->
  Forall int_or_na (map (get "tmdbId") (rows L)) ->
  exists targets,
    movie_ids L = Ok targets
    /\ forall out,
         returned (normalize df targets) = Ok out ->
         forall r, In r (rows out) ->
           exists l, In l (rows L) /\ get "tmdbId" l = get "id" r.
Proof.
  intros Hc Hint. rewrite (movie_ids_value L Hc Hint).
  eexists. split; [reflexivity|]. intros out Hout r Hr.
  destruct (normalize_returns_frame literal_eval str_to_number to_datetime df _ out Hout)
    as [Hm [ids [Hids [-> _]]]].
  unfold normalized in Hr. cbn [rows] in Hr.
  apply (Permutation_in _ (sort_rows_perm _ _)) in Hr.
  apply in_map_iff in Hr. destruct Hr as [rd [<- Hrd]].
  destruct (dated_rows_from str_to_number to_datetime df _ ids rd Hids Hrd)
    as [r0 [z [_ [_ [Hz [Hid _]]]]]].
  destruct (finish_row_fields literal_eval str_to_number rd) as [E _]. rewrite E, Hid.
  apply (movie_ids_In L z Hint). exact Hz.
Qed.

End Stages.

(** ** From the expander to the reconciler *)

Lemma reconciler_inputs_intro (L M R : DataFrame) :
  inputs_ok L M R -> reconciler_inputs L M R = true.
Proof.
  intros [H1 H2 H3 H4 H5 H6 H7 H8 H9]. unfold reconciler_inputs.
  rewrite !andb_true_iff. repeat split.
  - apply labels_eqb_eq. exact H1.
  - apply wfb_wf. exact H2.
  - apply labels_eqb_eq. exact H3.
  - apply wfb_wf. exact H4.
  - apply mem_In. exact H5.
  - apply mem_In. exact H6.
  - apply nodupb_NoDup. exact H7.
  - apply wfb_wf. exact H8.
  - apply forallb_forall. intros c Hc. apply negb_true_iff, mem_false. apply H9. exact Hc.
Qed.

Lemma expanded_rows_keys (df : DataFrame) (y : list (list string)) :
  wf df ->
  Forall (fun o => map fst o
                   = filter (fun k => negb (mem k ["genre_lst"])) (columns df) ++ classes_ y)
    (zip_rows (map (filter (fun p => negb (mem (fst p) ["genre_lst"]))) (rows df))
       (map (indicators (classes_ y)) y)).
Proof.
  intro Hwf. apply Forall_forall. intros o Ho.
  apply in_zip_rows in Ho. destruct Ho as [r [s [Hr [Hs ->]]]].
  apply in_map_iff in Hr. destruct Hr as [r0 [<- Hr0]].
  apply in_map_iff in Hs. destruct Hs as [labels [<- _]].
  rewrite map_app, keys_indicators, (keys_filter (fun k => negb (mem k ["genre_lst"]))).
  unfold wf in Hwf. rewrite Forall_forall in Hwf. rewrite (Hwf r0 Hr0). reflexivity.
Qed.

(** The reconciler's requirements on its catalog are met by the expanded
    table when they are met by the expander's input and no genre is named
    like a column of the input or like a label the reconciler uses: with a
    link table and a rating table of the pipeline's kind, the three tables
    are tables [merge_datasets] is proved for. *)
Theorem reconciler_accepts_the_expanded_table (L df R : DataFrame) (y : list (list string)) :
  has_column "genre_lst" df = true ->
  map_result labels_of (map (get "genre_lst") (rows df)) = Ok y ->
  reconciler_inputs L df R = true ->
  (forall g, In g (classes_ y) -> ~ In g (columns df) /\ ~ In g reconciler_labels) ->
  exists B,
    returned (expand df) = Ok B
    /\ reconciler_inputs L B R = true.
Proof.
  intros Hc Hy Hin Hg. apply reconciler_inputs_ok in Hin.
  eexists. split.
  { unfold returned. rewrite (expand_run df y Hc Hy). cbn [fst snd nth_error]. reflexivity. }
  apply reconciler_inputs_intro.
  destruct Hin as [H1 H2 H3 H4 H5 H6 H7 H8 H9].
  assert (Hkeep : forall c, In c (columns df) -> c <> "genre_lst" ->
            In c (filter (fun k => negb (mem k ["genre_lst"])) (columns df) ++ classes_ y)).
  { intros c Hcol Hne. apply in_or_app. left. apply filter_In. split; [exact Hcol|].
    apply negb_true_iff, mem_false. simpl. intros [E|[]]. apply Hne. symmetry. exact E. }
  constructor; cbn [columns rows]; try assumption.
  - apply Hkeep; [exact H5 | discriminate].
  - apply Hkeep; [exact H6 | discriminate].
  - apply NoDup_app; [apply NoDup_filter; exact H7 | apply classes_NoDup|].
    intros c Hf Hcl. apply filter_In in Hf. destruct (Hg c Hcl) as [Hn _]. tauto.
  - unfold wf. cbn [columns rows]. apply expanded_rows_keys. exact H8.
  - intros c Hc' Hi. apply in_app_or in Hi. destruct Hi as [Hi|Hi].
    + apply filter_In in Hi. apply (H9 c Hc'). tauto.
    + destruct (Hg c Hi) as [_ Hn]. contradiction.
Qed.

(** * Sample runs *)

Lemma sample_reconciled_returned :
  returned (reconcile sample_links sample_catalog sample_ratings) = Ok sample_reconciled.
Proof. vm_compute. reflexivity. Qed.

Lemma sample_reconciled_unmatched_returned :
  returned (reconcile unmatched_links sample_catalog sample_ratings)
  = Ok sample_reconciled_unmatched.
Proof. vm_compute. reflexivity. Qed.

Lemma sample_reconciled_repeated_returned :
  returned (reconcile (drop_duplicates_all sample_links) sample_catalog repeated_ratings)
  = Ok sample_reconciled_repeated.
Proof. vm_compute. reflexivity. Qed.

Lemma sample_loaded_returned :
  returned (load_imdb_ratings 0 [sample_ratings]) = Ok sample_loaded.
Proof. vm_compute. reflexivity. Qed.

Lemma sample_raw_normalized_returned :
  returned (normalize sample_literal_eval sample_str_to_number sample_to_datetime
              sample_raw [1; 2]%Z) = Ok sample_raw_normalized.
Proof. vm_compute. reflexivity. Qed.

Lemma sample_raw_linked_returned :
  returned (normalize sample_literal_eval sample_str_to_number sample_to_datetime
              sample_raw [1; 99]%Z) = Ok sample_raw_linked.
Proof. vm_compute. reflexivity. Qed.

(** Claim C1, evaluated where it fails.  Two rating rows carry the key
    "tt001", so the link row of movie 10 is joined to both of them: the
    reconciled table has three rows, while the deduplicated link table holds
    two distinct movie ids.  [merge_datasets] deduplicates the catalog on
    its key and joins the rating table as it came. *)
Theorem repeated_rating_keys_multiply_rows :
  exists out,
    returned (reconcile (drop_duplicates_all sample_links) sample_catalog repeated_ratings)
    = Ok out
    /\ List.length (rows out) = 3
    /\ nunique (map (get "movieId") (rows (drop_duplicates_all sample_links))) = 2
    /\ map (get "movieId") (rows out) = [Int 10; Int 10; Int 11].
Proof.
  eexists. split; [vm_compute; reflexivity|]. repeat split.
Qed.

(** Claim C2, evaluated where it fails.  After the call the rating table of
    the caller holds "tt001" where it held " tt001": [merge_datasets]
    assigns the trimmed keys to the [tconst] column of its own argument. *)
Theorem reconciler_overwrites_rating_keys :
  object_after (reconcile sample_links sample_catalog sample_ratings) 2
  = Some {| columns := rating_columns;
            rows := [ [("tconst", Str "tt001"); ("averageRating", Float (Fin (41 # 5)));
                       ("numVotes", Int 100)] ] |}
  /\ object_after (reconcile sample_links sample_catalog sample_ratings) 2
     <> Some sample_ratings.
Proof.
  split; [vm_compute; reflexivity|]. vm_compute. discriminate.
Qed.

(** C3 on three inputs: records without a name, text that is no literal, a number. *)
Lemma parse_genres_never_raises_witness :
  parse_genres sample_literal_eval (Str "[{'id': 18}, 7]") = Ok []
  /\ parse_genres sample_literal_eval (Str "not a list") = Ok []
  /\ parse_genres sample_literal_eval (Int 7) = Ok [].
Proof.
  destruct (parse_genres_never_raises sample_literal_eval (Str "[{'id': 18}, 7]"))
    as [_ [_ [_ [_ H]]]].
  destruct (parse_genres_never_raises sample_literal_eval (Str "not a list"))
    as [_ [_ [_ [H' _]]]].
  destruct (parse_genres_never_raises sample_literal_eval (Int 7)) as [_ [H'' _]].
  split; [|split].
  - apply (H "[{'id': 18}, 7]" (PList [PDict [(PStr "id", PInt 18)]; PInt 7]));
      [reflexivity | reflexivity |].
    intros elements E d Hd [items [v [-> [Hin _]]]]. injection E as <-.
    simpl in Hd. destruct Hd as [Hd|[Hd|[]]]; [|discriminate Hd].
    injection Hd as <-. simpl in Hin. destruct Hin as [Hin|[]]. discriminate Hin.
  - apply (H' "not a list"); reflexivity.
  - apply H''. reflexivity.
Defined.

(** C4 on a frame with three of the nine required columns. *)
Lemma missing_columns_raise_KeyError_witness :
  fst (normalize sample_literal_eval sample_str_to_number sample_to_datetime
         {| columns := ["id"; "title"; "genres"]; rows := [] |} [1%Z])
  = Raise (KeyError ["budget"; "imdb_id"; "original_language"; "release_date";
                     "revenue"; "runtime"])
  /\ snd (normalize sample_literal_eval sample_str_to_number sample_to_datetime
            {| columns := ["id"; "title"; "genres"]; rows := [] |} [1%Z])
     = [{| columns := ["id"; "title"; "genres"]; rows := [] |}].
Proof.
  destruct (missing_columns_raise_KeyError sample_literal_eval sample_str_to_number
              sample_to_datetime {| columns := ["id"; "title"; "genres"]; rows := [] |} [1%Z])
    as [[H _] H'].
  destruct H as [labels Hl].
  - exists "budget". split; [simpl; tauto|]. simpl. intuition discriminate.
  - destruct (H' labels Hl) as [_ [E Hs]]. split; [|exact Hs].
    rewrite Hl, E. reflexivity.
Defined.



(** C9 on a batch of two records, the second without genres. *)
Lemma empty_genre_list_gets_zero_indicators_witness :
  has_column "genre_lst" sample_normalized = true
  /\ map_result labels_of (map (get "genre_lst") (rows sample_normalized))
     = Ok [["Drama"; "Crime"; "Drama"]; []]
  /\ exists out,
       returned (expand sample_normalized) = Ok out
       /\ columns out = ["id"; "title"; "Crime"; "Drama"]
       /\ nth_error (rows out) 1
          = Some [("id", Int 2); ("title", Str "Sabrina"); ("Crime", Int 0); ("Drama", Int 0)].
Proof.
  split; [reflexivity|]. split; [reflexivity|].
  destruct (empty_genre_list_gets_zero_indicators sample_normalized
              [["Drama"; "Crime"; "Drama"]; []] eq_refl eq_refl)
    as [out [E [Hc [_ [_ [_ [_ [_ H]]]]]]]].
  exists out. split; [exact E|]. split; [rewrite Hc; reflexivity|].
  rewrite (H 1 [("id", Int 2); ("title", Str "Sabrina"); ("genre_lst", Obj (PList []))]
             eq_refl eq_refl).
  reflexivity.
Defined.

(** C5 on the sample tables: the link of movie 11 matches no catalog row;
    and on a link table in which no link matches. *)
Lemma unmatched_links_carry_nulls_witness :
  reconciler_inputs sample_links sample_catalog sample_ratings = true
  /\ (exists out,
        returned (reconcile sample_links sample_catalog sample_ratings) = Ok out
        /\ exists o, In o (rows out)
             /\ get "movieId" o = Int 11
             /\ lookup "title" o = Some NA
             /\ lookup "Drama" o = Some NA)
  /\ (exists out,
        returned (reconcile unmatched_links sample_catalog sample_ratings) = Ok out
        /\ exists o, In o (rows out)
             /\ get "movieId" o = Int 11
             /\ lookup "title" o = Some NA
             /\ lookup "Drama" o = Some NA).
Proof.
  split; [reflexivity|]. split.
  - exists sample_reconciled. split; [exact sample_reconciled_returned|].
    destruct (unmatched_links_carry_nulls sample_links sample_catalog sample_ratings eq_refl
                sample_reconciled sample_reconciled_returned) as [H _].
    destruct (H [("movieId", Int 11); ("imdbId", Int 113497); ("tmdbId", Int 99)])
      as [o [Ho [Hm [_ Hc]]]]; [simpl; tauto | reflexivity|].
    exists o. split; [exact Ho|]. split; [exact Hm|]. split.
    + apply (Hc "title"); [simpl; tauto | discriminate].
    + apply (Hc "Drama"); [simpl; tauto | discriminate].
  - exists sample_reconciled_unmatched. split; [exact sample_reconciled_unmatched_returned|].
    destruct (unmatched_links_carry_nulls unmatched_links sample_catalog sample_ratings eq_refl
                sample_reconciled_unmatched sample_reconciled_unmatched_returned) as [H _].
    destruct (H [("movieId", Int 11); ("imdbId", Int 113497); ("tmdbId", Int 99)])
      as [o [Ho [Hm [_ Hc]]]]; [simpl; tauto | reflexivity|].
    exists o. split; [exact Ho|]. split; [exact Hm|]. split.
    + apply (Hc "title"); [simpl; tauto | discriminate].
    + apply (Hc "Drama"); [simpl; tauto | discriminate].
Defined.


(** C7 on the sample catalog: two rows with id 1 and a row without id. *)
Lemma first_catalog_row_wins_witness :
  reconciler_inputs sample_links sample_catalog sample_ratings = true
  /\ exists out,
       returned (reconcile sample_links sample_catalog sample_ratings) = Ok out
       /\ (exists o, In o (rows out)
                     /\ get "movieId" o = Int 10
                     /\ lookup "title" o = Some (Str "Heat"))
       /\ (forall o, In o (rows out) -> get "tmdbId" o = Int 1 ->
             lookup "title" o = Some (Str "Heat") /\ lookup "Drama" o = Some (Int 1))
       /\ returned (reconcile sample_links
                      {| columns := sample_catalog_columns;
                         rows := [sample_heat; sample_unkeyed] |}
                      sample_ratings)
          = Ok out
       /\ returned (reconcile sample_links
                      {| columns := sample_catalog_columns;
                         rows := [sample_heat; sample_heat_again] |}
                      sample_ratings)
          = Ok out.
Proof.
  split; [reflexivity|].
  assert (Hpre : forall p : row, In p [] -> cell_eqb (get "id" p) (get "id" sample_heat) = false)
    by (intros p []).
  destruct (first_catalog_row_wins sample_links sample_catalog sample_ratings
              [] [sample_heat_again; sample_unkeyed] sample_heat
              eq_refl eq_refl eq_refl Hpre sample_reconciled sample_reconciled_returned)
    as [Hex [Hf [Hlater Hnull]]].
  exists sample_reconciled. split; [exact sample_reconciled_returned|].
  split; [|split; [|split; [exact Hlater | exact Hnull]]].
  { destruct (Hex [("movieId", Int 10); ("imdbId", Int 113277); ("tmdbId", Int 1)])
      as [o [Ho [Hm [_ Hc]]]]; [simpl; tauto | reflexivity|].
    exists o. split; [exact Ho|]. split; [exact Hm|].
    apply (Hc "title"); [simpl; tauto | discriminate]. }
  intros o Ho Hk.
  assert (Hkey : cell_eqb (get "id" sample_heat) (get "tmdbId" o) = true)
    by (rewrite Hk; reflexivity).
  split.
  - apply (Hf o Ho Hkey "title"); [simpl; tauto | discriminate].
  - apply (Hf o Ho Hkey "Drama"); [simpl; tauto | discriminate].
Defined.

(** C10 on the sample tables: the link of movie 11 carries imdbId 113497. *)
Lemma published_imdbId_comes_from_catalog_witness :
  reconciler_inputs sample_links sample_catalog sample_ratings = true
  /\ get "imdbId" [("movieId", Int 11); ("imdbId", Int 113497); ("tmdbId", Int 99)]
     = Int 113497
  /\ exists out,
       returned (reconcile sample_links sample_catalog sample_ratings) = Ok out
       /\ (exists o, In o (rows out)
                     /\ get "movieId" o = Int 11
                     /\ lookup "imdbId" o = Some NA)
       /\ (forall o, In o (rows out) -> get "tmdbId" o = Int 1 ->
             lookup "imdbId" o = Some (Str "tt001 "))
       /\ exists out',
            returned (reconcile unmatched_links sample_catalog sample_ratings) = Ok out'
            /\ forall o, In o (rows out') -> lookup "imdbId" o = Some NA.
Proof.
  split; [reflexivity|]. split; [reflexivity|].
  destruct (published_imdbId_comes_from_catalog sample_links sample_catalog sample_ratings
              eq_refl sample_reconciled sample_reconciled_returned) as [H [_ [_ [_ Hpin]]]].
  destruct (published_imdbId_comes_from_catalog unmatched_links sample_catalog sample_ratings
              eq_refl sample_reconciled_unmatched sample_reconciled_unmatched_returned)
    as [_ [_ [_ [_ Hpin']]]].
  exists sample_reconciled. split; [exact sample_reconciled_returned|]. split; [|split].
  - destruct (H [("movieId", Int 11); ("imdbId", Int 113497); ("tmdbId", Int 99)])
      as [o [Ho [Hm [_ Hi]]]]; [simpl; tauto | reflexivity|].
    exists o. split; [exact Ho|]. split; [exact Hm | exact Hi].
  - intros o Ho Hk. rewrite (Hpin o Ho), Hk. reflexivity.
  - exists sample_reconciled_unmatched.
    split; [exact sample_reconciled_unmatched_returned|].
    intros o Ho. rewrite (Hpin' o Ho).
    destruct Ho as [<-|[]]. reflexivity.
Defined.

(** ** The schemas, the loaders and the stages on the sample tables *)

Lemma link_order_is_kept_witness :
  exists out,
    returned (reconcile sample_links sample_catalog sample_ratings) = Ok out
    /\ map (get "movieId") (rows out) = [Int 10; Int 11]
    /\ map (get "tmdbId") (rows out) = [Int 1; Int 99].
Proof.
  exists sample_reconciled. split; [exact sample_reconciled_returned|].
  exact (link_order_is_kept sample_links sample_catalog sample_ratings eq_refl eq_refl
           sample_reconciled sample_reconciled_returned).
Defined.

Lemma one_row_per_link_row_witness :
  exists out,
    returned (reconcile sample_links sample_catalog sample_ratings) = Ok out
    /\ List.length (rows out) = 2
    /\ (nunique (map (get "movieId") (rows sample_links)) = 2 ->
        List.length (rows out) = nunique (map (get "movieId") (rows sample_links))).
Proof.
  exists sample_reconciled. split; [exact sample_reconciled_returned|].
  exact (one_row_per_link_row sample_links sample_catalog sample_ratings eq_refl eq_refl
           sample_reconciled sample_reconciled_returned).
Defined.

Lemma reconciler_keeps_links_and_catalog_witness :
  object_after (reconcile sample_links sample_catalog sample_ratings) 0 = Some sample_links
  /\ object_after (reconcile sample_links sample_catalog sample_ratings) 1
     = Some sample_catalog
  /\ object_after (reconcile sample_links sample_catalog sample_ratings) 2
     = Some {| columns := columns sample_ratings; rows := rating_rows sample_ratings |}
  /\ fst (reconcile sample_links sample_catalog numeric_ratings) = Raise AttributeError
  /\ object_after (reconcile sample_links sample_catalog numeric_ratings) 2
     = Some numeric_ratings.
Proof.
  destruct (reconciler_keeps_links_and_catalog sample_links sample_catalog sample_ratings
              eq_refl) as [H0 [H1 [H2 _]]].
  destruct (reconciler_keeps_links_and_catalog sample_links sample_catalog numeric_ratings
              eq_refl) as [_ [_ [_ H3]]].
  split; [exact H0|]. split; [exact H1|].
  split; [exact (H2 sample_reconciled sample_reconciled_returned)|].
  split; [reflexivity|]. exact (H3 AttributeError eq_refl).
Defined.

Lemma link_rows_are_never_lost_witness :
  exists out,
    returned (reconcile (drop_duplicates_all sample_links) sample_catalog repeated_ratings)
    = Ok out
    /\ (forall l, In l (rows (drop_duplicates_all sample_links)) ->
          exists o, In o (rows out)
                    /\ get "movieId" o = get "movieId" l
                    /\ get "tmdbId" o = get "tmdbId" l)
    /\ (forall o, In o (rows out) ->
          exists l, In l (rows (drop_duplicates_all sample_links))
                    /\ get "movieId" o = get "movieId" l
                    /\ get "tmdbId" o = get "tmdbId" l)
    /\ List.length (rows (drop_duplicates_all sample_links)) <= List.length (rows out).
Proof.
  exists sample_reconciled_repeated. split; [exact sample_reconciled_repeated_returned|].
  exact (link_rows_are_never_lost (drop_duplicates_all sample_links) sample_catalog
           repeated_ratings eq_refl sample_reconciled_repeated
           sample_reconciled_repeated_returned).
Defined.

Lemma reconciled_table_schema_witness :
  exists out,
    returned (reconcile sample_links sample_catalog sample_ratings) = Ok out
    /\ columns out
       = ["movieId"; "tmdbId"; "imdbId"; "title"; "original_language"; "release_date";
          "runtime"; "budget"; "revenue"; "year"; "Crime"; "Drama";
          "imdb_averageRating"; "imdb_numVotes"]
    /\ wf out
    /\ NoDup (columns out).
Proof.
  exists sample_reconciled. split; [exact sample_reconciled_returned|].
  exact (reconciled_table_schema sample_links sample_catalog sample_ratings eq_refl
           sample_reconciled sample_reconciled_returned).
Defined.

Lemma ratings_come_from_the_matching_key_witness :
  exists out,
    returned (reconcile sample_links sample_catalog sample_ratings) = Ok out
    /\ (forall o, In o (rows out) ->
        if rating_match sample_ratings (strip_cell (get "imdbId" o))
        then exists r, In r (rows sample_ratings)
               /\ cell_eqb (strip_cell (get "tconst" r)) (strip_cell (get "imdbId" o)) = true
               /\ lookup "imdb_averageRating" o = lookup "averageRating" r
               /\ lookup "imdb_numVotes" o = lookup "numVotes" r
        else lookup "imdb_averageRating" o = Some NA
             /\ lookup "imdb_numVotes" o = Some NA).
Proof.
  exists sample_reconciled. split; [exact sample_reconciled_returned|].
  exact (ratings_come_from_the_matching_key sample_links sample_catalog sample_ratings eq_refl
           sample_reconciled sample_reconciled_returned).
Defined.

Lemma catalog_without_id_raises_KeyError_witness :
  fst (reconcile sample_links {| columns := ["title"]; rows := [] |} sample_ratings)
  = Raise (KeyError ["tmdbId"])
  /\ object_after (reconcile sample_links {| columns := ["title"]; rows := [] |} sample_ratings) 0
     = Some sample_links
  /\ object_after (reconcile sample_links {| columns := ["title"]; rows := [] |} sample_ratings) 1
     = Some {| columns := ["title"]; rows := [] |}
  /\ object_after (reconcile sample_links {| columns := ["title"]; rows := [] |} sample_ratings) 2
     = Some sample_ratings.
Proof.
  exact (catalog_without_id_raises_KeyError sample_links
           {| columns := ["title"]; rows := [] |} sample_ratings eq_refl eq_refl).
Defined.

Lemma imdb_loader_trims_keys_witness :
  exists R,
    returned (load_imdb_ratings 0 [sample_ratings]) = Ok R
    /\ object_after (load_imdb_ratings 0 [sample_ratings]) 0 = Some R
    /\ columns R = columns sample_ratings
    /\ Forall2 (fun r0 r =>
                  lookup "tconst" r = Some (strip_cell (get "tconst" r0))
                  /\ forall c, c <> "tconst" -> lookup c r = lookup c r0)
         (rows sample_ratings) (rows R)
    /\ Forall (fun r => trimmed (get "tconst" r)) (rows R).
Proof.
  exists sample_loaded. split; [exact sample_loaded_returned|].
  exact (imdb_loader_trims_keys sample_ratings sample_loaded sample_loaded_returned).
Defined.

Lemma imdb_loader_needs_tconst_witness :
  load_imdb_ratings 0 [sample_links] = (Raise (KeyError ["tconst"]), [sample_links]).
Proof. exact (imdb_loader_needs_tconst sample_links eq_refl). Defined.

Lemma imdb_loader_is_idempotent_witness :
  exists R,
    returned (load_imdb_ratings 0 [sample_ratings]) = Ok R
    /\ load_imdb_ratings 0 [R] = (Ok 0, [R]).
Proof.
  exists sample_loaded. split; [exact sample_loaded_returned|].
  exact (imdb_loader_is_idempotent sample_ratings sample_loaded sample_loaded_returned).
Defined.

Lemma loaded_ratings_survive_the_reconciler_witness :
  exists R,
    returned (load_imdb_ratings 0 [sample_ratings]) = Ok R
    /\ object_after (reconcile sample_links sample_catalog R) 2 = Some R.
Proof.
  exists sample_loaded. split; [exact sample_loaded_returned|].
  exact (loaded_ratings_survive_the_reconciler sample_links sample_catalog sample_ratings
           eq_refl sample_loaded sample_loaded_returned).
Defined.

Lemma expander_needs_genre_lst_witness :
  expand sample_links = (Raise (KeyError ["genre_lst"]), [sample_links]).
Proof. exact (expander_needs_genre_lst sample_links eq_refl). Defined.

Lemma links_loader_coerces_and_deduplicates_witness :
  exists out,
    returned (load_movielens_links 0 [sample_links_read]) = Ok out
    /\ columns out = link_columns
    /\ (forall r', In r' (rows out) ->
          exists r, In r (rows sample_links_read) /\ coerced link_columns r r')
    /\ (forall r, In r (rows sample_links_read) ->
          exists r', In r' (rows out) /\ coerced link_columns r r')
    /\ ForallOrdPairs (fun a b => exists c, In c link_columns /\ get c a <> get c b)
         (rows out).
Proof. exact (links_loader_coerces_and_deduplicates sample_links_read eq_refl). Defined.

Lemma links_loader_refuses_fractions_witness :
  fst (load_movielens_links 0 [sample_links_fraction]) = Raise TypeError.
Proof. exact (links_loader_refuses_fractions sample_links_fraction eq_refl eq_refl). Defined.

Lemma normalized_table_schema_witness :
  exists out,
    returned (normalize sample_literal_eval sample_str_to_number sample_to_datetime
                sample_raw [1; 2]%Z) = Ok out
    /\ columns out = normalized_columns
    /\ wf out.
Proof.
  exists sample_raw_normalized. split; [exact sample_raw_normalized_returned|].
  exact (normalized_table_schema sample_literal_eval sample_str_to_number
           sample_to_datetime sample_raw [1; 2]%Z
           sample_raw_normalized sample_raw_normalized_returned).
Defined.

Lemma normalized_rows_are_sorted_by_id_witness :
  exists out,
    returned (normalize sample_literal_eval sample_str_to_number sample_to_datetime
                sample_raw [1; 2]%Z) = Ok out
    /\ StronglySorted (fun a b => id_le (get "id" a) (get "id" b)) (rows out).
Proof.
  exists sample_raw_normalized. split; [exact sample_raw_normalized_returned|].
  exact (normalized_rows_are_sorted_by_id sample_literal_eval sample_str_to_number
           sample_to_datetime sample_raw [1; 2]%Z
           sample_raw_normalized sample_raw_normalized_returned).
Defined.

Lemma year_is_the_year_of_the_release_date_witness :
  exists out,
    returned (normalize sample_literal_eval sample_str_to_number sample_to_datetime
                sample_raw [1; 2]%Z) = Ok out
    /\ forall r, In r (rows out) ->
         get "year" r = year_of (get "release_date" r)
         /\ int_or_na (get "year" r).
Proof.
  exists sample_raw_normalized. split; [exact sample_raw_normalized_returned|].
  exact (year_is_the_year_of_the_release_date sample_literal_eval sample_str_to_number
           sample_to_datetime sample_raw [1; 2]%Z
           sample_raw_normalized sample_raw_normalized_returned).
Defined.

Lemma normalized_rows_come_from_the_catalog_witness :
  exists out,
    returned (normalize sample_literal_eval sample_str_to_number sample_to_datetime
                sample_raw [1; 2]%Z) = Ok out
    /\ forall r, In r (rows out) ->
         exists r0 z,
           In r0 (rows sample_raw)
           /\ astype_Int64_cell (to_numeric_cell sample_str_to_number (get "id" r0))
              = Ok (Int z)
           /\ In z [1; 2]%Z
           /\ get "id" r = Int z
           /\ (forall c, In c ["imdb_id"; "title"; "original_language"] ->
                 get c r = strip_cell (get c r0))
           /\ (forall c, In c ["runtime"; "budget"; "revenue"] ->
                 get c r = to_numeric_cell sample_str_to_number (get c r0))
           /\ get "genre_lst" r
              = Obj (PList (genre_names sample_literal_eval (get "genres" r0))).
Proof.
  exists sample_raw_normalized. split; [exact sample_raw_normalized_returned|].
  exact (normalized_rows_come_from_the_catalog sample_literal_eval sample_str_to_number
           sample_to_datetime sample_raw [1; 2]%Z
           sample_raw_normalized sample_raw_normalized_returned).
Defined.

Lemma fractional_id_raises_TypeError_witness :
  fst (normalize sample_literal_eval sample_str_to_number sample_to_datetime
         sample_raw_fraction [1; 2]%Z) = Raise TypeError.
Proof.
  refine (fractional_id_raises_TypeError sample_literal_eval sample_str_to_number
            sample_to_datetime sample_raw_fraction [1; 2]%Z
            (hd [] (rows sample_raw_fraction)) eq_refl eq_refl _ eq_refl).
  simpl. left. reflexivity.
Defined.

Lemma indicator_is_one_for_the_listed_genres_witness :
  exists out,
    returned (expand sample_normalized) = Ok out
    /\ forall i r, nth_error (rows sample_normalized) i = Some r ->
         exists o labels,
           nth_error (rows out) i = Some o
           /\ labels_of (get "genre_lst" r) = Ok labels
           /\ (forall g, In g ["Crime"; "Drama"] ->
                 lookup g o = Some (Int (if mem g labels then 1 else 0)%Z))
           /\ (forall c, c <> "genre_lst" -> In c (columns sample_normalized) ->
                 lookup c o = lookup c r)
           /\ lookup "genre_lst" o = None.
Proof.
  refine (indicator_is_one_for_the_listed_genres sample_normalized
            [["Drama"; "Crime"; "Drama"]; []] eq_refl eq_refl _ _).
  - apply wfb_wf. reflexivity.
  - intros g Hg Hc. simpl in Hg, Hc. intuition congruence.
Defined.

Lemma expanded_table_is_well_formed_witness :
  exists out,
    returned (expand sample_normalized) = Ok out
    /\ wf out
    /\ NoDup (columns out)
    /\ forall c, In c (columns out)
                 <-> (In c (columns sample_normalized) /\ c <> "genre_lst")
                     \/ In c ["Crime"; "Drama"].
Proof.
  refine (expanded_table_is_well_formed sample_normalized
            [["Drama"; "Crime"; "Drama"]; []] eq_refl eq_refl _ _ _).
  - apply wfb_wf. reflexivity.
  - apply nodupb_NoDup. reflexivity.
  - intros g Hg Hc. simpl in Hg, Hc. intuition congruence.
Defined.

Lemma movie_ids_are_the_links_tmdbIds_witness :
  exists ids,
    movie_ids sample_links = Ok ids
    /\ NoDup ids
    /\ forall z, In z ids <-> exists l, In l (rows sample_links) /\ get "tmdbId" l = Int z.
Proof.
  refine (movie_ids_are_the_links_tmdbIds sample_links eq_refl _).
  simpl. repeat constructor.
Defined.

Lemma parse_genres_keeps_order_and_repeats_witness :
  parse_genres sample_literal_eval_mixed
    (Str "[{'name': 'Drama'}, 7, {'id': 18}, {'name': 'Crime'}, {'name': 'Drama'}]")
  = Ok [PStr "Drama"; PStr "Crime"; PStr "Drama"].
Proof.
  refine (parse_genres_keeps_order_and_repeats sample_literal_eval_mixed
            "[{'name': 'Drama'}, 7, {'id': 18}, {'name': 'Crime'}, {'name': 'Drama'}]"
            (PList [PDict [(PStr "name", PStr "Drama")]; PInt 7; PDict [(PStr "id", PInt 18)];
                    PDict [(PStr "name", PStr "Crime")]; PDict [(PStr "name", PStr "Drama")]])
            _ [PStr "Drama"; PStr "Crime"; PStr "Drama"] _ eq_refl eq_refl _).
  - discriminate.
  - apply reads_name; [reflexivity | reflexivity|].
    apply reads_past; [discriminate|].
    apply reads_past; [intros items E; injection E as <-; reflexivity|].
    apply reads_name; [reflexivity | reflexivity|].
    apply reads_name; [reflexivity | reflexivity|].
    apply reads_end.
Defined.

Lemma expander_accepts_the_normalized_table_witness :
  exists A B,
    returned (normalize sample_literal_eval sample_str_to_number sample_to_datetime
                sample_raw [1; 2]%Z) = Ok A
    /\ returned (expand A) = Ok B
    /\ List.length (rows B) = List.length (rows A)
    /\ map (get "id") (rows B) = map (get "id") (rows A).
Proof.
  exists sample_raw_normalized.
  destruct (expander_accepts_the_normalized_table sample_literal_eval sample_str_to_number
              sample_to_datetime sample_raw [1; 2]%Z) with (A := sample_raw_normalized)
    as [B HB].
  - intros r v [<-|[<-|[<-|[<-|[]]]]] Hv; vm_compute in Hv;
      try contradiction; destruct Hv as [<-|[]]; eexists; reflexivity.
  - exact sample_raw_normalized_returned.
  - exists B. split; [exact sample_raw_normalized_returned | exact HB].
Defined.

Lemma normalized_ids_are_link_ids_witness :
  exists targets out,
    movie_ids sample_links = Ok targets
    /\ returned (normalize sample_literal_eval sample_str_to_number sample_to_datetime
                   sample_raw targets) = Ok out
    /\ forall r, In r (rows out) ->
         exists l, In l (rows sample_links) /\ get "tmdbId" l = get "id" r.
Proof.
  destruct (normalized_ids_are_link_ids sample_literal_eval sample_str_to_number
              sample_to_datetime sample_links sample_raw eq_refl) as [targets [E H]].
  - simpl. repeat constructor.
  - vm_compute in E. injection E as <-.
    exists [1; 99]%Z, sample_raw_linked. split; [reflexivity|].
    split; [exact sample_raw_linked_returned|].
    exact (H sample_raw_linked sample_raw_linked_returned).
Defined.

Lemma reconciler_accepts_the_expanded_table_witness :
  exists B,
    returned (expand sample_expandable) = Ok B
    /\ reconciler_inputs sample_links B sample_ratings = true.
Proof.
  refine (reconciler_accepts_the_expanded_table sample_links sample_expandable sample_ratings
            [["Drama"; "Crime"; "Drama"]; []] eq_refl eq_refl eq_refl _).
  intros g Hg. simpl in Hg. split; intro Hc; simpl in Hc; intuition congruence.
Defined.
